(** * Orientation-specific CheXNet: the training loop and the evaluation routine

    A shallow embedding of [model.py] ([checkpoint], [train_model],
    [train_cnn]) and [eval_model.py] ([make_pred_multilabel]).

    Python floats are IEEE binary64 numbers and are modelled by Rocq's
    primitive floats, so [<] and [>] behave on NaN as they do in Python.
    Exceptions are results of type [outcome]; the file system, the standard
    output and the random generator form an explicit [World] that every
    effectful function threads.  The collaborators that are not part of the
    two source files (the network, the optimiser step, the dataset class,
    scikit-learn's metrics, numpy's mean) are the fields of the class
    [Collaborators]: every statement holds whatever they are. *)

From Stdlib Require Import List ZArith Bool String Lia Floats Uint63.
Import ListNotations.
Set Warnings "-inexact-float".

(** ** Python results and exceptions *)

Inductive exn : Type :=
| ValueError (msg : string)
| IndexError
| KeyError (key : string)
| TypeError
| NameError (name : string)
| ZeroDivisionError
| FileNotFoundError
| FileExistsError.

Inductive outcome (A : Type) : Type :=
| Ret (a : A)
| Raise (e : exn).
Arguments Ret {A} a.
Arguments Raise {A} e.

Definition obind {A B : Type} (c : outcome A) (k : A -> outcome B) : outcome B :=
  match c with
  | Ret a => k a
  | Raise e => Raise e
  end.

Notation "x <~ c ;; k" := (obind c (fun x => k))
  (at level 61, c at next level, right associativity).
Notation "' p <~ c ;; k" := (obind c (fun x => match x with p => k end))
  (at level 61, p pattern, c at next level, right associativity).

(** A [for] loop over a list whose body may raise and has no other effect. *)
Fixpoint for_each {A S : Type} (xs : list A) (body : A -> S -> outcome S) (s : S)
  : outcome S :=
  match xs with
  | [] => Ret s
  | x :: xs' => obind (body x s) (for_each xs' body)
  end.

(** [l[i]] on a Python list or a pandas index. *)
Definition index_at {A : Type} (l : list A) (i : nat) : outcome A :=
  match nth_error l i with
  | Some x => Ret x
  | None => Raise IndexError
  end.

(** [x in l] for strings. *)
Definition str_in (x : string) (l : list string) : bool :=
  existsb (String.eqb x) l.

Definition float_of_nat (n : nat) : float :=
  PrimFloat.of_uint63 (Uint63.of_Z (Z.of_nat n)).

Definition float_of_Z (z : Z) : float :=
  if (z <? 0)%Z then PrimFloat.opp (PrimFloat.of_uint63 (Uint63.of_Z (- z)))
  else PrimFloat.of_uint63 (Uint63.of_Z z).

Definition np_isnan (x : float) : bool := PrimFloat.is_nan x.

(** ** Constants of the two modules *)

Definition ORIENTATION : list string := ["AP"; "PA"; "0"]%string.
Definition BATCH_SIZE : nat := 16.
Definition NUM_EPOCHS : Z := 100.
Definition N_LABELS : nat := 5.
Definition N_ORIENTS : nat := 3.

(** The columns [make_pred_multilabel] scores when [multiclass] is off. *)
Definition FINDINGS : list string :=
  ["No Finding"; "Enlarged Cardiomediastinum"; "Cardiomegaly"; "Lung Opacity";
   "Lung Lesion"; "Edema"; "Consolidation"; "Pneumonia"; "Atelectasis";
   "Pneumothorax"; "Pleural Effusion"; "Pleural Other"; "Fracture";
   "Support Devices"]%string.

Definition ORIENTATIONS_SCORED : list string := ["AP"; "PA"; "0"]%string.

(** torchvision transforms, as the pipelines [train_cnn] composes. *)
Inductive tstep : Type :=
| RandomHorizontalFlip
| Resize (n : nat)
| CenterCrop (n : nat)
| ToTensor
| Normalize (mean std : list float).

Definition transform : Type := list tstep.

Record Transforms : Type := {
  tr_val : transform;
  tr_train : transform
}.

Inductive Criterion : Type := BCELoss | CrossEntropyLoss.

Definition Criterion_eqb (a b : Criterion) : bool :=
  match a, b with
  | BCELoss, BCELoss | CrossEntropyLoss, CrossEntropyLoss => true
  | _, _ => false
  end.

Inductive Activation : Type := Sigmoid | Softmax.

(** A file the code reads or writes with [torch.save] / [torch.load]:
    ['results/checkpoint_' + str(epoch)], or a path given by the caller. *)
Inductive path : Type :=
| CheckpointFile (epoch : Z)
| UserPath (p : string).

(** The keyword arguments of a [CXP.CXPDataset(...)] call; [None] is an
    argument the call leaves out. *)
Record DatasetArgs : Type := {
  path_to_images : string;
  path_to_csv : string;
  fold : string;
  uncertain : option string;
  transform_arg : transform;
  orientation_arg : option string;
  sample : option nat;
  mask : option (list bool);
  verbose_arg : option bool
}.

(** ** Data *)

(** Types of the collaborators: [df.index] entries, image tensors, the label
    tensor of one sample, network weights, Adam's moment estimates, the state
    of torch's random generator, a training batch. *)
Class Types : Type := {
  Ident : Type;
  Image : Type;
  Labels : Type;
  Params : Type;
  AdamState : Type;
  Rng : Type;
  Batch : Type
}.

Section Data.

Context {T : Types}.

(** *** pandas frames *)

Inductive cell : Type :=
| CIdent (i : Ident)
| CStr (s : string)
| CInt (z : Z)
| CFloat (x : float).

(** A Python [dict] with string keys, in insertion order. *)
Definition dict : Type := list (string * cell).

Fixpoint dict_set (k : string) (v : cell) (d : dict) : dict :=
  match d with
  | [] => [(k, v)]
  | (k', v') :: d' =>
      if String.eqb k k' then (k, v) :: d' else (k', v') :: dict_set k v d'
  end.

Fixpoint dict_get (k : string) (d : dict) : option cell :=
  match d with
  | [] => None
  | (k', v) :: d' => if String.eqb k k' then Some v else dict_get k d'
  end.

Definition keys (d : dict) : list string := map fst d.

Record DataFrame : Type := {
  columns : list string;
  rows : list dict
}.

Definition new_frame (cols : list string) : DataFrame :=
  {| columns := cols; rows := [] |}.

Fixpoint insert_sorted (s : string) (l : list string) : list string :=
  match l with
  | [] => [s]
  | t :: l' => if String.leb s t then s :: l else t :: insert_sorted s l'
  end.

Definition sort_strings (l : list string) : list string :=
  fold_right insert_sorted [] l.

(** [df.append(row, ignore_index=True)] with a dict: the row goes last, and
    the keys the frame does not have yet become new columns, after the
    existing ones (pandas before 1.0 adds them in sorted order). *)
Definition df_append (df : DataFrame) (r : dict) : DataFrame :=
  {| columns := columns df ++
       sort_strings (filter (fun k => negb (str_in k (columns df))) (keys r));
     rows := rows df ++ [r] |}.

(** [df[column]]: a missing column raises, a row without the key holds NaN. *)
Definition df_column (df : DataFrame) (c : string) : outcome (list cell) :=
  if str_in c (columns df)
  then Ret (map (fun r => match dict_get c r with
                          | Some v => v
                          | None => CFloat PrimFloat.nan
                          end) (rows df))
  else Raise (KeyError c).

(** [series.as_matrix().astype(int)] and [series.as_matrix()] as the
    arguments of a scikit-learn metric. *)
Definition cell_int (c : cell) : outcome Z :=
  match c with
  | CInt z => Ret z
  | _ => Raise (ValueError "astype(int)")
  end.

Definition cell_float (c : cell) : outcome float :=
  match c with
  | CFloat x => Ret x
  | CInt z => Ret (float_of_Z z)
  | _ => Raise TypeError
  end.

Fixpoint mapM {A B : Type} (f : A -> outcome B) (l : list A) : outcome (list B) :=
  match l with
  | [] => Ret []
  | x :: l' => obind (f x) (fun y => obind (mapM f l') (fun ys => Ret (y :: ys)))
  end.

Record Dataset : Type := {
  df_index : list Ident;             (* dataset.df.index *)
  PRED_LABEL : list string;          (* dataset.PRED_LABEL *)
  len : nat;                         (* len(dataset) *)
  getitem : nat -> Image * Labels    (* dataset[i], without the third field *)
}.

Record Model : Type := {
  params : Params;
  out_features : nat;                (* width of the classifier's output *)
  training : bool                    (* model.training *)
}.

(** [model.train(mode)]. *)
Definition model_train (model : Model) (mode : bool) : Model :=
  {| params := params model; out_features := out_features model; training := mode |}.

Record Optimizer : Type := {
  opt_lr : float;
  opt_betas : float * float;
  opt_eps : float;
  opt_weight_decay : float;
  opt_state : AdamState
}.

(** The dict [checkpoint] hands to [torch.save]. *)
Record CheckpointState : Type := {
  ck_model : Model;
  ck_last_train_loss : float;
  ck_best_val_acc : float;
  ck_metric : DataFrame;
  ck_epoch : Z;
  ck_best_epoch : Z;
  ck_rng_state : Rng;
  ck_LR : float;
  ck_WD : float
}.

(** What the code prints and writes to [results/logger].  Timestamps and
    elapsed times carry no value: the clock is not modelled. *)
Inductive msg : Type :=
| MsgInvalidMetric (metric : string)
| MsgEvaluating (size : nat)
| MsgModelTrain (mode : bool)
| MsgCantCalculate (metric column : string)
| MsgValidatingOnDataset
| MsgTimestamp
| MsgEpoch (epoch num_epochs : Z)
| MsgDashes
| MsgTrainEpoch (epoch : Z) (loss : float) (size : nat)
| MsgTrainEpochComplete
| MsgMetric (metric : DataFrame)
| MsgMeanValAcc (acc : float)
| MsgRunningWithDecay
| MsgDecayLoss (from to : float)
| MsgNewOptimizer (LR : float)
| MsgSavingCheckpoint (epoch : Z)
| MsgBestEpoch (epoch : Z)
| MsgBestTrainLoss (loss : float)
| MsgBestValAcc (acc : float)
| MsgCompleted (total_done : nat)
| MsgNoImprovement
| MsgTrainingComplete
| MsgInvalidOrientation
| MsgRemoveResults
| MsgRunningWith (WD LR : float)
| MsgUsingOrientation (orientation : string)
| MsgFlip (used : bool)
| MsgTransforms (t : Transforms)
| MsgCrossValidating (on : bool)
| MsgOnTrain
| MsgOnVal
| MsgCriterion (c : Criterion)
| MsgTrainingStart
| MsgModelTrainingComplete.

(** Calls that read the data set or the pretrained weights from disk. *)
Inductive call : Type :=
| BuildDataset (args : DatasetArgs)
| BuildDataLoader (fold : string) (shuffle : bool)
| BuildDensenet121.


(** The directory [results/]. *)
Record Results : Type := {
  logger : list msg;                         (* results/logger *)
  log_train : list (list (cell));      (* results/log_train, csv rows *)
  saved : list (Z * CheckpointState);        (* torch.save calls, oldest first *)
  preds_csv : option DataFrame;
  aucs_csv : option DataFrame;
  f1_csv : option DataFrame
}.

Definition empty_results : Results :=
  {| logger := []; log_train := []; saved := [];
     preds_csv := None; aucs_csv := None; f1_csv := None |}.

Record World : Type := {
  results : option Results;                  (* None: results/ does not exist *)
  stdout : list msg;
  user_files : list (string * CheckpointState);
  rng : Rng;
  calls : list call
}.

Definition set_results (r : option Results) (w : World) : World :=
  {| results := r; stdout := stdout w; user_files := user_files w;
     rng := rng w; calls := calls w |}.

Definition set_rng (g : Rng) (w : World) : World :=
  {| results := results w; stdout := stdout w; user_files := user_files w;
     rng := g; calls := calls w |}.

End Data.

(** ** The collaborators *)

(** What the two source files use and do not define:
    - [as_row]: [true_labels[j, :]] of a sample;
    - [label_binarize]: the row [label_binarize(true_labels, classes=[0, 1, 2])[j, :]];
    - [predict]: [model(inputs)] in evaluation mode, the score of one image at
      output [k];
    - [roc_auc_score], [f1_score]: the metrics of [sklearn.metrics], where
      [Raise] is any exception;
    - [np_mean]: [ndarray.mean()] on a one-dimensional float64 array;
    - [CXPDataset]: the constructor of [cxp_dataset.CXPDataset];
    - [batch_len]: [inputs.shape[0]] of a training batch;
    - [sgd_step]: the forward computation, the loss, [loss.backward()] and
      [optimizer.step()] on a batch, giving the optimiser and the weights
      after the step, and [loss.data.item()];
    - [adam_init]: the state of a new Adam optimiser over the trainable weights;
    - [use_gpu]: [torch.cuda.is_available()], read when the module is imported;
    - [densenet121]: [models.densenet121(pretrained=True)];
    - [new_classifier]: the weights with a new, randomly initialised
      [nn.Sequential(nn.Linear(num_ftrs, n), activation)] as classifier;
    - [shuffled_loader]: iterating a
      [DataLoader(dataset, batch_size, shuffle=True, num_workers=8)] once;
    - [random_mask]: the draw [np.random.rand(NUM_IMAGES) < .8] of this run. *)
Class Collaborators (T : Types) : Type := {
  as_row : Labels -> list Z;
  label_binarize : Labels -> list Z;
  predict : Params -> Image -> nat -> float;
  roc_auc_score : list Z -> list float -> outcome float;
  f1_score : list Z -> list float -> outcome float;
  np_mean : list float -> float;
  CXPDataset : DatasetArgs -> Dataset;
  batch_len : Batch -> nat;
  sgd_step : Criterion -> Optimizer -> Params -> Batch -> Optimizer * Params * float;
  adam_init : Params -> AdamState;
  use_gpu : bool;
  densenet121 : Params;
  new_classifier : Params -> nat -> Activation -> Rng -> Params * Rng;
  shuffled_loader : Dataset -> nat -> Rng -> list Batch * Rng;
  random_mask : nat -> list bool
}.

(** ** The program *)

Section Program.

Context {T : Types} {C : Collaborators T}.

(** *** The monad of effects *)

Definition M (A : Type) : Type := World -> outcome A * World.

Definition ret {A : Type} (a : A) : M A := fun w => (Ret a, w).

Definition raise {A : Type} (e : exn) : M A := fun w => (Raise e, w).

Definition bind {A B : Type} (c : M A) (k : A -> M B) : M B :=
  fun w => match c w with
           | (Ret a, w') => k a w'
           | (Raise e, w') => (Raise e, w')
           end.

Definition lift {A : Type} (o : outcome A) : M A := fun w => (o, w).

Notation "x <- c ;; k" := (bind c (fun x => k))
  (at level 61, c at next level, right associativity).
Notation "' p <- c ;; k" := (bind c (fun x => match x with p => k end))
  (at level 61, p pattern, c at next level, right associativity).
Notation "c ;;; k" := (bind c (fun _ => k))
  (at level 61, right associativity).

Definition when (b : bool) (c : M unit) : M unit := if b then c else ret tt.

Definition print (m : msg) : M unit :=
  fun w => (Ret tt, {| results := results w; stdout := stdout w ++ [m];
                       user_files := user_files w; rng := rng w; calls := calls w |}).

Definition record_call (c : call) : M unit :=
  fun w => (Ret tt, {| results := results w; stdout := stdout w;
                       user_files := user_files w; rng := rng w;
                       calls := calls w ++ [c] |}).

(** A write below [results/]: it fails when the directory is missing. *)
Definition in_results (f : Results -> Results) : M unit :=
  fun w => match results w with
           | Some r => (Ret tt, set_results (Some (f r)) w)
           | None => (Raise FileNotFoundError, w)
           end.

(** [with open("results/logger", 'a') as logfile: logfile.write(m)]. *)
Definition log (m : msg) : M unit :=
  in_results (fun r =>
    {| logger := logger r ++ [m]; log_train := log_train r; saved := saved r;
       preds_csv := preds_csv r; aucs_csv := aucs_csv r; f1_csv := f1_csv r |}).

(** A message that is printed and then logged. *)
Definition say (m : msg) : M unit := print m ;;; log m.

Definition write_preds (df : DataFrame) : M unit :=
  in_results (fun r =>
    {| logger := logger r; log_train := log_train r; saved := saved r;
       preds_csv := Some df; aucs_csv := aucs_csv r; f1_csv := f1_csv r |}).

Definition write_aucs (df : DataFrame) : M unit :=
  in_results (fun r =>
    {| logger := logger r; log_train := log_train r; saved := saved r;
       preds_csv := preds_csv r; aucs_csv := Some df; f1_csv := f1_csv r |}).

Definition write_f1 (df : DataFrame) : M unit :=
  in_results (fun r =>
    {| logger := logger r; log_train := log_train r; saved := saved r;
       preds_csv := preds_csv r; aucs_csv := aucs_csv r; f1_csv := Some df |}).

Definition new_CXPDataset (args : DatasetArgs) : M Dataset :=
  record_call (BuildDataset args) ;;; ret (CXPDataset args).

(** A loop whose body has effects. *)
Fixpoint forM {A S : Type} (xs : list A) (body : A -> S -> M S) (s : S) : M S :=
  match xs with
  | [] => ret s
  | x :: xs' => s' <- body x s ;; forM xs' body s'
  end.

Definition enumerate {A : Type} (l : list A) : list (nat * A) :=
  combine (seq 0 (List.length l)) l.

(** *** eval_model.py *)

(** [torch.utils.data.DataLoader(dataset, batch_size, shuffle=False)]: the
    samples in index order, cut into batches; the last one may be shorter.
    The code builds it with [BATCH_SIZE]; a batch size of 0, which torch
    refuses, gives no batch here. *)
Definition num_batches (n batch_size : nat) : nat :=
  (n + batch_size - 1) / batch_size.

Definition DataLoader (dataset : Dataset) (batch_size : nat)
  : list (list (Image * Labels)) :=
  map (fun i => map (getitem dataset)
                  (seq (batch_size * i)
                       (Nat.min batch_size (len dataset - batch_size * i))))
      (seq 0 (num_batches (len dataset) batch_size)).

(** [probs[j, k]] for the image of sample [j]. *)
Definition probs_at (model : Model) (image : Image) (k : nat) : outcome float :=
  if k <? out_features model then Ret (predict (params model) image k)
  else Raise IndexError.

(** The body of [for k in range(len(dataset.PRED_LABEL))]. *)
Definition label_entry (dataset : Dataset) (model : Model) (item : Image * Labels)
    (k : nat) (rws : dict * dict) : outcome (dict * dict) :=
  let '(thisrow, truerow) := rws in
  p <~ probs_at model (fst item) k ;;
  name <~ index_at (PRED_LABEL dataset) k ;;
  let thisrow := dict_set ("prob_" ++ name) (CFloat p) thisrow in
  t <~ index_at (as_row (snd item)) k ;;
  name <~ index_at (PRED_LABEL dataset) k ;;
  Ret (thisrow, dict_set name (CInt t) truerow).

(** The body of [for k in range(probs.shape[1])]. *)
Definition orientation_entry (model : Model) (item : Image * Labels)
    (k : nat) (rws : dict * dict) : outcome (dict * dict) :=
  let '(thisrow, truerow) := rws in
  p <~ probs_at model (fst item) k ;;
  name <~ index_at ORIENTATION k ;;
  let thisrow := dict_set ("prob_" ++ name) (CFloat p) thisrow in
  b <~ index_at (label_binarize (snd item)) k ;;
  name <~ index_at ORIENTATION k ;;
  Ret (thisrow, dict_set name (CInt b) truerow).

(** The body of [for j in range(0, batch_size[0])], in batch [i]. *)
Definition sample_rows (batch_size : nat) (multiclass : bool) (dataset : Dataset)
    (model : Model) (i : nat) (jitem : nat * (Image * Labels))
    (dfs : DataFrame * DataFrame) : outcome (DataFrame * DataFrame) :=
  let '(j, item) := jitem in
  let '(pred_df, true_df) := dfs in
  ident <~ index_at (df_index dataset) (batch_size * i + j) ;;
  let thisrow := dict_set "Image Index" (CIdent ident) [] in
  ident <~ index_at (df_index dataset) (batch_size * i + j) ;;
  let truerow := dict_set "Image Index" (CIdent ident) [] in
  ' (thisrow, truerow) <~
    (if negb multiclass
     then for_each (seq 0 (List.length (PRED_LABEL dataset)))
                   (label_entry dataset model item) (thisrow, truerow)
     else for_each (seq 0 (out_features model))
                   (orientation_entry model item) (thisrow, truerow)) ;;
  Ret (df_append pred_df thisrow, df_append true_df truerow).

(** The body of [for i, data in enumerate(dataloader)]. *)
Definition batch_rows (batch_size : nat) (multiclass : bool) (dataset : Dataset)
    (model : Model) (idata : nat * list (Image * Labels))
    (dfs : DataFrame * DataFrame) : outcome (DataFrame * DataFrame) :=
  let '(i, data) := idata in
  for_each (enumerate data) (sample_rows batch_size multiclass dataset model i) dfs.

(** The prediction pass: [pred_df] and [true_df] after the loop over the
    loader, for a loader of batch size [batch_size]. *)
Definition collect_rows (batch_size : nat) (multiclass : bool) (dataset : Dataset)
    (model : Model) : outcome (DataFrame * DataFrame) :=
  for_each (enumerate (DataLoader dataset batch_size))
           (batch_rows batch_size multiclass dataset model)
           (new_frame ["Image Index"%string], new_frame ["Image Index"%string]).

(** [metric_fn(actual.as_matrix().astype(int), pred.as_matrix())]. *)
Definition call_metric (metric_fn : list Z -> list float -> outcome float)
    (actual pred : list (cell)) : outcome float :=
  ints <~ mapM cell_int actual ;;
  floats <~ mapM cell_float pred ;;
  metric_fn ints floats.

(** [df = df.append(thisrow, ...)] on [auc_df] or [f1_df]; the variable is
    bound only when [metric] named it. *)
Definition append_score (name : string) (score_df : option DataFrame) (thisrow : dict)
  : M (option DataFrame) :=
  match score_df with
  | Some df => ret (Some (df_append df thisrow))
  | None => raise (NameError name)
  end.

(** The body of [for column in true_df]; [score_df] is [auc_df] or [f1_df]. *)
Definition score_column (metric : string) (multiclass verbose : bool)
    (pred_df true_df : DataFrame) (column : string) (score_df : option DataFrame)
  : M (option DataFrame) :=
  if negb multiclass && negb (str_in column FINDINGS) then ret score_df
  else if multiclass && negb (str_in column ORIENTATIONS_SCORED) then ret score_df
  else
    actual <- lift (df_column true_df column) ;;
    pred <- lift (df_column pred_df ("prob_" ++ column)) ;;
    let thisrow := dict_set "label" (CStr column) [] in
    if String.eqb metric "auc" then
      let thisrow := dict_set "auc" (CFloat PrimFloat.nan) thisrow in
      thisrow <- match call_metric roc_auc_score actual pred with
                 | Ret v => ret (dict_set "auc" (CFloat v) thisrow)
                 | Raise _ =>
                     when verbose (print (MsgCantCalculate "auc" column)) ;;;
                     ret thisrow
                 end ;;
      append_score "auc_df" score_df thisrow
    else if String.eqb metric "f1" then
      let thisrow := dict_set "f1" (CFloat PrimFloat.nan) thisrow in
      v <- lift (call_metric f1_score actual pred) ;;
      let thisrow := dict_set "f1" (CFloat v) thisrow in
      thisrow <- match call_metric f1_score actual pred with
                 | Ret v => ret (dict_set "f1" (CFloat v) thisrow)
                 | Raise _ =>
                     when verbose (print (MsgCantCalculate "f1" column)) ;;;
                     ret thisrow
                 end ;;
      append_score "f1_df" score_df thisrow
    else ret score_df.

(** [make_pred_multilabel].  The model object is shared with the caller, so
    the model it leaves behind (in evaluation mode) is returned too. *)
Definition make_pred_multilabel (data_transforms : Transforms) (model : Model)
    (PATH_TO_IMAGES PATH_TO_CSV metric : string) (multiclass : bool)
    (dataset : option Dataset) (verbose : bool)
  : M (Model * option (DataFrame * DataFrame)) :=
  when (negb (str_in metric ["auc"; "f1"]%string)) (print (MsgInvalidMetric metric)) ;;;
  let model := model_train model false in
  dataset <- match dataset with
             | None =>
                 new_CXPDataset
                   {| path_to_images := PATH_TO_IMAGES; path_to_csv := PATH_TO_CSV;
                      fold := "val"; uncertain := None;
                      transform_arg := tr_val data_transforms;
                      orientation_arg := None; sample := None; mask := None;
                      verbose_arg := None |}
             | Some d => ret d
             end ;;
  let size := len dataset in
  print (MsgEvaluating size) ;;;
  print (MsgModelTrain (training model)) ;;;
  ' (pred_df, true_df) <- lift (collect_rows BATCH_SIZE multiclass dataset model) ;;
  let score_df :=
    if String.eqb metric "auc" then Some (new_frame ["label"; "auc"]%string)
    else if String.eqb metric "f1" then Some (new_frame ["label"; "f1"]%string)
    else None in
  score_df <- forM (columns true_df)
                   (score_column metric multiclass verbose pred_df true_df) score_df ;;
  write_preds pred_df ;;;
  if String.eqb metric "auc" then
    match score_df with
    | Some auc_df => write_aucs auc_df ;;; ret (model, Some (pred_df, auc_df))
    | None => raise (NameError "auc_df")
    end
  else if String.eqb metric "f1" then
    match score_df with
    | Some f1_df => write_f1 f1_df ;;; ret (model, Some (pred_df, f1_df))
    | None => raise (NameError "f1_df")
    end
  else ret (model, None).

(** *** model.py: checkpoints *)

(** [torch.save(state, p)] and [torch.load(p)]; a name below [results/]
    holds what was saved under it last. *)
Definition torch_save (state : CheckpointState) (p : path) : M unit :=
  match p with
  | CheckpointFile epoch =>
      in_results (fun r =>
        {| logger := logger r; log_train := log_train r;
           saved := saved r ++ [(epoch, state)];
           preds_csv := preds_csv r; aucs_csv := aucs_csv r; f1_csv := f1_csv r |})
  | UserPath name =>
      fun w => (Ret tt, {| results := results w; stdout := stdout w;
                           user_files := (name, state) :: user_files w;
                           rng := rng w; calls := calls w |})
  end.

Fixpoint last_saved (epoch : Z) (l : list (Z * CheckpointState))
  : option CheckpointState :=
  match l with
  | [] => None
  | (e, state) :: l' =>
      match last_saved epoch l' with
      | Some later => Some later
      | None => if (e =? epoch)%Z then Some state else None
      end
  end.

Fixpoint find_file (name : string) (l : list (string * CheckpointState))
  : option CheckpointState :=
  match l with
  | [] => None
  | (n, state) :: l' => if String.eqb n name then Some state else find_file name l'
  end.

Definition torch_load (p : path) : M CheckpointState :=
  fun w =>
    let found :=
      match p with
      | CheckpointFile epoch =>
          match results w with
          | Some r => last_saved epoch (saved r)
          | None => None
          end
      | UserPath name => find_file name (user_files w)
      end in
    match found with
    | Some state => (Ret state, w)
    | None => (Raise FileNotFoundError, w)
    end.

Definition get_rng_state : M Rng := fun w => (Ret (rng w), w).

(** [checkpoint]. *)
Definition checkpoint (model : Model) (last_train_loss best_val_acc : float)
    (metric : DataFrame) (epoch best_epoch : Z) (LR WD : float) : M unit :=
  rng_state <- get_rng_state ;;
  let state :=
    {| ck_model := model;
       ck_last_train_loss := last_train_loss;
       ck_best_val_acc := best_val_acc;
       ck_metric := metric;
       ck_epoch := epoch;
       ck_best_epoch := best_epoch;
       ck_rng_state := rng_state;
       ck_LR := LR;
       ck_WD := WD |} in
  torch_save state (CheckpointFile epoch).

(** *** model.py: the training loop *)

(** [optim.Adam(filter(lambda p: p.requires_grad, model.parameters()), ...)]. *)
Definition Adam (model : Model) (lr : float) (betas : float * float)
    (eps weight_decay : float) : Optimizer :=
  {| opt_lr := lr; opt_betas := betas; opt_eps := eps;
     opt_weight_decay := weight_decay; opt_state := adam_init (params model) |}.

(** [range(a, b)]. *)
Definition py_range (a b : Z) : list Z :=
  map (fun i => (a + Z.of_nat i)%Z) (seq 0 (Z.to_nat (b - a))).

(** The entries of [metric.as_matrix(columns=metric.columns[1:])], row by row. *)
Definition flatten_tail (metric : DataFrame) : list (cell) :=
  flat_map (fun r => map (fun c => match dict_get c r with
                                   | Some v => v
                                   | None => CFloat PrimFloat.nan
                                   end) (tl (columns metric)))
           (rows metric).

(** [auc = metric.as_matrix(columns=metric.columns[1:])] followed by
    [auc[~np.isnan(auc)]]: the entries that are not NaN, row by row.  A frame
    without rows gives an array of objects, on which [np.isnan] raises, as it
    does on an entry that is not a number. *)
Definition defined_values (metric : DataFrame) : outcome (list float) :=
  match rows metric with
  | [] => Raise TypeError
  | _ :: _ =>
      auc <~ mapM cell_float (flatten_tail metric) ;;
      Ret (filter (fun x => negb (np_isnan x)) auc)
  end.

(** The local variables of [train_model] that live across epochs. *)
Record TrainState : Type := {
  st_model : Model;
  st_optimizer : Optimizer;
  st_LR : float;
  st_best_loss : float;
  st_best_val_acc : float;
  st_best_epoch : Z;
  st_last_train_loss : float;
  st_last_val_acc : float
}.

(** The variables of the loop over the training batches. *)
Record BatchState : Type := {
  bs_optimizer : Optimizer;
  bs_params : Params;
  bs_running_loss : float;
  bs_batch_size : option nat       (* unbound before the first batch *)
}.

Section TrainModel.

(** The arguments of [train_model] that no statement assigns to;
    [dataloaders] is iterating [dataloaders['train']] once (a shuffled pass
    that advances the random generator), [dataset_sizes] is
    [dataset_sizes['train']]. *)
Variable criterion : Criterion.
Variable num_epochs : Z.
Variable dataloaders : Rng -> list Batch * Rng.
Variable dataset_sizes : nat.
Variable weight_decay : float.
Variable dataset : Dataset.
Variable data_transforms : Transforms.
Variables PATH_TO_IMAGES PATH_TO_CSV : string.
Variable val_on_dataset : bool.

Definition next_batches : M (list Batch) :=
  fun w => let '(batches, g) := dataloaders (rng w) in (Ret batches, set_rng g w).

(** The body of [for data in dataloaders['train']]. *)
Definition train_batch (b : BatchState) (data : Batch) : BatchState :=
  let batch_size := batch_len data in
  let '(optimizer, weights, loss) :=
    sgd_step criterion (bs_optimizer b) (bs_params b) data in
  {| bs_optimizer := optimizer;
     bs_params := weights;
     bs_running_loss :=
       PrimFloat.add (bs_running_loss b) (PrimFloat.mul loss (float_of_nat batch_size));
     bs_batch_size := Some batch_size |}.

(** Lines 117-183: the training pass of an epoch.  Returns the state with the
    trained model and the losses, and [batch_size] as the last batch left it. *)
Definition train_pass (epoch : Z) (st : TrainState) : M (TrainState * option nat) :=
  print (MsgEpoch epoch num_epochs) ;;;
  print MsgDashes ;;;
  log (MsgEpoch epoch num_epochs) ;;;
  log MsgDashes ;;;
  let model := model_train (st_model st) true in
  print (MsgModelTrain (training model)) ;;;
  batches <- next_batches ;;
  let b := fold_left train_batch batches
             {| bs_optimizer := st_optimizer st; bs_params := params model;
                bs_running_loss := 0%float; bs_batch_size := None |} in
  let model := {| params := bs_params b; out_features := out_features model;
                  training := training model |} in
  epoch_loss <- (if Nat.eqb dataset_sizes 0 then raise ZeroDivisionError
                 else ret (PrimFloat.div (bs_running_loss b) (float_of_nat dataset_sizes))) ;;
  say MsgTimestamp ;;;
  say (MsgTrainEpoch epoch epoch_loss dataset_sizes) ;;;
  say MsgTrainEpochComplete ;;;
  let last_train_loss := epoch_loss in
  let best_loss := if PrimFloat.ltb epoch_loss (st_best_loss st)
                   then epoch_loss else st_best_loss st in
  ret ({| st_model := model;
          st_optimizer := bs_optimizer b;
          st_LR := st_LR st;
          st_best_loss := best_loss;
          st_best_val_acc := st_best_val_acc st;
          st_best_epoch := st_best_epoch st;
          st_last_train_loss := last_train_loss;
          st_last_val_acc := st_last_val_acc st |}, bs_batch_size b).

(** Lines 187-196: the call of [E.make_pred_multilabel] and the unpacking of
    its result into [_, metric]. *)
Definition evaluate (model : Model) : M (Model * DataFrame) :=
  r <- (if Criterion_eqb criterion BCELoss then
          if val_on_dataset
          then make_pred_multilabel data_transforms model PATH_TO_IMAGES PATH_TO_CSV
                 "auc" false (Some dataset) false
          else make_pred_multilabel data_transforms model PATH_TO_IMAGES PATH_TO_CSV
                 "auc" false None false
        else make_pred_multilabel data_transforms model PATH_TO_IMAGES PATH_TO_CSV
               "auc" true (Some dataset) false) ;;
  match snd r with
  | Some (_, metric) => ret (fst r, metric)
  | None => raise TypeError
  end.

(** Lines 198-207: the mean validation score of the epoch. *)
Definition validation_score (metric : DataFrame) : M float :=
  auc <- lift (defined_values metric) ;;
  let last_val_acc := np_mean auc in
  print (MsgMetric metric) ;;;
  log (MsgMetric metric) ;;;
  say (MsgMeanValAcc last_val_acc) ;;;
  ret last_val_acc.

(** Lines 209-231: decay of the learning rate. *)
Definition decay_learning_rate (st : TrainState) : M TrainState :=
  if PrimFloat.ltb (st_last_val_acc st) (st_best_val_acc st) then
    let LR := st_LR st in
    say MsgRunningWithDecay ;;;
    say (MsgDecayLoss LR (PrimFloat.div LR 10%float)) ;;;
    let LR := PrimFloat.div LR 10%float in
    let optimizer :=
      Adam (st_model st) LR (0.9%float, 0.999%float) 1e-08%float weight_decay in
    say (MsgNewOptimizer LR) ;;;
    ret {| st_model := st_model st;
           st_optimizer := optimizer;
           st_LR := LR;
           st_best_loss := st_best_loss st;
           st_best_val_acc := st_best_val_acc st;
           st_best_epoch := st_best_epoch st;
           st_last_train_loss := st_last_train_loss st;
           st_last_val_acc := st_last_val_acc st |}
  else ret st.

(** Lines 234-237: the best validation score so far. *)
Definition track_best (epoch : Z) (st : TrainState) : TrainState :=
  if PrimFloat.ltb (st_best_val_acc st) (st_last_val_acc st) then
    {| st_model := st_model st;
       st_optimizer := st_optimizer st;
       st_LR := st_LR st;
       st_best_loss := st_best_loss st;
       st_best_val_acc := st_last_val_acc st;
       st_best_epoch := epoch;
       st_last_train_loss := st_last_train_loss st;
       st_last_val_acc := st_last_val_acc st |}
  else st.

(** Lines 239-267: the checkpoint of the epoch and the logs. *)
Definition save_and_log (epoch : Z) (metric : DataFrame) (batch_size : option nat)
    (st : TrainState) : M unit :=
  say (MsgSavingCheckpoint epoch) ;;;
  checkpoint (st_model st) (st_last_train_loss st) (st_last_val_acc st) metric
             epoch (st_best_epoch st) (st_LR st) weight_decay ;;;
  in_results (fun r =>
    {| logger := logger r;
       log_train :=
         log_train r ++
         (if (epoch =? 1)%Z
          then [[CStr "epoch"; CStr "train_loss"; CStr "average auc"]] else []) ++
         [[CInt epoch; CFloat (st_last_train_loss st); CFloat (st_last_val_acc st)]];
       saved := saved r;
       preds_csv := preds_csv r; aucs_csv := aucs_csv r; f1_csv := f1_csv r |}) ;;;
  say (MsgBestEpoch (st_best_epoch st)) ;;;
  say (MsgBestTrainLoss (st_best_loss st)) ;;;
  say (MsgBestValAcc (st_best_val_acc st)) ;;;
  match batch_size with
  | None => raise (NameError "batch_size")
  | Some batch_size =>
      let total_done := 0 + batch_size in
      if Nat.eqb (100 * batch_size) 0 then raise ZeroDivisionError
      else when (Nat.eqb (total_done mod (100 * batch_size)) 0)
                (say (MsgCompleted total_done))
  end.

(** The body of [for epoch in range(start_epoch, num_epochs + 1)]; the
    boolean tells whether the epoch ended in [break]. *)
Definition epoch_body (epoch : Z) (st : TrainState) : M (TrainState * bool) :=
  ' (st, batch_size) <- train_pass epoch st ;;
  ' (model, metric) <- evaluate (st_model st) ;;
  last_val_acc <- validation_score metric ;;
  let st := {| st_model := model;
               st_optimizer := st_optimizer st;
               st_LR := st_LR st;
               st_best_loss := st_best_loss st;
               st_best_val_acc := st_best_val_acc st;
               st_best_epoch := st_best_epoch st;
               st_last_train_loss := st_last_train_loss st;
               st_last_val_acc := last_val_acc |} in
  st <- decay_learning_rate st ;;
  let st := track_best epoch st in
  save_and_log epoch metric batch_size st ;;;
  if (epoch - st_best_epoch st >=? 3)%Z then
    say MsgNoImprovement ;;;
    ret (st, true)
  else ret (st, false).

Fixpoint epochs_loop (epochs : list Z) (st : TrainState) : M TrainState :=
  match epochs with
  | [] => ret st
  | epoch :: rest =>
      ' (st, stop) <- epoch_body epoch st ;;
      if stop then ret st else epochs_loop rest st
  end.

(** Lines 99-104: the variables before the first epoch. *)
Definition initial_state (model : Model) (optimizer : Optimizer) (LR : float)
  : TrainState :=
  {| st_model := model;
     st_optimizer := optimizer;
     st_LR := LR;
     st_best_loss := 999999%float;
     st_best_val_acc := 0%float;
     st_best_epoch := (-1)%Z;
     st_last_train_loss := (-1)%float;
     st_last_val_acc := 0%float |}.

(** Lines 106-113: the messages before the first epoch. *)
Definition prologue : M unit :=
  when val_on_dataset (say MsgValidatingOnDataset) ;;;
  say MsgTimestamp.

(** [train_model]. *)
Definition train_model (model : Model) (optimizer : Optimizer) (LR : float)
  : M (Model * Z) :=
  let start_epoch := 1%Z in
  let st := initial_state model optimizer LR in
  prologue ;;;
  st <- epochs_loop (py_range start_epoch (num_epochs + 1)) st ;;
  say MsgTrainingComplete ;;;
  checkpoint_best <- torch_load (CheckpointFile (st_best_epoch st)) ;;
  let model := ck_model checkpoint_best in
  ret (model, st_best_epoch st).

End TrainModel.

(** *** model.py: the driver *)

Definition os_path_exists_results : M bool :=
  fun w => (Ret (match results w with Some _ => true | None => false end), w).

Definition rmtree_results : M unit :=
  fun w => match results w with
           | Some _ => (Ret tt, set_results None w)
           | None => (Raise FileNotFoundError, w)
           end.

Definition os_makedirs_results : M unit :=
  fun w => match results w with
           | Some _ => (Raise FileExistsError, w)
           | None => (Ret tt, set_results (Some empty_results) w)
           end.

(** [try: c except BaseException: h]. *)
Definition try_except {A : Type} (c : M A) (h : M A) : M A :=
  fun w => match c w with
           | (Ret a, w') => (Ret a, w')
           | (Raise _, w') => h w'
           end.

Definition mean : list float := [0.485; 0.456; 0.406]%float.
Definition std : list float := [0.229; 0.224; 0.225]%float.

Definition val_transform : transform :=
  [Resize 224; CenterCrop 224; ToTensor; Normalize mean std].

Definition train_transform (orientation : string) : transform :=
  if String.eqb orientation "all"
  then [RandomHorizontalFlip; Resize 224; CenterCrop 224; ToTensor; Normalize mean std]
  else [Resize 224; CenterCrop 224; ToTensor; Normalize mean std].

(** Lines 378-445: [transformed_datasets['train']] and [transformed_datasets['val']]. *)
Definition build_datasets (PATH_TO_IMAGES PATH_TO_CSV orientation : string)
    (cross_val_on_train : bool) (NUM_IMAGES : nat) (data_transforms : Transforms)
  : M (Dataset * Dataset) :=
  if negb cross_val_on_train then
    say (MsgCrossValidating false) ;;;
    say MsgOnTrain ;;;
    train <- new_CXPDataset
               {| path_to_images := PATH_TO_IMAGES; path_to_csv := PATH_TO_CSV;
                  fold := "train"; uncertain := Some "ones"%string;
                  transform_arg := tr_train data_transforms;
                  orientation_arg := Some orientation; sample := Some NUM_IMAGES;
                  mask := None; verbose_arg := Some true |} ;;
    say MsgOnVal ;;;
    val <- new_CXPDataset
             {| path_to_images := PATH_TO_IMAGES; path_to_csv := PATH_TO_CSV;
                fold := "val"; uncertain := None;
                transform_arg := tr_val data_transforms;
                orientation_arg := Some orientation; sample := None;
                mask := None; verbose_arg := Some true |} ;;
    ret (train, val)
  else
    let mask_ := random_mask NUM_IMAGES in
    say (MsgCrossValidating true) ;;;
    say MsgOnTrain ;;;
    train <- new_CXPDataset
               {| path_to_images := PATH_TO_IMAGES; path_to_csv := PATH_TO_CSV;
                  fold := "train"; uncertain := Some "ones"%string;
                  transform_arg := tr_train data_transforms;
                  orientation_arg := Some orientation; sample := Some NUM_IMAGES;
                  mask := Some mask_; verbose_arg := Some true |} ;;
    say MsgOnVal ;;;
    val <- new_CXPDataset
             {| path_to_images := PATH_TO_IMAGES; path_to_csv := PATH_TO_CSV;
                fold := "train"; uncertain := Some "ones"%string;
                transform_arg := tr_val data_transforms;
                orientation_arg := Some orientation; sample := Some NUM_IMAGES;
                mask := Some (map negb mask_); verbose_arg := Some true |} ;;
    ret (train, val).

(** Lines 469-485: a new network, or the model stored in the checkpoint. *)
Definition obtain_model (orientation : string) (PATH_TO_CHECKPOINT : option path)
  : M Model :=
  match PATH_TO_CHECKPOINT with
  | None =>
      record_call BuildDensenet121 ;;;
      fun w =>
        let '(n, act) := if negb (String.eqb orientation "trainer")
                         then (N_LABELS, Sigmoid) else (N_ORIENTS, Softmax) in
        let '(weights, g) := new_classifier densenet121 n act (rng w) in
        (Ret {| params := weights; out_features := n; training := true |},
         set_rng g w)
  | Some p =>
      checkpoint_ <- torch_load p ;;
      ret (ck_model checkpoint_)
  end.

(** Lines 306-318: the checks on the orientation and on [results/]; [true]
    when the function goes on. *)
Definition check_configuration (orientation : string) : M bool :=
  if negb (str_in orientation ["all"; "ap"; "pa"; "lat"; "trainer"]%string) then
    print MsgInvalidOrientation ;;;
    ret false
  else
    go_on <- try_except
               (found <- os_path_exists_results ;;
                if found then print MsgRemoveResults ;;; ret false
                else rmtree_results ;;; ret true)
               (ret true) ;;
    if go_on then os_makedirs_results ;;; ret true else ret false.

(** Lines 321-463: the log header, the transforms, the datasets and the loaders. *)
Definition prepare_data (PATH_TO_IMAGES PATH_TO_CSV : string) (LR WEIGHT_DECAY : float)
    (orientation : string) (cross_val_on_train : bool) (NUM_IMAGES : nat)
  : M (Transforms * Dataset * Dataset) :=
  print (MsgRunningWith WEIGHT_DECAY LR) ;;;
  print (MsgUsingOrientation orientation) ;;;
  log (MsgRunningWith WEIGHT_DECAY LR) ;;;
  log (MsgUsingOrientation orientation) ;;;
  let data_transforms :=
    {| tr_val := val_transform; tr_train := train_transform orientation |} in
  say (MsgFlip (String.eqb orientation "all")) ;;;
  print (MsgTransforms data_transforms) ;;;
  ' (train, val) <- build_datasets PATH_TO_IMAGES PATH_TO_CSV orientation
                      cross_val_on_train NUM_IMAGES data_transforms ;;
  record_call (BuildDataLoader "train" true) ;;;
  record_call (BuildDataLoader "val" true) ;;;
  ret (data_transforms, train, val).

(** [train_cnn]; every path of the function returns [None]. *)
Definition train_cnn (PATH_TO_IMAGES PATH_TO_CSV : string) (LR WEIGHT_DECAY : float)
    (orientation : string) (cross_val_on_train : bool) (NUM_IMAGES : nat)
    (PATH_TO_CHECKPOINT : option path) : M unit :=
  go_on <- check_configuration orientation ;;
  if negb go_on then ret tt else
  ' (data_transforms, train, val) <-
    prepare_data PATH_TO_IMAGES PATH_TO_CSV LR WEIGHT_DECAY orientation
      cross_val_on_train NUM_IMAGES ;;
  (if negb use_gpu then raise (ValueError "Error, requires GPU") else ret tt) ;;;
  model <- obtain_model orientation PATH_TO_CHECKPOINT ;;
  let criterion := if negb (String.eqb orientation "trainer")
                   then BCELoss else CrossEntropyLoss in
  print (MsgCriterion criterion) ;;;
  let optimizer :=
    Adam model LR (0.9%float, 0.999%float) 1e-08%float WEIGHT_DECAY in
  let dataset_sizes := len train in
  print MsgTrainingStart ;;;
  _ <- train_model criterion NUM_EPOCHS (shuffled_loader train BATCH_SIZE)
         dataset_sizes WEIGHT_DECAY val data_transforms PATH_TO_IMAGES PATH_TO_CSV
         cross_val_on_train model optimizer LR ;;
  print MsgModelTrainingComplete.

(** *** Observations used in the statements *)

(** The [torch.save] calls below [results/], oldest first. *)
Definition saved_of (w : World) : list (Z * CheckpointState) :=
  match results w with
  | Some r => saved r
  | None => []
  end.

(** What [make_pred_multilabel] needs from the dataset and the network for
    its indexing to stay in range: an identifier for every sample, and a
    score and a label for every column it fills.  The identifier column is
    not the name of a label. *)
Definition dataset_ok (multiclass : bool) (dataset : Dataset) (model : Model) : bool :=
  (len dataset <=? List.length (df_index dataset)) &&
  (if multiclass then
     (out_features model <=? List.length ORIENTATION) &&
     forallb (fun i => out_features model
                       <=? List.length (label_binarize (snd (getitem dataset i))))
             (seq 0 (len dataset))
   else
     negb (str_in "Image Index" (PRED_LABEL dataset)) &&
     (List.length (PRED_LABEL dataset) <=? out_features model) &&
     forallb (fun i => List.length (PRED_LABEL dataset)
                       <=? List.length (as_row (snd (getitem dataset i))))
             (seq 0 (len dataset))).

(** The identifier a record carries. *)
Definition identifier (r : dict) : option cell := dict_get "Image Index" r.

(** Every label column of the truth rows has its score column. *)
Definition keys_paired (thisrow truerow : dict) : Prop :=
  forall c, In c (keys truerow) ->
            c = "Image Index"%string \/ In ("prob_" ++ c)%string (keys thisrow).

Definition columns_paired (pred_df true_df : DataFrame) : Prop :=
  forall c, In c (columns true_df) ->
            c = "Image Index"%string \/ In ("prob_" ++ c)%string (columns pred_df).

(** The identifier of record [p] of a frame. *)
Definition record_id (df : DataFrame) (p : nat) : option cell :=
  match nth_error (rows df) p with
  | Some r => identifier r
  | None => None
  end.

(** The first [n] samples have their prediction and truth records, in order
    and under their own identifier. *)
Definition rows_aligned (dataset : Dataset) (n : nat) (dfs : DataFrame * DataFrame) : Prop :=
  List.length (rows (fst dfs)) = n /\
  List.length (rows (snd dfs)) = n /\
  (forall p, p < n ->
     exists id, nth_error (df_index dataset) p = Some id /\
                record_id (fst dfs) p = Some (CIdent id) /\
                record_id (snd dfs) p = Some (CIdent id)) /\
  columns_paired (fst dfs) (snd dfs).

(** The row of a metric table. *)
Definition score_row (kind column : string) (v : float) : dict :=
  [("label"%string, CStr column); (kind, CFloat v)].

(** The dataset [make_pred_multilabel] evaluates on: the one it is given, or
    the validation fold it builds. *)
Definition evaluated_dataset (data_transforms : Transforms)
    (PATH_TO_IMAGES PATH_TO_CSV : string) (dataset : option Dataset) : Dataset :=
  match dataset with
  | Some d => d
  | None =>
      CXPDataset
        {| path_to_images := PATH_TO_IMAGES; path_to_csv := PATH_TO_CSV;
           fold := "val"; uncertain := None;
           transform_arg := tr_val data_transforms;
           orientation_arg := None; sample := None; mask := None;
           verbose_arg := None |}
  end.

Definition evaluated_dataset_calls (data_transforms : Transforms)
    (PATH_TO_IMAGES PATH_TO_CSV : string) (dataset : option Dataset) : list call :=
  match dataset with
  | Some _ => []
  | None =>
      [BuildDataset
         {| path_to_images := PATH_TO_IMAGES; path_to_csv := PATH_TO_CSV;
            fold := "val"; uncertain := None;
            transform_arg := tr_val data_transforms;
            orientation_arg := None; sample := None; mask := None;
            verbose_arg := None |}]
  end.

(** The world after a call of [make_pred_multilabel] with a metric it does
    not know: three lines printed, the data set built if none was given, and
    [results/preds.csv] written. *)
Definition world_after_unknown_metric (metric : string) (size : nat)
    (new_calls : list call) (pred_df : DataFrame) (r : Results) (w : World) : World :=
  {| results :=
       Some {| logger := logger r; log_train := log_train r; saved := saved r;
               preds_csv := Some pred_df; aucs_csv := aucs_csv r;
               f1_csv := f1_csv r |};
     stdout := stdout w ++ [MsgInvalidMetric metric; MsgEvaluating size;
                            MsgModelTrain false];
     user_files := user_files w;
     rng := rng w;
     calls := calls w ++ new_calls |}.

(** A computation that does not call [torch.save] below [results/]. *)
Definition keeps_saved {A : Type} (c : M A) : Prop :=
  forall (w w' : World) (a : A), c w = (Ret a, w') -> saved_of w' = saved_of w.

(** Every value a computation returns satisfies [P]. *)
Definition returns {A : Type} (c : M A) (P : A -> Prop) : Prop :=
  forall (w w' : World) (a : A), c w = (Ret a, w') -> P a.

(** The dict that [checkpoint] saves at the end of an epoch that leaves the
    state [st], when the random generator is in state [g]. *)
Definition checkpoint_of (weight_decay : float) (epoch : Z) (metric : DataFrame)
    (g : Rng) (st : TrainState) : CheckpointState :=
  {| ck_model := st_model st;
     ck_last_train_loss := st_last_train_loss st;
     ck_best_val_acc := st_last_val_acc st;
     ck_metric := metric;
     ck_epoch := epoch;
     ck_best_epoch := st_best_epoch st;
     ck_rng_state := g;
     ck_LR := st_LR st;
     ck_WD := weight_decay |}.

(** How [train_model] calls [make_pred_multilabel]: with [multiclass] for the
    cross-entropy criterion, and without a dataset (the validation fold is
    then built) for the binary criterion unless [val_on_dataset] is set. *)
Definition validation_multiclass (criterion : Criterion) : bool :=
  negb (Criterion_eqb criterion BCELoss).

Definition validation_dataset (criterion : Criterion) (val_on_dataset : bool)
    (dataset : Dataset) : option Dataset :=
  if Criterion_eqb criterion BCELoss
  then if val_on_dataset then Some dataset else None
  else Some dataset.

(** A metric table: a label and a score in every row. *)
Definition score_table (kind : string) (df : DataFrame) : Prop :=
  columns df = ["label"%string; kind] /\
  Forall (fun r => exists column v, r = score_row kind column v) (rows df).

(** The scores of a metric table, one per label, in the order of its rows. *)
Definition table_scores (kind : string) (metric : DataFrame) : list float :=
  flat_map (fun r => match dict_get kind r with
                     | Some (CFloat v) => [v]
                     | _ => []
                     end) (rows metric).

(** The mean of the scores of the table that are defined. *)
Definition mean_of_defined (kind : string) (metric : DataFrame) : float :=
  np_mean (filter (fun v => negb (np_isnan v)) (table_scores kind metric)).

(** The test of lines 269-270 on what the checkpoint of an epoch records:
    the best epoch is three epochs old, or older. *)
Definition stale (p : Z * CheckpointState) : bool :=
  (fst p - ck_best_epoch (snd p) >=? 3)%Z.

(** The table in [results/aucs.csv]. *)
Definition aucs_csv_of (w : World) : option DataFrame :=
  match results w with
  | Some r => aucs_csv r
  | None => None
  end.

(** *** The driver: what it has done when it reaches the check on the GPU *)

Definition train_dataset_args (PATH_TO_IMAGES PATH_TO_CSV orientation : string)
    (cross_val_on_train : bool) (NUM_IMAGES : nat) : DatasetArgs :=
  {| path_to_images := PATH_TO_IMAGES; path_to_csv := PATH_TO_CSV;
     fold := "train"; uncertain := Some "ones"%string;
     transform_arg := train_transform orientation;
     orientation_arg := Some orientation; sample := Some NUM_IMAGES;
     mask := if cross_val_on_train then Some (random_mask NUM_IMAGES) else None;
     verbose_arg := Some true |}.

Definition val_dataset_args (PATH_TO_IMAGES PATH_TO_CSV orientation : string)
    (cross_val_on_train : bool) (NUM_IMAGES : nat) : DatasetArgs :=
  if cross_val_on_train then
    {| path_to_images := PATH_TO_IMAGES; path_to_csv := PATH_TO_CSV;
       fold := "train"; uncertain := Some "ones"%string;
       transform_arg := val_transform;
       orientation_arg := Some orientation; sample := Some NUM_IMAGES;
       mask := Some (map negb (random_mask NUM_IMAGES));
       verbose_arg := Some true |}
  else
    {| path_to_images := PATH_TO_IMAGES; path_to_csv := PATH_TO_CSV;
       fold := "val"; uncertain := None;
       transform_arg := val_transform;
       orientation_arg := Some orientation; sample := None;
       mask := None; verbose_arg := Some true |}.

(** The world a run that started without [results/] is in when it reaches
    line 466: the directory exists and holds the first lines of the log, the
    two data sets and the two loaders are built. *)
Definition world_after_setup (PATH_TO_IMAGES PATH_TO_CSV : string)
    (LR WEIGHT_DECAY : float) (orientation : string) (cross_val_on_train : bool)
    (NUM_IMAGES : nat) (w : World) : World :=
  {| results :=
       Some {| logger := [MsgRunningWith WEIGHT_DECAY LR;
                          MsgUsingOrientation orientation;
                          MsgFlip (String.eqb orientation "all");
                          MsgCrossValidating cross_val_on_train;
                          MsgOnTrain; MsgOnVal];
               log_train := []; saved := [];
               preds_csv := None; aucs_csv := None; f1_csv := None |};
     stdout := stdout w ++
               [MsgRunningWith WEIGHT_DECAY LR;
                MsgUsingOrientation orientation;
                MsgFlip (String.eqb orientation "all");
                MsgTransforms {| tr_val := val_transform;
                                 tr_train := train_transform orientation |};
                MsgCrossValidating cross_val_on_train;
                MsgOnTrain; MsgOnVal];
     user_files := user_files w;
     rng := rng w;
     calls := calls w ++
              [BuildDataset (train_dataset_args PATH_TO_IMAGES PATH_TO_CSV orientation
                               cross_val_on_train NUM_IMAGES);
               BuildDataset (val_dataset_args PATH_TO_IMAGES PATH_TO_CSV orientation
                               cross_val_on_train NUM_IMAGES);
               BuildDataLoader "train" true;
               BuildDataLoader "val" true] |}.

Definition add_stdout (ms : list msg) (w : World) : World :=
  {| results := results w; stdout := stdout w ++ ms; user_files := user_files w;
     rng := rng w; calls := calls w |}.

(** The claim on configuration errors, as the specification words it: a run
    of [train_cnn] with an invalid orientation, with [results/] present or
    without a GPU ends before any of its work: it has built no data set and
    has left [results/] as it was. *)
Definition configuration_checked_first : Prop :=
  forall (PATH_TO_IMAGES PATH_TO_CSV : string) (LR WEIGHT_DECAY : float)
         (orientation : string) (cross_val_on_train : bool) (NUM_IMAGES : nat)
         (PATH_TO_CHECKPOINT : option path) (w : World),
    str_in orientation ["all"; "ap"; "pa"; "lat"; "trainer"]%string = false \/
    results w <> None \/ use_gpu = false ->
    let w' := snd (train_cnn PATH_TO_IMAGES PATH_TO_CSV LR WEIGHT_DECAY orientation
                     cross_val_on_train NUM_IMAGES PATH_TO_CHECKPOINT w) in
    calls w' = calls w /\ results w' = results w.

(** *** Observations on a call of [make_pred_multilabel] *)

(** Whether the loop over the columns of [true_df] scores a column: the
    two [continue] tests of lines 118-135. *)
Definition scored (multiclass : bool) (column : string) : bool :=
  if multiclass then str_in column ORIENTATIONS_SCORED else str_in column FINDINGS.

(** The call of a metric on a column of [true_df] and its column of scores. *)
Definition metric_of_column (metric_fn : list Z -> list float -> outcome float)
    (pred_df true_df : DataFrame) (column : string) : outcome float :=
  actual <~ df_column true_df column ;;
  pred <~ df_column pred_df ("prob_" ++ column) ;;
  call_metric metric_fn actual pred.

Definition undefined_score (metric_fn : list Z -> list float -> outcome float)
    (pred_df true_df : DataFrame) (column : string) : bool :=
  match metric_of_column metric_fn pred_df true_df column with
  | Ret _ => false
  | Raise _ => true
  end.

(** The score or NaN. *)
Definition score_or_nan (o : outcome float) : float :=
  match o with
  | Ret v => v
  | Raise _ => PrimFloat.nan
  end.

(** The table of a metric: the header and one row per label. *)
Definition table_of (kind : string) (labels : list string) (score : string -> float)
  : DataFrame :=
  {| columns := ["label"%string; kind];
     rows := map (fun c => score_row kind c (score c)) labels |}.

(** The files of [results/] after an evaluation that wrote its two tables. *)
Definition results_after_evaluation (kind : string) (pred_df score_df : DataFrame)
    (r : Results) : Results :=
  {| logger := logger r; log_train := log_train r; saved := saved r;
     preds_csv := Some pred_df;
     aucs_csv := if String.eqb kind "auc" then Some score_df else aucs_csv r;
     f1_csv := if String.eqb kind "auc" then f1_csv r else Some score_df |}.

(** A computation that does nothing but print, whatever its outcome. *)
Definition only_prints {A : Type} (c : M A) : Prop :=
  forall w : World, exists ms : list msg, snd (c w) = add_stdout ms w.

Definition add_calls (cs : list call) (w : World) : World :=
  {| results := results w; stdout := stdout w; user_files := user_files w;
     rng := rng w; calls := calls w ++ cs |}.

(** The world after the prediction pass and the scoring of the columns, before
    the tables are written: the data set is built if none was given, two
    lines and the messages of the scoring are printed. *)
Definition world_after_scoring (size : nat) (new_calls : list call)
    (messages : list msg) (w : World) : World :=
  add_stdout ([MsgEvaluating size; MsgModelTrain false] ++ messages)
             (add_calls new_calls w).

(** The lines that [verbose] asks for: one for every label whose score is
    not defined. *)
Definition undefined_messages (kind : string) (verbose : bool)
    (metric_fn : list Z -> list float -> outcome float)
    (pred_df true_df : DataFrame) (labels : list string) : list msg :=
  if verbose
  then map (MsgCantCalculate kind)
           (filter (undefined_score metric_fn pred_df true_df) labels)
  else [].

(** A computation that leaves an observation of the world as it was,
    whatever its outcome. *)
Definition preserves {A X : Type} (f : World -> X) (c : M A) : Prop :=
  forall w : World, f (snd (c w)) = f w.

(** *** Observations on the loop over the epochs *)

(** What the loop keeps true of the best epoch: [cks] are the checkpoints
    saved so far, [e] is the next epoch.  No checkpoint holds a score above
    the best one; the best epoch is still [-1] with the score [0], or it is
    the epoch of a checkpoint that holds the best score, a positive one. *)
Definition best_so_far (cks : list (Z * CheckpointState)) (e : Z) (st : TrainState)
  : Prop :=
  (1 <= e)%Z /\
  Forall (fun p => (1 <= fst p < e)%Z /\
                   PrimFloat.ltb (st_best_val_acc st) (ck_best_val_acc (snd p)) = false)
         cks /\
  ((st_best_epoch st = (-1)%Z /\ st_best_val_acc st = 0%float) \/
   exists ck,
     last_saved (st_best_epoch st) cks = Some ck /\
     ck_epoch ck = st_best_epoch st /\
     ck_best_epoch ck = st_best_epoch st /\
     ck_best_val_acc ck = st_best_val_acc st /\
     training (ck_model ck) = false /\
     PrimFloat.ltb 0 (st_best_val_acc st) = true).

(** The lines of [results/logger] and the rows of [results/log_train]. *)
Definition logger_of (w : World) : list msg :=
  match results w with
  | Some r => logger r
  | None => []
  end.

Definition log_train_of (w : World) : list (list cell) :=
  match results w with
  | Some r => log_train r
  | None => []
  end.

(** The header of [results/log_train], and the row for an epoch, from what
    its checkpoint holds. *)
Definition log_train_header : list cell :=
  [CStr "epoch"; CStr "train_loss"; CStr "average auc"].

Definition log_train_row (p : Z * CheckpointState) : list cell :=
  [CInt (fst p); CFloat (ck_last_train_loss (snd p)); CFloat (ck_best_val_acc (snd p))].

(** The message of lines 264-267, and the places where it could appear. *)
Definition is_progress (m : msg) : bool :=
  match m with
  | MsgCompleted _ => true
  | _ => false
  end.

Definition progress_lines (w : World) : list msg * list msg :=
  (filter is_progress (stdout w), filter is_progress (logger_of w)).

(** *** Observations on the prediction pass *)

(** The names of the columns that the prediction pass fills and the labels
    of a sample, with and without [multiclass]. *)
Definition column_names (multiclass : bool) (dataset : Dataset) (model : Model)
  : list string :=
  if multiclass then firstn (out_features model) ORIENTATION else PRED_LABEL dataset.

Definition sample_labels (multiclass : bool) (labels : Labels) : list Z :=
  if multiclass then label_binarize labels else as_row labels.

(** The two records of a sample hold, for every column, the score of the
    network at the output of that column and the label of the sample. *)
Definition entries_filled (multiclass : bool) (dataset : Dataset) (model : Model)
    (item : Image * Labels) (rws : dict * dict) : Prop :=
  forall (k : nat) (name : string),
    nth_error (column_names multiclass dataset model) k = Some name ->
    exists t : Z,
      dict_get ("prob_" ++ name) (fst rws)
      = Some (CFloat (predict (params model) (fst item) k)) /\
      nth_error (sample_labels multiclass (snd item)) k = Some t /\
      dict_get name (snd rws) = Some (CInt t).

(** The first [n] samples have their two records, filled. *)
Definition rows_filled (multiclass : bool) (dataset : Dataset) (model : Model)
    (n : nat) (dfs : DataFrame * DataFrame) : Prop :=
  List.length (rows (fst dfs)) = n /\
  List.length (rows (snd dfs)) = n /\
  forall i : nat, i < n ->
    exists thisrow truerow : dict,
      nth_error (rows (fst dfs)) i = Some thisrow /\
      nth_error (rows (snd dfs)) i = Some truerow /\
      entries_filled multiclass dataset model (getitem dataset i) (thisrow, truerow).

End Program.

(** The collaborators with other metrics in the place of scikit-learn's. *)
Definition with_metrics {T : Types} (C : Collaborators T)
    (roc f1 : list Z -> list float -> outcome float) : Collaborators T :=
  {| as_row := as_row;
     label_binarize := label_binarize;
     predict := predict;
     roc_auc_score := roc;
     f1_score := f1;
     np_mean := np_mean;
     CXPDataset := CXPDataset;
     batch_len := batch_len;
     sgd_step := sgd_step;
     adam_init := adam_init;
     use_gpu := use_gpu;
     densenet121 := densenet121;
     new_classifier := new_classifier;
     shuffled_loader := shuffled_loader;
     random_mask := random_mask |}.

(** ** A small instance to run the program on *)

Module Demo.

#[local] Instance types : Types :=
  {| Ident := nat; Image := nat; Labels := list Z; Params := nat;
     AdamState := unit; Rng := nat; Batch := nat |}.

Definition positives (y : list Z) (s : list float) : list float :=
  map snd (filter (fun p => (fst p =? 1)%Z) (combine y s)).

Definition negatives (y : list Z) (s : list float) : list float :=
  map snd (filter (fun p => negb (fst p =? 1)%Z) (combine y s)).

Definition pair_score (p n : float) : nat :=
  if PrimFloat.ltb n p then 2 else if PrimFloat.eqb n p then 1 else 0.

(** The area under the ROC curve as the share of (positive, negative) pairs
    that the scores order correctly, a tie counting for a half; it is not
    defined when one class is missing. *)
Definition auc (y : list Z) (s : list float) : outcome float :=
  let pos := positives y s in
  let neg := negatives y s in
  match pos, neg with
  | [], _ | _, [] => Raise (ValueError "Only one class present in y_true")
  | _, _ =>
      Ret (PrimFloat.div
             (float_of_nat (list_sum (flat_map (fun p => map (pair_score p) neg) pos)))
             (float_of_nat (2 * List.length pos * List.length neg)))
  end.

(** An F1 score that, like scikit-learn's, refuses scores that are not
    class labels. *)
Definition f1 (y : list Z) (s : list float) : outcome float :=
  if forallb (fun x => PrimFloat.eqb x 0 || PrimFloat.eqb x 1) s
  then Ret 1%float
  else Raise (ValueError "mix of binary and continuous targets").

Definition mean_ (l : list float) : float :=
  PrimFloat.div (fold_left PrimFloat.add l 0%float) (float_of_nat (List.length l)).

(** The network after [p] optimiser steps scores sample 0 at 0.5 and sample
    [i > 0] below it exactly when [i <= nth (p - 1) scores 0]. *)
Definition predict_ (scores : list nat) (p : nat) (image : nat) (k : nat) : float :=
  if Nat.eqb image 0 then 0.5%float
  else if image <=? nth (p - 1) scores 0 then 0.25%float else 0.75%float.

(** [n] samples with identifiers [100, 101, ...]; sample [i] carries the
    labels [lab i]. *)
Definition dataset_of (n : nat) (names : list string) (lab : nat -> list Z) : Dataset :=
  {| df_index := seq 100 n; PRED_LABEL := names; len := n;
     getitem := fun i => (i, lab i) |}.

(** Eleven samples, one finding; the first sample is the only positive one. *)
Definition dataset : Dataset :=
  dataset_of 11 ["Cardiomegaly"%string] (fun i => [if Nat.eqb i 0 then 1%Z else 0%Z]).

(** The same samples with a second finding that no sample has. *)
Definition dataset2 : Dataset :=
  dataset_of 11 ["Cardiomegaly"; "Edema"]%string
             (fun i => [if Nat.eqb i 0 then 1%Z else 0%Z; 0%Z]).

(** Eleven samples without a positive one. *)
Definition dataset_negative : Dataset :=
  dataset_of 11 ["Cardiomegaly"%string] (fun _ => [0%Z]).

Definition dataset17 : Dataset :=
  dataset_of 17 ["Cardiomegaly"%string] (fun i => [if Nat.eqb i 0 then 1%Z else 0%Z]).

(** Every epoch trains on one batch of 16 samples, which is one optimiser step. *)
Definition collab (scores : list nat) (val : Dataset) (gpu : bool)
  : Collaborators types :=
  {| as_row := fun l => l;
     label_binarize := fun l => l;
     predict := predict_ scores;
     roc_auc_score := auc;
     f1_score := f1;
     np_mean := mean_;
     CXPDataset := fun _ => val;
     batch_len := fun b => b;
     sgd_step := fun _ o p _ => (o, S p, 0.25%float);
     adam_init := fun _ => tt;
     use_gpu := gpu;
     densenet121 := 0;
     new_classifier := fun p _ _ g => (p, S g);
     shuffled_loader := fun _ _ g => ([16], S g);
     random_mask := fun n => repeat true n |}.

Definition transforms : Transforms := {| tr_val := val_transform; tr_train := val_transform |}.

Definition model0 : Model := {| params := 0; out_features := 2; training := true |}.

Definition optimizer0 : Optimizer :=
  {| opt_lr := 0.001%float; opt_betas := (0.9%float, 0.999%float);
     opt_eps := 1e-08%float; opt_weight_decay := 0%float; opt_state := tt |}.

(** A world with an empty [results/], and one without the directory. *)
Definition world0 : World :=
  {| results := Some empty_results; stdout := []; user_files := []; rng := 0;
     calls := [] |}.

Definition world_fresh : World :=
  {| results := None; stdout := []; user_files := []; rng := 0; calls := [] |}.

(** The body of an epoch and the whole of [train_model] on the instance. *)
Abbreviation body scores val num_epochs :=
  (@epoch_body _ (collab scores val true) BCELoss num_epochs (fun g => ([16], S g)) 16
     0%float val transforms "" "" true).

Abbreviation train scores val num_epochs :=
  (@train_model _ (collab scores val true) BCELoss num_epochs (fun g => ([16], S g)) 16
     0%float val transforms "" "" true).

(** The state and the world after the first [k] epochs from the world [w],
    when none raised. *)
Fixpoint after (scores : list nat) (val : Dataset) (num_epochs : Z) (w : World)
    (k : nat) : TrainState * World :=
  match k with
  | O => (initial_state model0 optimizer0 0.001%float, w)
  | S k' =>
      let '(st, w1) := after scores val num_epochs w k' in
      match body scores val num_epochs (Z.of_nat k) st w1 with
      | (Ret (st', _), w') => (st', w')
      | (Raise _, w') => (st, w')
      end
  end.

(** The run whose validation scores are 0.5, 0.5, 0.7 and 0.6. *)
Definition scores1 : list nat := [5; 5; 7; 6].
Definition state1 (k : nat) : TrainState := fst (after scores1 dataset 4 world0 k).
Definition world1 (k : nat) : World := snd (after scores1 dataset 4 world0 k).

Abbreviation loop scores val num_epochs :=
  (@epochs_loop _ (collab scores val true) BCELoss num_epochs (fun g => ([16], S g)) 16
     0%float val transforms "" "" true).

(** A run whose best score comes in epoch 2: 0.5, 0.7, and 0.6 from then on. *)
Definition scores2 : list nat := [5; 7; 6; 6; 6; 6; 6; 6].
Definition state2 (k : nat) : TrainState := fst (after scores2 dataset 100 world0 k).
Definition world2 (k : nat) : World := snd (after scores2 dataset 100 world0 k).

(** A run on the samples without a positive one, after the first messages
    of [train_model]: no score is defined. *)
Definition world_started : World :=
  snd (@prologue _ true world0).
Definition state3 (k : nat) : TrainState :=
  fst (after [] dataset_negative 100 world_started k).
Definition world3 (k : nat) : World :=
  snd (after [] dataset_negative 100 world_started k).


(** One epoch on the samples with two findings, one of them without a
    positive sample. *)
Definition state4 (k : nat) : TrainState := fst (after [5] dataset2 1 world0 k).
Definition world4 (k : nat) : World := snd (after [5] dataset2 1 world0 k).


(** Two epochs with the scores 0.7 and 0.6. *)
Definition state5 (k : nat) : TrainState := fst (after [7; 6] dataset 2 world0 k).
Definition world5 (k : nat) : World := snd (after [7; 6] dataset 2 world0 k).

(** The network after one optimiser step. *)
Definition model1 : Model := {| params := 1; out_features := 2; training := true |}.

(** A checkpoint left by an earlier run, outside [results/]: its model has
    taken seven optimiser steps; its learning rate and weight decay are 0.5. *)
Definition old_checkpoint : CheckpointState :=
  {| ck_model := {| params := 7; out_features := 2; training := false |};
     ck_last_train_loss := 0.25%float;
     ck_best_val_acc := 0.9%float;
     ck_metric := new_frame [];
     ck_epoch := 7%Z;
     ck_best_epoch := 7%Z;
     ck_rng_state := 42;
     ck_LR := 0.5%float;
     ck_WD := 0.5%float |}.

Definition world_resume : World :=
  {| results := None; stdout := []; user_files := [("old/checkpoint_7"%string, old_checkpoint)];
     rng := 0; calls := [] |}.

(** Scores for the epochs that follow the seven steps of the old model. *)
Definition scores3 : list nat := [0; 0; 0; 0; 0; 0; 0; 5; 6; 7; 6; 6; 6].

Abbreviation cnn scores gpu :=
  (@train_cnn _ (collab scores dataset gpu) "" "" 0.001%float 0%float "all" false 11).

(** A dataset without samples, and eleven samples with a label that is not
    one of the findings. *)
Definition dataset_empty : Dataset :=
  dataset_of 0 ["Cardiomegaly"%string] (fun _ => [0%Z]).

Definition dataset_age : Dataset :=
  dataset_of 11 ["Cardiomegaly"; "Age"]%string
             (fun i => [if Nat.eqb i 0 then 1%Z else 0%Z; 1%Z]).

(** A network with a single output. *)
Definition model_narrow : Model := {| params := 1; out_features := 1; training := true |}.

(** The whole of [train_model] on the scores 0.5, 0.7 and 0.6 from then on. *)
Definition model2 : Model :=
  match fst (train scores2 dataset 100 model0 optimizer0 0.001%float world0) with
  | Ret (m, _) => m
  | Raise _ => model0
  end.

Definition world_end2 : World :=
  snd (train scores2 dataset 100 model0 optimizer0 0.001%float world0).

(** An epoch with the validation fold read from disk. *)
Abbreviation body_val :=
  (@epoch_body _ (collab [5] dataset true) BCELoss 1 (fun g => ([16], S g)) 16
     0%float dataset_negative transforms "images" "labels.csv" false).

Definition state_val : TrainState :=
  match fst (body_val 1%Z (initial_state model0 optimizer0 0.001%float) world0) with
  | Ret (st, _) => st
  | Raise _ => initial_state model0 optimizer0 0.001%float
  end.

Definition world_val : World :=
  snd (body_val 1%Z (initial_state model0 optimizer0 0.001%float) world0).

End Demo.

(** * Properties *)

(** ** Comparisons of floats *)

Lemma SFcompare_antisym (x y : spec_float) :
  SFcompare y x = option_map CompOpp (SFcompare x y).
Proof.
  destruct x as [sx|sx| |sx mx ex], y as [sy|sy| |sy my ey]; simpl;
    try reflexivity;
    try (destruct sx; reflexivity); try (destruct sy; reflexivity);
    try (destruct sx, sy; reflexivity).
  rewrite (Z.compare_antisym ex ey), (ZC4 my mx).
  destruct sx, sy; simpl; try reflexivity;
    destruct (ex ?= ey)%Z; simpl; try reflexivity;
    destruct (Pos.compare_cont Eq mx my); reflexivity.
Qed.

(** [a < b] and [b < a] never hold together. *)
Lemma SFltb_trans (x y z : spec_float) :
  SFltb x y = true -> SFltb y z = true -> SFltb x z = true.
Proof.
  unfold SFltb.
  destruct x as [sx | sx | | sx mx ex], y as [sy | sy | | sy my ey],
    z as [sz | sz | | sz mz ez]; cbn;
    try discriminate; try reflexivity;
    repeat match goal with s : bool |- _ => destruct s end;
    try discriminate; try reflexivity.
  all: destruct (Z.compare_spec ex ey), (Z.compare_spec ey ez),
         (Z.compare_spec ex ez); subst; try lia; try discriminate; try reflexivity.
  all: rewrite ?Pos.compare_cont_spec; cbn [Pos.switch_Eq];
       destruct (Pos.compare_spec mx my), (Pos.compare_spec my mz),
         (Pos.compare_spec mx mz); subst; cbn; try lia; try discriminate; try reflexivity.
Qed.

Lemma ltb_antisym (a b : float) :
  PrimFloat.ltb a b = true -> PrimFloat.ltb b a = false.
Proof.
  rewrite !FloatAxioms.ltb_spec. unfold SFltb.
  rewrite (SFcompare_antisym (Prim2SF a) (Prim2SF b)).
  destruct (SFcompare (Prim2SF a) (Prim2SF b)) as [[ | | ]|]; simpl;
    intro H; try discriminate; reflexivity.
Qed.

(** [a == b] excludes [a < b] and [b < a]. *)
Lemma eqb_not_ltb (a b : float) :
  PrimFloat.eqb a b = true ->
  PrimFloat.ltb a b = false /\ PrimFloat.ltb b a = false.
Proof.
  rewrite FloatAxioms.eqb_spec, !FloatAxioms.ltb_spec. unfold SFeqb, SFltb.
  rewrite (SFcompare_antisym (Prim2SF a) (Prim2SF b)).
  destruct (SFcompare (Prim2SF a) (Prim2SF b)) as [[ | | ]|]; simpl;
    intro H; try discriminate; split; reflexivity.
Qed.

(** NaN is neither below nor above anything. *)
Lemma nan_not_ltb (a b : float) :
  np_isnan a = true ->
  PrimFloat.ltb a b = false /\ PrimFloat.ltb b a = false.
Proof.
  unfold np_isnan, PrimFloat.is_nan.
  rewrite FloatAxioms.eqb_spec, !FloatAxioms.ltb_spec. unfold SFeqb, SFltb.
  intro H.
  assert (Prim2SF a = S754_nan) as ->.
  { destruct (Prim2SF a) as [s|s| |s m e]; simpl in H; try reflexivity.
    - discriminate.
    - destruct s; discriminate.
    - destruct s; simpl in H; rewrite Z.compare_refl, Pcompare_refl in H;
        discriminate. }
  simpl. destruct (Prim2SF b); split; reflexivity.
Qed.

(** ** Lists, dicts and frames *)

Lemma str_in_In (x : string) (l : list string) : str_in x l = true <-> In x l.
Proof.
  unfold str_in. rewrite existsb_exists. split.
  - intros (y & Hy & E). apply String.eqb_eq in E. now subst.
  - intro H. exists x. split; [assumption | apply String.eqb_refl].
Qed.

Lemma str_in_false (x : string) (l : list string) : str_in x l = false <-> ~ In x l.
Proof.
  rewrite <- str_in_In. destruct (str_in x l); split; intro H;
    try discriminate; try reflexivity; try (intro; discriminate).
  now elim H.
Qed.

Lemma In_insert_sorted (x s : string) (l : list string) :
  In x (insert_sorted s l) <-> x = s \/ In x l.
Proof.
  induction l as [|t l IH]; simpl.
  - intuition.
  - destruct (String.leb s t); simpl; rewrite ?IH; intuition.
Qed.

Lemma In_sort_strings (x : string) (l : list string) :
  In x (sort_strings l) <-> In x l.
Proof.
  induction l as [|s l IH]; simpl.
  - tauto.
  - rewrite In_insert_sorted, IH. intuition.
Qed.

Lemma index_at_lt {A : Type} (l : list A) (i : nat) :
  i < List.length l -> exists x, index_at l i = Ret x /\ nth_error l i = Some x.
Proof.
  intro H. unfold index_at.
  destruct (nth_error l i) as [x|] eqn:E.
  - now exists x.
  - apply nth_error_None in E. lia.
Qed.

(** A loop whose body keeps an invariant and does not raise on the states
    that satisfy it. *)
Lemma for_each_invariant {A St : Type} (I : nat -> St -> Prop) (body : A -> St -> outcome St) :
  forall (xs : list A) (n : nat) (s : St),
    I n s ->
    (forall k x s0, nth_error xs k = Some x -> I (n + k) s0 ->
                    exists s1, body x s0 = Ret s1 /\ I (n + S k) s1) ->
    exists s', for_each xs body s = Ret s' /\ I (n + List.length xs) s'.
Proof.
  induction xs as [|x xs IH]; intros n s Hs Hbody; simpl.
  - exists s. split; [reflexivity | now rewrite Nat.add_0_r].
  - destruct (Hbody 0 x s eq_refl) as (s1 & E1 & H1).
    { now rewrite Nat.add_0_r. }
    rewrite E1. simpl.
    destruct (IH (S n) s1) as (s' & E' & H').
    { now rewrite Nat.add_1_r in H1. }
    { intros k y s0 Hk H0.
      replace (S n + S k) with (n + S (S k)) by lia.
      apply (Hbody (S k) y s0 Hk).
      replace (n + S k) with (S n + k) by lia. exact H0. }
    exists s'. split; [assumption |].
    replace (n + S (List.length xs)) with (S n + List.length xs) by lia.
    exact H'.
Qed.

Section Facts.

Context {T : Types} {C : Collaborators T}.

Notation "x <- c ;; k" := (bind c (fun x => k))
  (at level 61, c at next level, right associativity).
Notation "c ;;; k" := (bind c (fun _ => k))
  (at level 61, right associativity).

Lemma dict_get_set_same (k : string) (v : cell) (d : dict) :
  dict_get k (dict_set k v d) = Some v.
Proof.
  induction d as [|[k' v'] d IH]; simpl.
  - now rewrite String.eqb_refl.
  - destruct (String.eqb k k') eqn:E; simpl.
    + now rewrite String.eqb_refl.
    + now rewrite E.
Qed.

Lemma dict_get_set_other (k k' : string) (v : cell) (d : dict) :
  k <> k' -> dict_get k' (dict_set k v d) = dict_get k' d.
Proof.
  intro Hne. induction d as [|[k0 v0] d IH]; simpl.
  - destruct (String.eqb k' k) eqn:E; [|reflexivity].
    apply String.eqb_eq in E. now elim Hne.
  - destruct (String.eqb k k0) eqn:E; simpl.
    + apply String.eqb_eq in E. subst k0.
      destruct (String.eqb k' k) eqn:E'; [|reflexivity].
      apply String.eqb_eq in E'. now elim Hne.
    + now rewrite IH.
Qed.

Lemma In_keys_dict_set (x k : string) (v : cell) (d : dict) :
  In x (keys (dict_set k v d)) <-> x = k \/ In x (keys d).
Proof.
  unfold keys. induction d as [|[k0 v0] d IH]; simpl.
  - intuition.
  - destruct (String.eqb k k0) eqn:E; simpl.
    + apply String.eqb_eq in E. subst k0. intuition.
    + rewrite IH. intuition.
Qed.

Lemma In_columns_df_append (c : string) (df : DataFrame) (r : dict) :
  In c (columns (df_append df r)) <-> In c (columns df) \/ In c (keys r).
Proof.
  unfold df_append. simpl. rewrite in_app_iff, In_sort_strings, filter_In.
  rewrite negb_true_iff, str_in_false. split.
  - intros [H | [H _]]; auto.
  - intros [H | H]; auto.
    destruct (in_dec string_dec c (columns df)); auto.
Qed.


(** ** The prediction pass *)

Lemma prob_name_not_identifier (name : string) :
  ("prob_" ++ name)%string <> "Image Index"%string.
Proof. simpl. discriminate. Qed.

Lemma identifier_set_other (k : string) (v : cell) (d : dict) :
  k <> "Image Index"%string -> identifier (dict_set k v d) = identifier d.
Proof. intro H. unfold identifier. now apply dict_get_set_other. Qed.

Lemma keys_paired_set (name : string) (p t : cell) (thisrow truerow : dict) :
  keys_paired thisrow truerow ->
  keys_paired (dict_set ("prob_" ++ name) p thisrow) (dict_set name t truerow).
Proof.
  intros H c Hc. apply In_keys_dict_set in Hc. destruct Hc as [-> | Hc].
  - right. apply In_keys_dict_set. now left.
  - destruct (H c Hc) as [E | Hin]; [now left | right].
    apply In_keys_dict_set. now right.
Qed.

Lemma label_entry_ok (dataset : Dataset) (model : Model) (item : Image * Labels)
    (k : nat) (thisrow truerow : dict) :
  k < List.length (PRED_LABEL dataset) ->
  k < out_features model ->
  k < List.length (as_row (snd item)) ->
  exists name p t,
    nth_error (PRED_LABEL dataset) k = Some name /\
    label_entry dataset model item k (thisrow, truerow)
    = Ret (dict_set ("prob_" ++ name) (CFloat p) thisrow,
           dict_set name (CInt t) truerow).
Proof.
  intros Hk Ho Hl. unfold label_entry, probs_at.
  apply Nat.ltb_lt in Ho. rewrite Ho. simpl.
  destruct (index_at_lt (PRED_LABEL dataset) k Hk) as (name & E1 & E2).
  destruct (index_at_lt (as_row (snd item)) k Hl) as (t & E3 & _).
  rewrite E1. simpl. rewrite E3. simpl.
  now exists name, (predict (params model) (fst item) k), t.
Qed.

Lemma orientation_entry_ok (model : Model) (item : Image * Labels)
    (k : nat) (thisrow truerow : dict) :
  k < List.length ORIENTATION ->
  k < out_features model ->
  k < List.length (label_binarize (snd item)) ->
  exists name p t,
    nth_error ORIENTATION k = Some name /\
    orientation_entry model item k (thisrow, truerow)
    = Ret (dict_set ("prob_" ++ name) (CFloat p) thisrow,
           dict_set name (CInt t) truerow).
Proof.
  intros Hk Ho Hl. unfold orientation_entry, probs_at.
  apply Nat.ltb_lt in Ho. rewrite Ho. simpl.
  destruct (index_at_lt ORIENTATION k Hk) as (name & E1 & E2).
  destruct (index_at_lt (label_binarize (snd item)) k Hl) as (t & E3 & _).
  rewrite E1. simpl. rewrite E3. simpl.
  now exists name, (predict (params model) (fst item) k), t.
Qed.

(** The loop over the labels of a sample keeps the identifier of both rows
    and pairs every label with its score. *)
Lemma label_loop_ok (dataset : Dataset) (model : Model) (item : Image * Labels)
    (id : cell) (thisrow truerow : dict) :
  ~ In "Image Index"%string (PRED_LABEL dataset) ->
  List.length (PRED_LABEL dataset) <= out_features model ->
  List.length (PRED_LABEL dataset) <= List.length (as_row (snd item)) ->
  identifier thisrow = Some id -> identifier truerow = Some id ->
  keys_paired thisrow truerow ->
  exists thisrow' truerow',
    for_each (seq 0 (List.length (PRED_LABEL dataset)))
             (label_entry dataset model item) (thisrow, truerow)
    = Ret (thisrow', truerow') /\
    identifier thisrow' = Some id /\ identifier truerow' = Some id /\
    keys_paired thisrow' truerow'.
Proof.
  intros Hno Ho Hl H1 H2 H3.
  destruct (for_each_invariant
              (fun _ (s : dict * dict) =>
                 identifier (fst s) = Some id /\ identifier (snd s) = Some id /\
                 keys_paired (fst s) (snd s))
              (label_entry dataset model item)
              (seq 0 (List.length (PRED_LABEL dataset))) 0 (thisrow, truerow))
    as ([r1 r2] & E & I1 & I2 & I3).
  - now repeat split.
  - intros k x [a b] Hx (J1 & J2 & J3). cbn [fst snd] in J1, J2, J3 |- *.
    rewrite nth_error_seq in Hx.
    destruct (k <? List.length (PRED_LABEL dataset)) eqn:Hk; [|discriminate].
    apply Nat.ltb_lt in Hk. injection Hx as <-. change (0 + k) with k.
    destruct (label_entry_ok dataset model item k a b) as (name & p & t & N & E);
      try lia.
    rewrite E. eexists. split; [reflexivity |]. cbn [fst snd].
    assert (name <> "Image Index"%string) as Hname.
    { intros ->. apply Hno. eapply nth_error_In. exact N. }
    repeat split.
    + rewrite identifier_set_other; [assumption | apply prob_name_not_identifier].
    + now rewrite identifier_set_other.
    + now apply keys_paired_set.
  - now exists r1, r2.
Qed.

Lemma orientation_loop_ok (model : Model) (item : Image * Labels)
    (id : cell) (thisrow truerow : dict) :
  out_features model <= List.length ORIENTATION ->
  out_features model <= List.length (label_binarize (snd item)) ->
  identifier thisrow = Some id -> identifier truerow = Some id ->
  keys_paired thisrow truerow ->
  exists thisrow' truerow',
    for_each (seq 0 (out_features model))
             (orientation_entry model item) (thisrow, truerow)
    = Ret (thisrow', truerow') /\
    identifier thisrow' = Some id /\ identifier truerow' = Some id /\
    keys_paired thisrow' truerow'.
Proof.
  intros Ho Hl H1 H2 H3.
  destruct (for_each_invariant
              (fun _ (s : dict * dict) =>
                 identifier (fst s) = Some id /\ identifier (snd s) = Some id /\
                 keys_paired (fst s) (snd s))
              (orientation_entry model item)
              (seq 0 (out_features model)) 0 (thisrow, truerow))
    as ([r1 r2] & E & I1 & I2 & I3).
  - now repeat split.
  - intros k x [a b] Hx (J1 & J2 & J3). cbn [fst snd] in J1, J2, J3 |- *.
    rewrite nth_error_seq in Hx.
    destruct (k <? out_features model) eqn:Hk; [|discriminate].
    apply Nat.ltb_lt in Hk. injection Hx as <-. change (0 + k) with k.
    destruct (orientation_entry_ok model item k a b) as (name & p & t & N & E);
      try lia.
    rewrite E. eexists. split; [reflexivity |]. cbn [fst snd].
    assert (name <> "Image Index"%string) as Hname.
    { apply nth_error_In in N. simpl in N.
      destruct N as [<- | [<- | [<- | []]]]; discriminate. }
    repeat split.
    + rewrite identifier_set_other; [assumption | apply prob_name_not_identifier].
    + now rewrite identifier_set_other.
    + now apply keys_paired_set.
  - now exists r1, r2.
Qed.


Lemma nth_error_enumerate {A : Type} (l : list A) (k : nat) (jx : nat * A) :
  nth_error (enumerate l) k = Some jx ->
  fst jx = k /\ nth_error l k = Some (snd jx).
Proof.
  unfold enumerate. intro H.
  assert (forall (a : nat) (l0 : list A) (k0 : nat),
             nth_error (combine (seq a (List.length l0)) l0) k0 = Some jx ->
             fst jx = a + k0 /\ nth_error l0 k0 = Some (snd jx)) as G.
  { intros a l0. revert a. induction l0 as [|x l0 IH]; intros a k0 E.
    - destruct k0; discriminate.
    - destruct k0 as [|k0]; simpl in E.
      + injection E as <-. simpl. split; [lia | reflexivity].
      + apply IH in E. destruct E as [E1 E2]. split; [lia | exact E2]. }
  apply (G 0 l k H).
Qed.

Lemma length_enumerate {A : Type} (l : list A) :
  List.length (enumerate l) = List.length l.
Proof.
  unfold enumerate. rewrite length_combine, length_seq. apply Nat.min_id.
Qed.

Lemma dataset_ok_index (multiclass : bool) (dataset : Dataset) (model : Model) :
  dataset_ok multiclass dataset model = true ->
  len dataset <= List.length (df_index dataset).
Proof.
  unfold dataset_ok. intro H. apply andb_true_iff in H. destruct H as [H _].
  now apply Nat.leb_le in H.
Qed.

Lemma dataset_ok_labels (dataset : Dataset) (model : Model) (i : nat) :
  dataset_ok false dataset model = true -> i < len dataset ->
  ~ In "Image Index"%string (PRED_LABEL dataset) /\
  List.length (PRED_LABEL dataset) <= out_features model /\
  List.length (PRED_LABEL dataset) <= List.length (as_row (snd (getitem dataset i))).
Proof.
  unfold dataset_ok. intros H Hi.
  apply andb_true_iff in H. destruct H as [_ H].
  apply andb_true_iff in H. destruct H as [H H3].
  apply andb_true_iff in H. destruct H as [H1 H2].
  apply negb_true_iff, str_in_false in H1. apply Nat.leb_le in H2.
  rewrite forallb_forall in H3.
  specialize (H3 i). rewrite in_seq in H3.
  repeat split; try assumption. apply Nat.leb_le, H3. lia.
Qed.

Lemma dataset_ok_orientations (dataset : Dataset) (model : Model) (i : nat) :
  dataset_ok true dataset model = true -> i < len dataset ->
  out_features model <= List.length ORIENTATION /\
  out_features model <= List.length (label_binarize (snd (getitem dataset i))).
Proof.
  unfold dataset_ok. intros H Hi.
  apply andb_true_iff in H. destruct H as [_ H].
  apply andb_true_iff in H. destruct H as [H1 H2].
  apply Nat.leb_le in H1. rewrite forallb_forall in H2.
  specialize (H2 i). rewrite in_seq in H2.
  split; [assumption |]. apply Nat.leb_le, H2. lia.
Qed.

Lemma record_id_append_old (df : DataFrame) (r : dict) (p : nat) :
  p < List.length (rows df) -> record_id (df_append df r) p = record_id df p.
Proof.
  intro H. unfold record_id, df_append. simpl. now rewrite nth_error_app1.
Qed.

Lemma record_id_append_new (df : DataFrame) (r : dict) :
  record_id (df_append df r) (List.length (rows df)) = identifier r.
Proof.
  unfold record_id, df_append. simpl.
  rewrite nth_error_app2, Nat.sub_diag; [reflexivity | lia].
Qed.

Lemma columns_paired_append (pred_df true_df : DataFrame) (thisrow truerow : dict) :
  columns_paired pred_df true_df -> keys_paired thisrow truerow ->
  columns_paired (df_append pred_df thisrow) (df_append true_df truerow).
Proof.
  intros H1 H2 c Hc. apply In_columns_df_append in Hc. destruct Hc as [Hc | Hc].
  - destruct (H1 c Hc) as [E | Hin]; [now left | right].
    apply In_columns_df_append. now left.
  - destruct (H2 c Hc) as [E | Hin]; [now left | right].
    apply In_columns_df_append. now right.
Qed.

(** One sample adds one record to each frame, under the sample's identifier. *)
Lemma sample_rows_ok (batch_size : nat) (multiclass : bool) (dataset : Dataset)
    (model : Model) (i j : nat) (dfs : DataFrame * DataFrame) :
  dataset_ok multiclass dataset model = true ->
  batch_size * i + j < len dataset ->
  rows_aligned dataset (batch_size * i + j) dfs ->
  exists dfs',
    sample_rows batch_size multiclass dataset model i
                (j, getitem dataset (batch_size * i + j)) dfs = Ret dfs' /\
    rows_aligned dataset (batch_size * i + S j) dfs'.
Proof.
  intros Hok Hlt (L1 & L2 & Hid & Hcols). destruct dfs as [pred_df true_df].
  cbn [fst snd] in *.
  pose proof (dataset_ok_index _ _ _ Hok) as Hlen.
  destruct (index_at_lt (df_index dataset) (batch_size * i + j)) as (id & E1 & E2);
    [lia |].
  unfold sample_rows. rewrite E1. cbn [obind].
  set (thisrow := dict_set "Image Index" (CIdent id) []).
  assert (exists thisrow' truerow',
             (if negb multiclass
              then for_each (seq 0 (List.length (PRED_LABEL dataset)))
                     (label_entry dataset model (getitem dataset (batch_size * i + j)))
                     (thisrow, thisrow)
              else for_each (seq 0 (out_features model))
                     (orientation_entry model (getitem dataset (batch_size * i + j)))
                     (thisrow, thisrow))
             = Ret (thisrow', truerow') /\
             identifier thisrow' = Some (CIdent id) /\
             identifier truerow' = Some (CIdent id) /\
             keys_paired thisrow' truerow') as (r1 & r2 & E & I1 & I2 & I3).
  { assert (keys_paired thisrow thisrow) as K.
    { intros c Hc. simpl in Hc. destruct Hc as [<- | []]. now left. }
    destruct multiclass; cbn [negb].
    - destruct (dataset_ok_orientations dataset model _ Hok Hlt) as [A1 A2].
      now apply orientation_loop_ok.
    - destruct (dataset_ok_labels dataset model _ Hok Hlt) as (A1 & A2 & A3).
      now apply label_loop_ok. }
  rewrite E. cbn [obind]. eexists. split; [reflexivity |].
  unfold rows_aligned. cbn [fst snd]. repeat split.
  - unfold df_append. simpl. rewrite length_app. simpl. lia.
  - unfold df_append. simpl. rewrite length_app. simpl. lia.
  - intros p Hp.
    destruct (Nat.eq_dec p (batch_size * i + j)) as [-> | Hne].
    + exists id. split; [assumption |]. split.
      * rewrite <- L1. now rewrite record_id_append_new.
      * rewrite <- L2. now rewrite record_id_append_new.
    + destruct (Hid p) as (id' & F1 & F2 & F3); [lia |].
      exists id'. split; [assumption |].
      rewrite !record_id_append_old by lia. now split.
  - now apply columns_paired_append.
Qed.


Lemma num_batches_covers (n batch_size : nat) :
  0 < batch_size -> n <= batch_size * num_batches n batch_size.
Proof.
  intro H. unfold num_batches.
  pose proof (Nat.div_mod_eq (n + batch_size - 1) batch_size) as E.
  pose proof (Nat.mod_upper_bound (n + batch_size - 1) batch_size) as B.
  lia.
Qed.

Lemma num_batches_starts (n batch_size k : nat) :
  0 < batch_size -> k < num_batches n batch_size -> batch_size * k < n.
Proof.
  intros H Hk. unfold num_batches in Hk.
  pose proof (Nat.div_mod_eq (n + batch_size - 1) batch_size) as E.
  assert (batch_size * S k <= batch_size * ((n + batch_size - 1) / batch_size)) as G.
  { apply Nat.mul_le_mono_l. lia. }
  rewrite Nat.mul_succ_r in G. lia.
Qed.

(** A batch adds the records of its samples. *)
Lemma batch_rows_ok (batch_size : nat) (multiclass : bool) (dataset : Dataset)
    (model : Model) (i : nat) (dfs : DataFrame * DataFrame) :
  dataset_ok multiclass dataset model = true ->
  rows_aligned dataset (batch_size * i) dfs ->
  exists dfs',
    batch_rows batch_size multiclass dataset model
      (i, map (getitem dataset)
              (seq (batch_size * i)
                   (Nat.min batch_size (len dataset - batch_size * i)))) dfs
    = Ret dfs' /\
    rows_aligned dataset
      (batch_size * i + Nat.min batch_size (len dataset - batch_size * i)) dfs'.
Proof.
  intros Hok Hal. unfold batch_rows.
  set (L := Nat.min batch_size (len dataset - batch_size * i)).
  set (data := map (getitem dataset) (seq (batch_size * i) L)).
  assert (List.length data = L) as HL.
  { unfold data. now rewrite length_map, length_seq. }
  destruct (for_each_invariant (fun m dfs0 => rows_aligned dataset m dfs0)
              (sample_rows batch_size multiclass dataset model i)
              (enumerate data) (batch_size * i) dfs Hal) as (dfs' & E & H').
  - intros k [j item] dfs0 Hk Hk0.
    destruct (nth_error_enumerate data k (j, item) Hk) as [Ej Ex].
    cbn [fst snd] in Ej, Ex. subst j.
    unfold data in Ex. rewrite nth_error_map, nth_error_seq in Ex.
    destruct (k <? L) eqn:HkL; [|discriminate]. apply Nat.ltb_lt in HkL.
    injection Ex as <-.
    apply sample_rows_ok; try assumption. unfold L in HkL. lia.
  - exists dfs'. split; [assumption |].
    now rewrite length_enumerate, HL in H'.
Qed.

(** The prediction pass does not raise on a well-formed dataset, and leaves
    one prediction and one truth record per sample, in the dataset's order. *)
Lemma collect_rows_ok (batch_size : nat) (multiclass : bool) (dataset : Dataset)
    (model : Model) :
  0 < batch_size ->
  dataset_ok multiclass dataset model = true ->
  exists dfs,
    collect_rows batch_size multiclass dataset model = Ret dfs /\
    rows_aligned dataset (len dataset) dfs.
Proof.
  intros Hbs Hok. unfold collect_rows.
  set (start := (new_frame ["Image Index"%string], new_frame ["Image Index"%string])).
  destruct (for_each_invariant
              (fun k dfs0 =>
                 rows_aligned dataset (Nat.min (batch_size * k) (len dataset)) dfs0)
              (batch_rows batch_size multiclass dataset model)
              (enumerate (DataLoader dataset batch_size)) 0 start)
    as (dfs & E & H).
  - rewrite Nat.mul_0_r. simpl. repeat split; try reflexivity.
    + intros p Hp. lia.
    + intros c Hc. simpl in Hc. destruct Hc as [<- | []]. now left.
  - intros k [i data] dfs0 Hk Hal. cbn [Nat.add] in *.
    destruct (nth_error_enumerate _ k (i, data) Hk) as [Ei Ex].
    cbn [fst snd] in Ei, Ex. subst i.
    unfold DataLoader in Ex. rewrite nth_error_map, nth_error_seq in Ex.
    destruct (k <? num_batches (len dataset) batch_size) eqn:Hnb; [|discriminate].
    apply Nat.ltb_lt in Hnb. injection Ex as <-. cbn [Nat.add].
    pose proof (num_batches_starts _ _ _ Hbs Hnb) as Hstart.
    rewrite Nat.min_l in Hal by lia.
    destruct (batch_rows_ok batch_size multiclass dataset model k dfs0 Hok Hal)
      as (dfs1 & E1 & H1).
    exists dfs1. split; [assumption |].
    replace (Nat.min (batch_size * S k) (len dataset))
      with (batch_size * k + Nat.min batch_size (len dataset - batch_size * k));
      [assumption |].
    rewrite Nat.mul_succ_r. lia.
  - exists dfs. split; [assumption |].
    cbn [Nat.add] in H. rewrite length_enumerate in H.
    unfold DataLoader in H. rewrite length_map, length_seq in H.
    pose proof (num_batches_covers (len dataset) batch_size Hbs).
    now rewrite Nat.min_r in H by lia.
Qed.


(** ** The monad *)

Lemma bind_inv {A B : Type} (c : M A) (k : A -> M B) (w w' : World) (b : B) :
  bind c k w = (Ret b, w') ->
  exists a w1, c w = (Ret a, w1) /\ k a w1 = (Ret b, w').
Proof.
  unfold bind. destruct (c w) as [[a | e] w1]; intro H.
  - now exists a, w1.
  - discriminate.
Qed.

Lemma bind_ret {A B : Type} (c : M A) (k : A -> M B) (w w1 : World) (a : A) :
  c w = (Ret a, w1) -> bind c k w = k a w1.
Proof. intro H. unfold bind. now rewrite H. Qed.

Lemma bind_raise {A B : Type} (c : M A) (k : A -> M B) (w w1 : World) (e : exn) :
  c w = (Raise e, w1) -> bind c k w = (Raise e, w1).
Proof. intro H. unfold bind. now rewrite H. Qed.

(** ** Scoring the columns *)

Lemma df_column_In (df : DataFrame) (c : string) :
  In c (columns df) -> exists l, df_column df c = Ret l.
Proof.
  intro H. unfold df_column. apply str_in_In in H. rewrite H. eauto.
Qed.

(** A column that is scored has its column of scores. *)
Lemma scored_column_has_scores (multiclass : bool) (pred_df true_df : DataFrame)
    (column : string) :
  columns_paired pred_df true_df ->
  In column (columns true_df) ->
  negb multiclass && negb (str_in column FINDINGS) = false ->
  multiclass && negb (str_in column ORIENTATIONS_SCORED) = false ->
  exists actual pred,
    df_column true_df column = Ret actual /\
    df_column pred_df ("prob_" ++ column) = Ret pred.
Proof.
  intros Hp Hin H1 H2.
  destruct (df_column_In true_df column Hin) as (actual & Ea).
  destruct (Hp column Hin) as [-> | Hin'].
  - destruct multiclass; simpl in H1, H2; discriminate.
  - destruct (df_column_In pred_df _ Hin') as (pred & Ep). eauto.
Qed.

(** What [score_column] does on a column it scores, with [metric = 'auc']. *)
Lemma score_column_auc (multiclass verbose : bool) (pred_df true_df : DataFrame)
    (c : string) (actual pred : list cell) (score_df : option DataFrame) (w : World) :
  negb multiclass && negb (str_in c FINDINGS) = false ->
  multiclass && negb (str_in c ORIENTATIONS_SCORED) = false ->
  df_column true_df c = Ret actual ->
  df_column pred_df ("prob_" ++ c) = Ret pred ->
  score_column "auc" multiclass verbose pred_df true_df c score_df w
  = match call_metric roc_auc_score actual pred with
    | Ret v => append_score "auc_df" score_df (score_row "auc" c v) w
    | Raise _ =>
        append_score "auc_df" score_df (score_row "auc" c PrimFloat.nan)
          (if verbose then snd (print (MsgCantCalculate "auc" c) w) else w)
    end.
Proof.
  intros S1 S2 Ea Ep. unfold score_column. rewrite S1, S2, Ea, Ep.
  unfold bind at 1, lift. unfold bind at 1.
  change (String.eqb "auc" "auc") with true. cbv iota.
  destruct (call_metric roc_auc_score actual pred) as [v | e].
  - reflexivity.
  - destruct verbose; reflexivity.
Qed.

(** With [metric = 'auc'] the loop over the columns does not raise: a metric
    that fails leaves NaN in its row. *)
Lemma score_columns_auc_ok (multiclass verbose : bool) (pred_df true_df : DataFrame) :
  columns_paired pred_df true_df ->
  forall (cols : list string) (df : DataFrame) (w : World),
    incl cols (columns true_df) ->
    exists df' w',
      forM cols (score_column "auc" multiclass verbose pred_df true_df) (Some df) w
      = (Ret (Some df'), w') /\
      results w' = results w.
Proof.
  intros Hp cols. induction cols as [|c cols IH]; intros df w Hincl.
  - exists df, w. split; reflexivity.
  - assert (In c (columns true_df)) as Hc by (apply Hincl; now left).
    assert (incl cols (columns true_df)) as Hincl'
      by (intros x Hx; apply Hincl; now right).
    cbn [forM].
    destruct (negb multiclass && negb (str_in c FINDINGS)) eqn:S1.
    { erewrite bind_ret; [now apply IH |].
      unfold score_column. now rewrite S1. }
    destruct (multiclass && negb (str_in c ORIENTATIONS_SCORED)) eqn:S2.
    { erewrite bind_ret; [now apply IH |].
      unfold score_column. now rewrite S1, S2. }
    destruct (scored_column_has_scores multiclass pred_df true_df c Hp Hc S1 S2)
      as (actual & pred & Ea & Ep).
    unfold bind.
    rewrite (score_column_auc multiclass verbose pred_df true_df c actual pred
               (Some df) w S1 S2 Ea Ep).
    destruct (call_metric roc_auc_score actual pred) as [v | e];
      cbn [append_score ret].
    + now apply IH.
    + destruct (IH (df_append df (score_row "auc" c PrimFloat.nan))
                  (if verbose then snd (print (MsgCantCalculate "auc" c) w) else w)
                  Hincl') as (df' & w' & E & R).
      exists df', w'. split; [exact E |].
      rewrite R. now destruct verbose.
Qed.


(** With [metric = 'auc'] the whole routine returns on a well-formed dataset
    when [results/] exists, with the frame of the prediction pass. *)
Lemma make_pred_auc_ok (data_transforms : Transforms) (model : Model)
    (PATH_TO_IMAGES PATH_TO_CSV : string) (multiclass verbose : bool)
    (dataset : Dataset) (w : World) (r : Results) :
  results w = Some r ->
  dataset_ok multiclass dataset model = true ->
  exists pred_df true_df auc_df w',
    collect_rows BATCH_SIZE multiclass dataset (model_train model false)
    = Ret (pred_df, true_df) /\
    make_pred_multilabel data_transforms model PATH_TO_IMAGES PATH_TO_CSV "auc"
      multiclass (Some dataset) verbose w
    = (Ret (model_train model false, Some (pred_df, auc_df)), w') /\
    (exists r', results w' = Some r' /\ preds_csv r' = Some pred_df).
Proof.
  intros Hr Hok.
  destruct (collect_rows_ok BATCH_SIZE multiclass dataset (model_train model false))
    as ([pred_df true_df] & E & (L1 & L2 & Hid & Hcols)).
  { unfold BATCH_SIZE. lia. }
  { exact Hok. }
  cbn [fst snd] in *.
  unfold make_pred_multilabel.
  change (str_in "auc" ["auc"; "f1"]%string) with true. cbn [negb when].
  unfold bind at 1. cbn [ret].
  unfold bind at 1. cbn [ret].
  unfold bind at 1, print at 1. unfold bind at 1, print at 1.
  unfold bind at 1, lift. rewrite E.
  change (String.eqb "auc" "auc") with true. cbv iota.
  unfold bind at 1.
  match goal with
  | |- context [forM _ _ (Some ?d) ?w0] =>
      destruct (score_columns_auc_ok multiclass verbose pred_df true_df Hcols
                  (columns true_df) d w0 (incl_refl _))
        as (auc_df & w2 & E2 & R2)
  end.
  cbn [results] in R2. rewrite Hr in R2.
  rewrite E2.
  unfold bind at 1, write_preds, in_results. rewrite R2.
  unfold bind at 1, write_aucs, in_results. cbn [results set_results ret].
  exists pred_df, true_df, auc_df. eexists. split; [reflexivity |].
  split; [reflexivity |]. eexists. split; reflexivity.
Qed.


Lemma collect_rows_mode (batch_size : nat) (multiclass : bool) (dataset : Dataset)
    (model : Model) (mode : bool) :
  collect_rows batch_size multiclass dataset (model_train model mode)
  = collect_rows batch_size multiclass dataset model.
Proof. reflexivity. Qed.

(** C5: an evaluation pass over a well-formed dataset, for any batch size
    (the last batch may be shorter), produces a prediction frame and a truth
    frame with one record per sample of the dataset, and the records at the
    same position carry the same identifier, the dataset's identifier at that
    position; [make_pred_multilabel] (batches of 16, metric ['auc']) returns
    and stores that prediction frame. *)
Theorem evaluation_records_aligned :
  (forall (batch_size : nat) (multiclass : bool) (dataset : Dataset) (model : Model),
      0 < batch_size ->
      dataset_ok multiclass dataset model = true ->
      exists pred_df true_df,
        collect_rows batch_size multiclass dataset model = Ret (pred_df, true_df) /\
        List.length (rows pred_df) = len dataset /\
        List.length (rows true_df) = len dataset /\
        forall i, i < len dataset ->
          exists id, nth_error (df_index dataset) i = Some id /\
                     record_id pred_df i = Some (CIdent id) /\
                     record_id true_df i = Some (CIdent id)) /\
  (forall (data_transforms : Transforms) (model : Model)
          (PATH_TO_IMAGES PATH_TO_CSV : string) (multiclass verbose : bool)
          (dataset : Dataset) (w : World),
      results w <> None ->
      dataset_ok multiclass dataset model = true ->
      exists pred_df auc_df w' r',
        make_pred_multilabel data_transforms model PATH_TO_IMAGES PATH_TO_CSV "auc"
          multiclass (Some dataset) verbose w
        = (Ret (model_train model false, Some (pred_df, auc_df)), w') /\
        results w' = Some r' /\ preds_csv r' = Some pred_df /\
        List.length (rows pred_df) = len dataset /\
        forall i, i < len dataset ->
          exists id, nth_error (df_index dataset) i = Some id /\
                     record_id pred_df i = Some (CIdent id)).
Proof.
  split.
  - intros batch_size multiclass dataset model Hbs Hok.
    destruct (collect_rows_ok batch_size multiclass dataset model Hbs Hok)
      as ([pred_df true_df] & E & L1 & L2 & Hid & _).
    now exists pred_df, true_df.
  - intros data_transforms model P1 P2 multiclass verbose dataset w Hw Hok.
    destruct (results w) as [r|] eqn:Hr; [|now elim Hw].
    destruct (make_pred_auc_ok data_transforms model P1 P2 multiclass verbose
                dataset w r Hr Hok)
      as (pred_df & true_df & auc_df & w' & E1 & E2 & r' & R1 & R2).
    rewrite collect_rows_mode in E1.
    destruct (collect_rows_ok BATCH_SIZE multiclass dataset model)
      as (dfs & E & L1 & L2 & Hid & _); [unfold BATCH_SIZE; lia | exact Hok |].
    rewrite E1 in E. injection E as <-. cbn [fst snd] in *.
    exists pred_df, auc_df, w', r'. repeat split; try assumption.
    intros i Hi. destruct (Hid i Hi) as (id & N & I1 & _). now exists id.
Qed.


(** With a metric that is neither ['auc'] nor ['f1'] the loop over the
    columns looks the columns up and does nothing else. *)
Lemma score_columns_unknown_metric (metric : string) (multiclass verbose : bool)
    (pred_df true_df : DataFrame) :
  String.eqb metric "auc" = false -> String.eqb metric "f1" = false ->
  columns_paired pred_df true_df ->
  forall (cols : list string) (score_df : option DataFrame) (w : World),
    incl cols (columns true_df) ->
    forM cols (score_column metric multiclass verbose pred_df true_df) score_df w
    = (Ret score_df, w).
Proof.
  intros M1 M2 Hp cols. induction cols as [|c cols IH]; intros score_df w Hincl.
  - reflexivity.
  - assert (In c (columns true_df)) as Hc by (apply Hincl; now left).
    assert (incl cols (columns true_df)) as Hincl'
      by (intros x Hx; apply Hincl; now right).
    cbn [forM].
    assert (score_column metric multiclass verbose pred_df true_df c score_df w
            = (Ret score_df, w)) as E.
    { unfold score_column.
      destruct (negb multiclass && negb (str_in c FINDINGS)) eqn:S1;
        [reflexivity |].
      destruct (multiclass && negb (str_in c ORIENTATIONS_SCORED)) eqn:S2;
        [reflexivity |].
      destruct (scored_column_has_scores multiclass pred_df true_df c Hp Hc S1 S2)
        as (actual & pred & Ea & Ep).
      rewrite Ea, Ep, M1, M2. reflexivity. }
    rewrite (bind_ret _ _ _ _ _ E). now apply IH.
Qed.

Lemma make_pred_unknown_metric (data_transforms : Transforms) (model : Model)
    (PATH_TO_IMAGES PATH_TO_CSV metric : string) (multiclass verbose : bool)
    (dataset : option Dataset) (w : World) (r : Results) :
  str_in metric ["auc"; "f1"]%string = false ->
  results w = Some r ->
  dataset_ok multiclass
    (evaluated_dataset data_transforms PATH_TO_IMAGES PATH_TO_CSV dataset) model
  = true ->
  exists pred_df true_df,
    collect_rows BATCH_SIZE multiclass
      (evaluated_dataset data_transforms PATH_TO_IMAGES PATH_TO_CSV dataset) model
    = Ret (pred_df, true_df) /\
    List.length (rows pred_df)
    = len (evaluated_dataset data_transforms PATH_TO_IMAGES PATH_TO_CSV dataset) /\
    make_pred_multilabel data_transforms model PATH_TO_IMAGES PATH_TO_CSV metric
      multiclass dataset verbose w
    = (Ret (model_train model false, None),
       world_after_unknown_metric metric
         (len (evaluated_dataset data_transforms PATH_TO_IMAGES PATH_TO_CSV dataset))
         (evaluated_dataset_calls data_transforms PATH_TO_IMAGES PATH_TO_CSV dataset)
         pred_df r w).
Proof.
  intros Hm Hr Hok.
  set (ds := evaluated_dataset data_transforms PATH_TO_IMAGES PATH_TO_CSV dataset) in *.
  destruct (collect_rows_ok BATCH_SIZE multiclass ds model)
    as ([pred_df true_df] & E & (L1 & L2 & Hid & Hcols));
    [unfold BATCH_SIZE; lia | exact Hok |].
  cbn [fst snd] in *.
  exists pred_df, true_df. split; [exact E |]. split; [exact L1 |].
  assert (String.eqb metric "auc" = false /\ String.eqb metric "f1" = false)
    as [M1 M2].
  { unfold str_in in Hm. simpl in Hm.
    destruct (String.eqb metric "auc"); [discriminate |].
    destruct (String.eqb metric "f1"); [discriminate |]. now split. }
  unfold make_pred_multilabel. rewrite Hm, M1, M2. cbn [negb when].
  unfold bind at 1, print at 1.
  assert (forall w0 : World,
             match dataset with
             | Some d => ret d
             | None =>
                 new_CXPDataset
                   {| path_to_images := PATH_TO_IMAGES; path_to_csv := PATH_TO_CSV;
                      fold := "val"; uncertain := None;
                      transform_arg := tr_val data_transforms;
                      orientation_arg := None; sample := None; mask := None;
                      verbose_arg := None |}
             end w0
             = (Ret ds,
                {| results := results w0; stdout := stdout w0;
                   user_files := user_files w0; rng := rng w0;
                   calls := calls w0 ++
                            evaluated_dataset_calls data_transforms PATH_TO_IMAGES
                              PATH_TO_CSV dataset |})) as Hds.
  { intro w0. unfold ds. destruct dataset as [d|]; cbn.
    - rewrite app_nil_r. now destruct w0.
    - reflexivity. }
  unfold bind at 1. rewrite Hds.
  unfold bind at 1, print at 1. unfold bind at 1, print at 1.
  unfold bind at 1, lift. rewrite collect_rows_mode, E.
  unfold bind at 1.
  rewrite (score_columns_unknown_metric metric multiclass verbose pred_df true_df
             M1 M2 Hcols (columns true_df) None _ (incl_refl _)).
  unfold bind at 1, write_preds, in_results. cbn [results].
  rewrite Hr. cbn [set_results ret results stdout user_files rng calls training
                     model_train].
  unfold world_after_unknown_metric.
  rewrite <- !app_assoc. reflexivity.
Qed.



(** ** What leaves the checkpoints alone *)

Create HintDb frame.

Lemma keeps_saved_ret {A : Type} (a : A) : keeps_saved (ret a).
Proof. intros w w' a' H. injection H as _ <-. reflexivity. Qed.

Lemma keeps_saved_raise {A : Type} (e : exn) : keeps_saved (@raise _ A e).
Proof. intros w w' a H. discriminate. Qed.

Lemma keeps_saved_lift {A : Type} (o : outcome A) : keeps_saved (lift o).
Proof. intros w w' a H. injection H as _ <-. reflexivity. Qed.

Lemma keeps_saved_bind {A B : Type} (c : M A) (k : A -> M B) :
  keeps_saved c -> (forall a, keeps_saved (k a)) -> keeps_saved (bind c k).
Proof.
  intros Hc Hk w w' b H. apply bind_inv in H. destruct H as (a & w1 & E1 & E2).
  rewrite (Hk a w1 w' b E2). exact (Hc w w1 a E1).
Qed.

Lemma keeps_saved_print (m : msg) : keeps_saved (print m).
Proof. intros w w' a H. injection H as _ <-. reflexivity. Qed.

Lemma keeps_saved_record_call (c : call) : keeps_saved (record_call c).
Proof. intros w w' a H. injection H as _ <-. reflexivity. Qed.

Lemma keeps_saved_in_results (f : Results -> Results) :
  (forall r, saved (f r) = saved r) -> keeps_saved (in_results f).
Proof.
  intros Hf w w' a H. unfold in_results in H. unfold saved_of.
  destruct (results w) as [r|] eqn:E; [|discriminate].
  injection H as _ <-. simpl. apply Hf.
Qed.

Lemma keeps_saved_log (m : msg) : keeps_saved (log m).
Proof. apply keeps_saved_in_results. reflexivity. Qed.

Lemma keeps_saved_say (m : msg) : keeps_saved (say m).
Proof.
  apply keeps_saved_bind; [apply keeps_saved_print |].
  intros _. apply keeps_saved_log.
Qed.

Lemma keeps_saved_when (b : bool) (c : M unit) :
  keeps_saved c -> keeps_saved (when b c).
Proof. intro H. destruct b; [exact H | apply keeps_saved_ret]. Qed.

Lemma keeps_saved_forM {A St : Type} (body : A -> St -> M St) (xs : list A) :
  (forall x s, keeps_saved (body x s)) -> forall s, keeps_saved (forM xs body s).
Proof.
  intro Hb. induction xs as [|x xs IH]; intro s; cbn [forM].
  - apply keeps_saved_ret.
  - apply keeps_saved_bind; [apply Hb | exact IH].
Qed.

#[local] Hint Resolve keeps_saved_ret keeps_saved_raise keeps_saved_lift
  keeps_saved_print keeps_saved_record_call keeps_saved_log keeps_saved_say
  keeps_saved_when : frame.

Ltac frame :=
  repeat first
    [ progress auto with frame
    | apply keeps_saved_bind; [| intro]
    | apply keeps_saved_in_results; reflexivity
    | match goal with
      | |- keeps_saved (match ?x with _ => _ end) => destruct x
      | |- keeps_saved (let (_, _) := ?x in _) => destruct x
      end ].

Lemma keeps_saved_score_column (metric : string) (multiclass verbose : bool)
    (pred_df true_df : DataFrame) (column : string) (score_df : option DataFrame) :
  keeps_saved (score_column metric multiclass verbose pred_df true_df column score_df).
Proof. unfold score_column, append_score. frame. Qed.

Lemma keeps_saved_make_pred (data_transforms : Transforms) (model : Model)
    (PATH_TO_IMAGES PATH_TO_CSV metric : string) (multiclass : bool)
    (dataset : option Dataset) (verbose : bool) :
  keeps_saved (make_pred_multilabel data_transforms model PATH_TO_IMAGES PATH_TO_CSV
                 metric multiclass dataset verbose).
Proof.
  unfold make_pred_multilabel, new_CXPDataset, write_preds, write_aucs, write_f1.
  frame.
  all: try (apply keeps_saved_forM; intros; apply keeps_saved_score_column).
  all: frame.
Qed.


(** ** The metric table *)

Lemma score_table_append (kind column : string) (v : float) (df : DataFrame) :
  score_table kind df -> score_table kind (df_append df (score_row kind column v)).
Proof.
  intros [Hc Hr]. split.
  - unfold df_append, score_row. cbn [columns keys map fst]. rewrite Hc.
    unfold str_in. cbn [existsb filter].
    rewrite !String.eqb_refl, Bool.orb_true_r. reflexivity.
  - unfold df_append. cbn [rows]. apply Forall_app. split; [exact Hr |].
    constructor; [| constructor]. now exists column, v.
Qed.

(** With [metric = 'auc'], a column either is skipped or adds its row. *)
Lemma score_column_auc_inv (multiclass verbose : bool) (pred_df true_df : DataFrame)
    (column : string) (df : DataFrame) (score_df' : option DataFrame) (w w' : World) :
  score_column "auc" multiclass verbose pred_df true_df column (Some df) w
  = (Ret score_df', w') ->
  score_df' = Some df \/
  exists v, score_df' = Some (df_append df (score_row "auc" column v)).
Proof.
  unfold score_column.
  destruct (negb multiclass && negb (str_in column FINDINGS)).
  { intro H. injection H as <- _. now left. }
  destruct (multiclass && negb (str_in column ORIENTATIONS_SCORED)).
  { intro H. injection H as <- _. now left. }
  unfold bind at 1, lift.
  destruct (df_column true_df column) as [actual|]; [| discriminate].
  unfold bind at 1.
  destruct (df_column pred_df ("prob_" ++ column)) as [pred|]; [| discriminate].
  change (String.eqb "auc" "auc") with true. cbv iota.
  unfold bind at 1.
  destruct (call_metric roc_auc_score actual pred) as [v | e].
  - cbn. intro H. injection H as <- _. right. now exists v.
  - destruct verbose; cbn; intro H; injection H as <- _; right;
      now exists PrimFloat.nan.
Qed.

Lemma score_columns_auc_table (multiclass verbose : bool)
    (pred_df true_df : DataFrame) (cols : list string) :
  forall (df : DataFrame) (score_df' : option DataFrame) (w w' : World),
    score_table "auc" df ->
    forM cols (score_column "auc" multiclass verbose pred_df true_df) (Some df) w
    = (Ret score_df', w') ->
    exists df', score_df' = Some df' /\ score_table "auc" df'.
Proof.
  induction cols as [|c cols IH]; intros df score_df' w w' Ht H.
  - injection H as <- _. now exists df.
  - cbn [forM] in H. apply bind_inv in H. destruct H as (sd & w1 & E1 & E2).
    apply score_column_auc_inv in E1. destruct E1 as [-> | (v & ->)].
    + exact (IH _ _ _ _ Ht E2).
    + exact (IH _ _ _ _ (score_table_append _ _ _ _ Ht) E2).
Qed.

(** The table [make_pred_multilabel] returns for ['auc'] holds a label and a
    score in every row. *)
Lemma make_pred_auc_table (data_transforms0 : Transforms) (model model' : Model)
    (P1 P2 : string) (multiclass verbose : bool) (ds : option Dataset)
    (preds metric : DataFrame) (w w' : World) :
  make_pred_multilabel data_transforms0 model P1 P2 "auc" multiclass ds verbose w
  = (Ret (model', Some (preds, metric)), w') ->
  score_table "auc" metric.
Proof.
  unfold make_pred_multilabel. intro H.
  apply bind_inv in H. destruct H as (? & ? & _ & H).
  apply bind_inv in H. destruct H as (ds0 & ? & _ & H).
  apply bind_inv in H. destruct H as (? & ? & _ & H).
  apply bind_inv in H. destruct H as (? & ? & _ & H).
  apply bind_inv in H. destruct H as ([pred_df true_df] & ? & _ & H).
  change (String.eqb "auc" "auc") with true in H. cbv iota in H.
  apply bind_inv in H. destruct H as (sd & ? & E & H).
  apply score_columns_auc_table in E.
  - destruct E as (df' & -> & Ht).
    apply bind_inv in H. destruct H as (? & ? & _ & H).
    apply bind_inv in H. destruct H as (? & ? & _ & H).
    injection H as _ _ <- _. exact Ht.
  - split; [reflexivity | constructor].
Qed.

Lemma flatten_tail_score_table (kind : string) (metric : DataFrame) :
  String.eqb kind "label" = false ->
  score_table kind metric ->
  flatten_tail metric = map CFloat (table_scores kind metric).
Proof.
  intros Hk [Hc Hr]. unfold flatten_tail, table_scores. rewrite Hc. cbn [tl].
  induction Hr as [|r l (column & v & ->) Hl IH]; [reflexivity |].
  cbn [flat_map]. rewrite IH, map_app. f_equal.
  unfold score_row. cbn [map dict_get]. now rewrite String.eqb_refl, Hk.
Qed.

Lemma mapM_cell_float (l : list float) :
  mapM cell_float (map (@CFloat T) l) = Ret l.
Proof.
  induction l as [|x l IH]; [reflexivity |]. cbn. rewrite IH. reflexivity.
Qed.

(** The entries [train_model] averages are the scores of the table that are
    not NaN. *)
Lemma defined_values_score_table (kind : string) (metric : DataFrame)
    (auc : list float) :
  String.eqb kind "label" = false ->
  score_table kind metric ->
  defined_values metric = Ret auc ->
  auc = filter (fun v => negb (np_isnan v)) (table_scores kind metric).
Proof.
  intros Hk Ht. unfold defined_values.
  destruct (rows metric) as [|r l] eqn:E; [discriminate |].
  rewrite (flatten_tail_score_table kind metric Hk Ht), mapM_cell_float.
  cbn [obind]. intro H. now injection H as <-.
Qed.

(** ** The phases of an epoch *)

Lemma returns_ret {A : Type} (a : A) (P : A -> Prop) : P a -> returns (ret a) P.
Proof. intros H w w' a' E. injection E as <- _. exact H. Qed.

Lemma returns_bind {A B : Type} (c : M A) (k : A -> M B) (P : B -> Prop) :
  (forall a, returns (k a) P) -> returns (bind c k) P.
Proof.
  intros Hk w w' b E. apply bind_inv in E. destruct E as (a & w1 & _ & E2).
  exact (Hk a w1 w' b E2).
Qed.

(** ** The scores and the labels in the two tables *)

Lemma prob_inj (a b : string) : ("prob_" ++ a)%string = ("prob_" ++ b)%string -> a = b.
Proof. cbn. intro H. now inversion H. Qed.

Lemma for_each_ret_invariant {A St : Type} (I : nat -> St -> Prop)
    (body : A -> St -> outcome St) :
  forall (xs : list A) (n : nat) (s s' : St),
    for_each xs body s = Ret s' ->
    I n s ->
    (forall k x s0 s1, nth_error xs k = Some x -> I (n + k) s0 ->
                       body x s0 = Ret s1 -> I (n + S k) s1) ->
    I (n + List.length xs) s'.
Proof.
  induction xs as [|x xs IH]; intros n s s' H HI Hstep; cbn [for_each] in H.
  - injection H as <-. cbn. now rewrite Nat.add_0_r.
  - destruct (body x s) as [s1 | e] eqn:E; cbn [obind] in H; [| discriminate].
    cbn [List.length]. rewrite <- Nat.add_succ_comm.
    apply (IH (S n) s1 s' H).
    + rewrite <- Nat.add_1_r. apply (Hstep 0 x s s1); [reflexivity | | exact E].
      now rewrite Nat.add_0_r.
    + intros k y s0 s2 Hy HI0 Hb.
      rewrite Nat.add_succ_comm. apply (Hstep (S k) y s0 s2); [exact Hy | | exact Hb].
      now rewrite <- Nat.add_succ_comm.
Qed.

Lemma nth_error_seq_inv (a n k x : nat) :
  nth_error (seq a n) k = Some x -> x = a + k /\ k < n.
Proof.
  intro H. assert (k < n) as Hk.
  { rewrite <- (length_seq n a). apply nth_error_Some. now rewrite H. }
  split; [| exact Hk].
  apply (nth_error_nth _ _ 0) in H. now rewrite seq_nth in H.
Qed.

Lemma label_entry_inv (dataset : Dataset) (model : Model) (item : Image * Labels)
    (k : nat) (r t r' t' : dict) :
  label_entry dataset model item k (r, t) = Ret (r', t') ->
  exists name tv,
    nth_error (PRED_LABEL dataset) k = Some name /\
    nth_error (as_row (snd item)) k = Some tv /\
    r' = dict_set ("prob_" ++ name) (CFloat (predict (params model) (fst item) k)) r /\
    t' = dict_set name (CInt tv) t.
Proof.
  unfold label_entry, probs_at, index_at.
  destruct (k <? out_features model); cbn [obind]; [| discriminate].
  destruct (nth_error (PRED_LABEL dataset) k) as [name |]; cbn [obind]; [| discriminate].
  destruct (nth_error (as_row (snd item)) k) as [tv |]; cbn [obind]; [| discriminate].
  intro H. injection H as <- <-. now exists name, tv.
Qed.

Lemma orientation_entry_inv (model : Model) (item : Image * Labels)
    (k : nat) (r t r' t' : dict) :
  orientation_entry model item k (r, t) = Ret (r', t') ->
  exists name tv,
    nth_error ORIENTATION k = Some name /\
    nth_error (label_binarize (snd item)) k = Some tv /\
    r' = dict_set ("prob_" ++ name) (CFloat (predict (params model) (fst item) k)) r /\
    t' = dict_set name (CInt tv) t.
Proof.
  unfold orientation_entry, probs_at, index_at.
  destruct (k <? out_features model); cbn [obind]; [| discriminate].
  destruct (nth_error ORIENTATION k) as [name |]; cbn [obind]; [| discriminate].
  destruct (nth_error (label_binarize (snd item)) k) as [tv |]; cbn [obind];
    [| discriminate].
  intro H. injection H as <- <-. now exists name, tv.
Qed.

(** The loop over the columns of a sample, for either mode: when the names
    are distinct, every column ends with its own score and label. *)
Lemma entry_loop_filled (names : list string) (labs : list Z) (score : nat -> float)
    (entry : nat -> dict * dict -> outcome (dict * dict)) :
  NoDup names ->
  (forall k r t r' t', entry k (r, t) = Ret (r', t') ->
     exists name tv,
       nth_error names k = Some name /\ nth_error labs k = Some tv /\
       r' = dict_set ("prob_" ++ name) (CFloat (score k)) r /\
       t' = dict_set name (CInt tv) t) ->
  forall (n : nat) (rws rws' : dict * dict),
    for_each (seq 0 n) entry rws = Ret rws' ->
    forall k name, k < n -> nth_error names k = Some name ->
      exists tv,
        dict_get ("prob_" ++ name) (fst rws') = Some (CFloat (score k)) /\
        nth_error labs k = Some tv /\
        dict_get name (snd rws') = Some (CInt tv).
Proof.
  intros Hnd Hentry n rws rws' H.
  pose proof (for_each_ret_invariant
                (fun m s => forall k name, k < m -> nth_error names k = Some name ->
                   exists tv,
                     dict_get ("prob_" ++ name) (fst s) = Some (CFloat (score k)) /\
                     nth_error labs k = Some tv /\
                     dict_get name (snd s) = Some (CInt tv))
                entry (seq 0 n) 0 rws rws' H) as Hinv.
  rewrite length_seq in Hinv. cbn [Nat.add] in Hinv. apply Hinv.
  - intros; lia.
  - clear Hinv H. intros m x [r t] [r' t'] Hx HI Hb j name Hj Hname.
    cbn [Nat.add] in *. apply nth_error_seq_inv in Hx. destruct Hx as [-> _].
    cbn [Nat.add] in Hb.
    destruct (Hentry _ _ _ _ _ Hb) as (nm & tv & Hnm & Htv & -> & ->).
    cbn [fst snd].
    destruct (Nat.eq_dec j m) as [-> | Hne].
    + rewrite Hnm in Hname. injection Hname as <-.
      exists tv. now rewrite !dict_get_set_same.
    + assert (nm <> name) as Hdiff.
      { intros ->. apply Hne.
        apply (proj1 (NoDup_nth_error names) Hnd); [| now rewrite Hname, Hnm].
        apply nth_error_Some. now rewrite Hname. }
      destruct (HI j name) as (tj & G1 & G2 & G3); [lia | exact Hname |].
      exists tj. rewrite !dict_get_set_other; [now repeat split | exact Hdiff |].
      intro Heq. apply Hdiff. now apply prob_inj.
Qed.

Lemma NoDup_ORIENTATION : NoDup ORIENTATION.
Proof.
  unfold ORIENTATION. repeat constructor; cbn; intuition discriminate.
Qed.

(** A sample that gets its records gets them filled. *)
Lemma sample_rows_filled (batch_size : nat) (multiclass : bool) (dataset : Dataset)
    (model : Model) (i j p : nat) (dfs dfs' : DataFrame * DataFrame) :
  (multiclass = false -> NoDup (PRED_LABEL dataset)) ->
  sample_rows batch_size multiclass dataset model i (j, getitem dataset p) dfs = Ret dfs' ->
  rows_filled multiclass dataset model p dfs ->
  rows_filled multiclass dataset model (S p) dfs'.
Proof.
  intros Hnd H (L1 & L2 & Hrows). destruct dfs as [pred_df true_df].
  unfold sample_rows in H.
  destruct (index_at (df_index dataset) (batch_size * i + j)) as [ident | e];
    cbn [obind] in H; [| discriminate].
  match type of H with
  | obind ?c _ = _ => destruct c as [[thisrow truerow] | e] eqn:Eloop
  end; cbn [obind] in H; [| discriminate].
  injection H as <-. cbn [fst snd] in *.
  assert (entries_filled multiclass dataset model (getitem dataset p) (thisrow, truerow))
    as Hfilled.
  { intros k name Hname. unfold column_names, sample_labels in *.
    destruct multiclass; cbn [negb] in Eloop.
    - rewrite nth_error_firstn in Hname.
      destruct (k <? out_features model) eqn:Hk; [| discriminate].
      apply Nat.ltb_lt in Hk.
      exact (entry_loop_filled ORIENTATION (label_binarize (snd (getitem dataset p)))
               (predict (params model) (fst (getitem dataset p)))
               (orientation_entry model (getitem dataset p)) NoDup_ORIENTATION
               (orientation_entry_inv model (getitem dataset p))
               _ _ _ Eloop k name Hk Hname).
    - assert (k < List.length (PRED_LABEL dataset)) as Hk
        by (apply nth_error_Some; now rewrite Hname).
      exact (entry_loop_filled (PRED_LABEL dataset) (as_row (snd (getitem dataset p)))
               (predict (params model) (fst (getitem dataset p)))
               (label_entry dataset model (getitem dataset p)) (Hnd eq_refl)
               (label_entry_inv dataset model (getitem dataset p))
               _ _ _ Eloop k name Hk Hname). }
  unfold rows_filled, df_append. cbn [fst snd rows].
  rewrite !length_app, L1, L2. cbn [List.length].
  split; [lia |]. split; [lia |].
  intros q Hq. destruct (Nat.eq_dec q p) as [-> | Hne].
  - exists thisrow, truerow.
    rewrite !nth_error_app2 by lia. rewrite L1, L2, Nat.sub_diag. now repeat split.
  - destruct (Hrows q) as (r & t & N1 & N2 & F); [lia |].
    exists r, t. rewrite !nth_error_app1 by lia. now repeat split.
Qed.

Lemma batch_rows_filled (batch_size : nat) (multiclass : bool) (dataset : Dataset)
    (model : Model) (i m : nat) (dfs dfs' : DataFrame * DataFrame) :
  (multiclass = false -> NoDup (PRED_LABEL dataset)) ->
  batch_rows batch_size multiclass dataset model
    (i, map (getitem dataset) (seq (batch_size * i) m)) dfs = Ret dfs' ->
  rows_filled multiclass dataset model (batch_size * i) dfs ->
  rows_filled multiclass dataset model (batch_size * i + m) dfs'.
Proof.
  intros Hnd H H0. unfold batch_rows in H.
  pose proof (for_each_ret_invariant
                (fun n s => rows_filled multiclass dataset model n s)
                (sample_rows batch_size multiclass dataset model i)
                _ (batch_size * i) dfs dfs' H H0) as Hinv.
  rewrite length_enumerate, length_map, length_seq in Hinv. apply Hinv.
  intros k [j item] s0 s1 Hk HI Hb.
  apply nth_error_enumerate in Hk. cbn [fst snd] in Hk. destruct Hk as [-> Hitem].
  rewrite nth_error_map in Hitem.
  destruct (nth_error (seq (batch_size * i) m) k) as [p |] eqn:Ep; [| discriminate].
  injection Hitem as <-. apply nth_error_seq_inv in Ep. destruct Ep as [-> _].
  rewrite Nat.add_succ_r.
  exact (sample_rows_filled batch_size multiclass dataset model i k _ s0 s1 Hnd Hb HI).
Qed.

Lemma collect_rows_filled (batch_size : nat) (multiclass : bool) (dataset : Dataset)
    (model : Model) (dfs : DataFrame * DataFrame) :
  0 < batch_size ->
  (multiclass = false -> NoDup (PRED_LABEL dataset)) ->
  collect_rows batch_size multiclass dataset model = Ret dfs ->
  rows_filled multiclass dataset model (len dataset) dfs.
Proof.
  intros Hb Hnd H. unfold collect_rows in H.
  pose proof (for_each_ret_invariant
                (fun n s => rows_filled multiclass dataset model
                              (Nat.min (batch_size * n) (len dataset)) s)
                (batch_rows batch_size multiclass dataset model)
                _ 0 _ dfs H) as Hinv.
  rewrite length_enumerate in Hinv. unfold DataLoader in Hinv at 2.
  rewrite length_map, length_seq in Hinv. cbn [Nat.add] in Hinv.
  rewrite (Nat.min_r (batch_size * num_batches (len dataset) batch_size)) in Hinv
    by (apply num_batches_covers; exact Hb).
  apply Hinv.
  - rewrite Nat.mul_0_r. cbn [Nat.min]. unfold rows_filled. cbn.
    split; [reflexivity |]. split; [reflexivity |]. intros; lia.
  - clear Hinv H. intros k [i data] s0 s1 Hk HI Hbody. cbn [Nat.add] in *.
    apply nth_error_enumerate in Hk. cbn [fst snd] in Hk. destruct Hk as [-> Hdata].
    unfold DataLoader in Hdata. rewrite nth_error_map in Hdata.
    destruct (nth_error (seq 0 (num_batches (len dataset) batch_size)) k) as [i |] eqn:Ei;
      [| discriminate].
    injection Hdata as <-. apply nth_error_seq_inv in Ei. destruct Ei as [-> Hlt].
    cbn [Nat.add] in *.
    pose proof (num_batches_starts _ _ _ Hb Hlt) as Hstart.
    rewrite Nat.min_l in HI by lia.
    pose proof (batch_rows_filled batch_size multiclass dataset model k _ s0 s1 Hnd
                  Hbody HI) as Hres.
    replace (Nat.min (batch_size * S k) (len dataset))
      with (batch_size * k + Nat.min batch_size (len dataset - batch_size * k))
      by lia.
    exact Hres.
Qed.

(** X9: when the names of the columns are distinct, the two tables hold the
    right numbers in the right places.  On a well-formed dataset, for every
    sample [i] and every column [k] that the pass fills (label [k] of the
    dataset or, with [multiclass], orientation [k]), record [i] of the
    predictions holds under ['prob_' + name] the output [k] of the network
    for the image of sample [i], and record [i] of the truth holds under the
    name the label [k] of that sample. *)
Theorem tables_hold_scores_and_labels (batch_size : nat) (multiclass : bool)
    (dataset : Dataset) (model : Model) :
  0 < batch_size ->
  dataset_ok multiclass dataset model = true ->
  (multiclass = false -> NoDup (PRED_LABEL dataset)) ->
  exists pred_df true_df,
    collect_rows batch_size multiclass dataset model = Ret (pred_df, true_df) /\
    forall (i k : nat) (name : string),
      i < len dataset ->
      nth_error (if multiclass then firstn (out_features model) ORIENTATION
                 else PRED_LABEL dataset) k = Some name ->
      exists (thisrow truerow : dict) (t : Z),
        nth_error (rows pred_df) i = Some thisrow /\
        nth_error (rows true_df) i = Some truerow /\
        dict_get ("prob_" ++ name) thisrow
        = Some (CFloat (predict (params model) (fst (getitem dataset i)) k)) /\
        nth_error (if multiclass then label_binarize (snd (getitem dataset i))
                   else as_row (snd (getitem dataset i))) k = Some t /\
        dict_get name truerow = Some (CInt t).
Proof.
  intros Hb Hok Hnd.
  destruct (collect_rows_ok batch_size multiclass dataset model Hb Hok)
    as ([pred_df true_df] & E & _).
  exists pred_df, true_df. split; [exact E |].
  destruct (collect_rows_filled _ _ _ _ _ Hb Hnd E) as (_ & _ & Hrows).
  cbn [fst snd] in Hrows.
  intros i k name Hi Hname.
  destruct (Hrows i Hi) as (thisrow & truerow & N1 & N2 & F).
  destruct (F k name Hname) as (t & G1 & G2 & G3).
  exists thisrow, truerow, t. now repeat split.
Qed.

(** ** The run of the evaluation routine *)

Lemma add_stdout_nil (w : World) : add_stdout [] w = w.
Proof. destruct w. unfold add_stdout. cbn. now rewrite app_nil_r. Qed.

Lemma add_stdout_app (ms1 ms2 : list msg) (w : World) :
  add_stdout ms2 (add_stdout ms1 w) = add_stdout (ms1 ++ ms2) w.
Proof. unfold add_stdout. cbn. now rewrite app_assoc. Qed.

Lemma print_add_stdout (m : msg) (w : World) : print m w = (Ret tt, add_stdout [m] w).
Proof. reflexivity. Qed.

Lemma only_prints_ret {A : Type} (a : A) : only_prints (ret a).
Proof. intro w. exists []. now rewrite add_stdout_nil. Qed.

Lemma only_prints_raise {A : Type} (e : exn) : only_prints (@raise _ A e).
Proof. intro w. exists []. now rewrite add_stdout_nil. Qed.

Lemma only_prints_lift {A : Type} (o : outcome A) : only_prints (lift o).
Proof. intro w. exists []. now rewrite add_stdout_nil. Qed.

Lemma only_prints_print (m : msg) : only_prints (print m).
Proof. intro w. now exists [m]. Qed.

Lemma only_prints_bind {A B : Type} (c : M A) (k : A -> M B) :
  only_prints c -> (forall a, only_prints (k a)) -> only_prints (bind c k).
Proof.
  intros Hc Hk w. unfold bind. destruct (Hc w) as (ms1 & E1).
  destruct (c w) as [[a | e] w1]; cbn [snd] in E1; subst w1.
  - destruct (Hk a (add_stdout ms1 w)) as (ms2 & E2).
    exists (ms1 ++ ms2). now rewrite E2, add_stdout_app.
  - now exists ms1.
Qed.

Lemma only_prints_when (b : bool) (c : M unit) : only_prints c -> only_prints (when b c).
Proof. intro H. destruct b; [exact H | apply only_prints_ret]. Qed.

Lemma only_prints_forM {A St : Type} (body : A -> St -> M St) (xs : list A) :
  (forall x s, only_prints (body x s)) -> forall s, only_prints (forM xs body s).
Proof.
  intro Hb. induction xs as [|x xs IH]; intro s; cbn [forM].
  - apply only_prints_ret.
  - apply only_prints_bind; [apply Hb | exact IH].
Qed.

Lemma only_prints_append_score (name : string) (score_df : option DataFrame)
    (thisrow : dict) : only_prints (append_score name score_df thisrow).
Proof. destruct score_df; [apply only_prints_ret | apply only_prints_raise]. Qed.

Lemma only_prints_score_column (metric : string) (multiclass verbose : bool)
    (pred_df true_df : DataFrame) (column : string) (score_df : option DataFrame) :
  only_prints (score_column metric multiclass verbose pred_df true_df column score_df).
Proof.
  unfold score_column.
  repeat first
    [ apply only_prints_ret | apply only_prints_lift | apply only_prints_print
    | apply only_prints_append_score
    | apply only_prints_when
    | apply only_prints_bind; [| intro]
    | match goal with
      | |- only_prints (if ?b then _ else _) => destruct b
      | |- only_prints (match ?x with _ => _ end) => destruct x
      end ].
Qed.

(** The loop over the columns prints and does nothing else. *)
Lemma score_columns_only_print (metric : string) (multiclass verbose : bool)
    (pred_df true_df : DataFrame) (cols : list string) (score_df : option DataFrame) :
  only_prints (forM cols (score_column metric multiclass verbose pred_df true_df) score_df).
Proof. apply only_prints_forM. intros. apply only_prints_score_column. Qed.

Lemma scored_tests (multiclass : bool) (c : string) :
  scored multiclass c
  = negb (negb multiclass && negb (str_in c FINDINGS)) &&
    negb (multiclass && negb (str_in c ORIENTATIONS_SCORED)).
Proof.
  unfold scored. destruct multiclass; cbn [negb andb].
  - now destruct (str_in c ORIENTATIONS_SCORED).
  - now destruct (str_in c FINDINGS).
Qed.

Lemma score_column_skipped (metric : string) (multiclass verbose : bool)
    (pred_df true_df : DataFrame) (c : string) (score_df : option DataFrame) (w : World) :
  scored multiclass c = false ->
  score_column metric multiclass verbose pred_df true_df c score_df w = (Ret score_df, w).
Proof.
  intro H. rewrite scored_tests in H. unfold score_column.
  destruct (negb multiclass && negb (str_in c FINDINGS)); [reflexivity |].
  destruct (multiclass && negb (str_in c ORIENTATIONS_SCORED)); [reflexivity |].
  discriminate.
Qed.

Lemma df_append_score_row (kind column : string) (v : float) (df : DataFrame) :
  columns df = ["label"%string; kind] ->
  df_append df (score_row kind column v)
  = {| columns := ["label"%string; kind]; rows := rows df ++ [score_row kind column v] |}.
Proof.
  intro Hc. unfold df_append, score_row. cbn [columns keys map fst]. rewrite Hc.
  unfold str_in. cbn [existsb filter].
  rewrite !String.eqb_refl, Bool.orb_true_r. reflexivity.
Qed.

(** The loop over the columns with [metric = 'auc']: a row for every column
    that is scored, with the score or NaN, and a line for every score that
    is not defined when [verbose] is set. *)
Lemma score_columns_auc_run (multiclass verbose : bool) (pred_df true_df : DataFrame) :
  columns_paired pred_df true_df ->
  forall (cols : list string) (df : DataFrame) (w : World),
    incl cols (columns true_df) ->
    columns df = ["label"; "auc"]%string ->
    forM cols (score_column "auc" multiclass verbose pred_df true_df) (Some df) w
    = (Ret (Some {| columns := ["label"; "auc"]%string;
                    rows := rows df ++
                      map (fun c => score_row "auc" c
                             (score_or_nan (metric_of_column roc_auc_score pred_df true_df c)))
                          (filter (scored multiclass) cols) |}),
       add_stdout
         (if verbose
          then map (MsgCantCalculate "auc")
                 (filter (undefined_score roc_auc_score pred_df true_df)
                    (filter (scored multiclass) cols))
          else []) w).
Proof.
  intros Hp cols. induction cols as [|c cols IH]; intros df w Hincl Hdf.
  - cbn [forM filter map]. rewrite app_nil_r.
    replace (if verbose then [] else []) with (@nil msg) by now destruct verbose.
    rewrite add_stdout_nil. destruct df as [cs rs]. cbn in Hdf. now subst cs.
  - assert (In c (columns true_df)) as Hc by (apply Hincl; now left).
    assert (incl cols (columns true_df)) as Hincl'
      by (intros x Hx; apply Hincl; now right).
    cbn [forM filter].
    destruct (scored multiclass c) eqn:Sc.
    + pose proof Sc as Sc'. rewrite scored_tests in Sc'.
      apply andb_prop in Sc'. destruct Sc' as [S1 S2].
      apply negb_true_iff in S1, S2.
      destruct (scored_column_has_scores multiclass pred_df true_df c Hp Hc S1 S2)
        as (actual & pred & Ea & Ep).
      unfold bind.
      rewrite (score_column_auc multiclass verbose pred_df true_df c actual pred
                 (Some df) w S1 S2 Ea Ep).
      assert (metric_of_column roc_auc_score pred_df true_df c
              = call_metric roc_auc_score actual pred) as Em
        by (unfold metric_of_column; now rewrite Ea, Ep).
      cbn [filter map]. unfold undefined_score at 1. rewrite Em.
      destruct (call_metric roc_auc_score actual pred) as [v | e];
        cbn [append_score ret score_or_nan]; rewrite df_append_score_row by exact Hdf;
        rewrite IH by (try exact Hincl'; reflexivity); cbn [rows columns];
        rewrite <- app_assoc; cbn [app].
      * reflexivity.
      * destruct verbose; cbn [map]; [| reflexivity].
        rewrite print_add_stdout. cbn [snd]. now rewrite add_stdout_app.
    + unfold bind. rewrite score_column_skipped by exact Sc.
      now apply IH.
Qed.

Lemma add_calls_nil (w : World) : add_calls [] w = w.
Proof. destruct w. unfold add_calls. cbn. now rewrite app_nil_r. Qed.

(** The routine with [metric = 'auc'] on a well-formed dataset: what it
    returns and the world it leaves, with and without [results/]. *)
Lemma make_pred_auc_run (data_transforms : Transforms) (model : Model)
    (PATH_TO_IMAGES PATH_TO_CSV : string) (multiclass verbose : bool)
    (dataset : option Dataset) (w : World) :
  let d := evaluated_dataset data_transforms PATH_TO_IMAGES PATH_TO_CSV dataset in
  dataset_ok multiclass d model = true ->
  exists pred_df true_df,
    collect_rows BATCH_SIZE multiclass d model = Ret (pred_df, true_df) /\
    rows_aligned d (len d) (pred_df, true_df) /\
    let labels := filter (scored multiclass) (columns true_df) in
    let auc_df :=
      table_of "auc" labels
        (fun c => score_or_nan (metric_of_column roc_auc_score pred_df true_df c)) in
    let w1 :=
      world_after_scoring (len d)
        (evaluated_dataset_calls data_transforms PATH_TO_IMAGES PATH_TO_CSV dataset)
        (undefined_messages "auc" verbose roc_auc_score pred_df true_df labels) w in
    make_pred_multilabel data_transforms model PATH_TO_IMAGES PATH_TO_CSV "auc"
      multiclass dataset verbose w
    = match results w with
      | Some r =>
          (Ret (model_train model false, Some (pred_df, auc_df)),
           set_results (Some (results_after_evaluation "auc" pred_df auc_df r)) w1)
      | None => (Raise FileNotFoundError, w1)
      end.
Proof.
  intros d Hok.
  destruct (collect_rows_ok BATCH_SIZE multiclass d (model_train model false))
    as ([pred_df true_df] & E & Hal).
  { unfold BATCH_SIZE. lia. }
  { exact Hok. }
  exists pred_df, true_df. split; [exact E |]. split; [exact Hal |].
  destruct Hal as (_ & _ & _ & Hcols). cbn [fst snd] in Hcols.
  intros labels auc_df w1.
  unfold make_pred_multilabel.
  change (str_in "auc" ["auc"; "f1"]%string) with true. cbn [negb when].
  unfold bind at 1. cbn [ret].
  assert (forall k : Dataset -> M (Model * option (DataFrame * DataFrame)),
             bind (match dataset with
                   | None =>
                       new_CXPDataset
                         {| path_to_images := PATH_TO_IMAGES; path_to_csv := PATH_TO_CSV;
                            fold := "val"; uncertain := None;
                            transform_arg := tr_val data_transforms;
                            orientation_arg := None; sample := None; mask := None;
                            verbose_arg := None |}
                   | Some d0 => ret d0
                   end) k w
             = k d (add_calls
                      (evaluated_dataset_calls data_transforms PATH_TO_IMAGES
                         PATH_TO_CSV dataset) w)) as Hd.
  { intro k. subst d. destruct dataset as [d0 |];
      cbn [evaluated_dataset evaluated_dataset_calls].
    - now rewrite add_calls_nil.
    - reflexivity. }
  rewrite Hd. clear Hd.
  unfold bind at 1. rewrite print_add_stdout.
  unfold bind at 1. rewrite print_add_stdout.
  unfold bind at 1, lift. fold d. rewrite E.
  change (String.eqb "auc" "auc") with true. cbv iota.
  unfold bind at 1.
  rewrite (score_columns_auc_run multiclass verbose pred_df true_df Hcols
             (columns true_df) (new_frame ["label"; "auc"]%string) _ (incl_refl _)
             eq_refl).
  rewrite !add_stdout_app. cbn [rows new_frame app].
  fold labels.
  change (if verbose
          then map (MsgCantCalculate "auc")
                 (filter (undefined_score roc_auc_score pred_df true_df) labels)
          else [])
    with (undefined_messages "auc" verbose roc_auc_score pred_df true_df labels).
  change (add_stdout _ _) with w1.
  unfold bind at 1, write_preds, in_results.
  change (results w1) with (results w).
  destruct (results w) as [r |]; [| reflexivity].
  unfold bind at 1, write_aucs, in_results. cbn [results set_results ret].
  reflexivity.
Qed.

(** X1: with [metric = 'auc'], on a well-formed dataset and with [results/]
    present, [make_pred_multilabel] returns, and its table has one row for
    every column of [true_df] that passes the filter on the labels, in the
    order of the columns: the row holds the label and the value of
    [roc_auc_score], or NaN when the call raised. *)
Theorem auc_table_holds_score_or_nan (data_transforms : Transforms) (model : Model)
    (PATH_TO_IMAGES PATH_TO_CSV : string) (multiclass verbose : bool)
    (dataset : option Dataset) (w : World) :
  results w <> None ->
  dataset_ok multiclass
    (evaluated_dataset data_transforms PATH_TO_IMAGES PATH_TO_CSV dataset) model
  = true ->
  exists pred_df true_df auc_df w',
    collect_rows BATCH_SIZE multiclass
      (evaluated_dataset data_transforms PATH_TO_IMAGES PATH_TO_CSV dataset) model
    = Ret (pred_df, true_df) /\
    make_pred_multilabel data_transforms model PATH_TO_IMAGES PATH_TO_CSV "auc"
      multiclass dataset verbose w
    = (Ret (model_train model false, Some (pred_df, auc_df)), w') /\
    columns auc_df = ["label"; "auc"]%string /\
    rows auc_df
    = map (fun c =>
             [("label"%string, CStr c);
              ("auc"%string,
               CFloat match metric_of_column roc_auc_score pred_df true_df c with
                      | Ret v => v
                      | Raise _ => PrimFloat.nan
                      end)])
          (filter (scored multiclass) (columns true_df)).
Proof.
  intros Hr Hok.
  destruct (make_pred_auc_run data_transforms model PATH_TO_IMAGES PATH_TO_CSV
              multiclass verbose dataset w Hok)
    as (pred_df & true_df & E & _ & Hrun).
  cbv zeta in Hrun.
  destruct (results w) as [r |]; [| now elim Hr].
  exists pred_df, true_df. eexists. eexists.
  split; [exact E |]. split; [exact Hrun |]. split; reflexivity.
Qed.

(** X2: on the ['auc'] path a score that is not defined is reported only
    when [verbose] is set: the routine prints the size of the dataset and the
    mode of the model and then, with [verbose], one line for every scored
    label whose AUC raised, in the order of the columns; without it, nothing
    more. *)
Theorem verbose_reports_undefined_aucs (data_transforms : Transforms) (model : Model)
    (PATH_TO_IMAGES PATH_TO_CSV : string) (multiclass verbose : bool)
    (dataset : option Dataset) (w : World) :
  dataset_ok multiclass
    (evaluated_dataset data_transforms PATH_TO_IMAGES PATH_TO_CSV dataset) model
  = true ->
  exists pred_df true_df,
    collect_rows BATCH_SIZE multiclass
      (evaluated_dataset data_transforms PATH_TO_IMAGES PATH_TO_CSV dataset) model
    = Ret (pred_df, true_df) /\
    stdout (snd (make_pred_multilabel data_transforms model PATH_TO_IMAGES PATH_TO_CSV
                   "auc" multiclass dataset verbose w))
    = stdout w ++
      [MsgEvaluating
         (len (evaluated_dataset data_transforms PATH_TO_IMAGES PATH_TO_CSV dataset));
       MsgModelTrain false] ++
      (if verbose
       then map (MsgCantCalculate "auc")
              (filter (undefined_score roc_auc_score pred_df true_df)
                 (filter (scored multiclass) (columns true_df)))
       else []).
Proof.
  intro Hok.
  destruct (make_pred_auc_run data_transforms model PATH_TO_IMAGES PATH_TO_CSV
              multiclass verbose dataset w Hok)
    as (pred_df & true_df & E & _ & Hrun).
  cbv zeta in Hrun.
  exists pred_df, true_df. split; [exact E |].
  rewrite Hrun. destruct (results w) as [r |]; reflexivity.
Qed.

(** X3: without the directory [results/] the routine fails only at the end:
    the dataset is built if none was given, the prediction pass and the
    scoring run, and then writing [results/preds.csv] raises; no directory
    and no file is created. *)
Theorem evaluation_needs_results_directory (data_transforms : Transforms)
    (model : Model) (PATH_TO_IMAGES PATH_TO_CSV : string) (multiclass verbose : bool)
    (dataset : option Dataset) (w : World) :
  results w = None ->
  dataset_ok multiclass
    (evaluated_dataset data_transforms PATH_TO_IMAGES PATH_TO_CSV dataset) model
  = true ->
  exists w' messages,
    make_pred_multilabel data_transforms model PATH_TO_IMAGES PATH_TO_CSV "auc"
      multiclass dataset verbose w
    = (Raise FileNotFoundError, w') /\
    results w' = None /\
    stdout w'
    = stdout w ++
      [MsgEvaluating
         (len (evaluated_dataset data_transforms PATH_TO_IMAGES PATH_TO_CSV dataset));
       MsgModelTrain false] ++ messages /\
    calls w'
    = calls w ++
      evaluated_dataset_calls data_transforms PATH_TO_IMAGES PATH_TO_CSV dataset.
Proof.
  intros Hr Hok.
  destruct (make_pred_auc_run data_transforms model PATH_TO_IMAGES PATH_TO_CSV
              multiclass verbose dataset w Hok)
    as (pred_df & true_df & E & _ & Hrun).
  cbv zeta in Hrun. rewrite Hr in Hrun.
  eexists. eexists. split; [exact Hrun |].
  split; [exact Hr |]. split; reflexivity.
Qed.

(** *** The path of the F1 score *)

Lemma score_column_f1 (multiclass verbose : bool) (pred_df true_df : DataFrame)
    (c : string) (actual pred : list cell) (score_df : option DataFrame) (w : World) :
  scored multiclass c = true ->
  df_column true_df c = Ret actual ->
  df_column pred_df ("prob_" ++ c) = Ret pred ->
  score_column "f1" multiclass verbose pred_df true_df c score_df w
  = match call_metric f1_score actual pred with
    | Ret v => append_score "f1_df" score_df (score_row "f1" c v) w
    | Raise e => (Raise e, w)
    end.
Proof.
  intros Sc Ea Ep. rewrite scored_tests in Sc.
  apply andb_prop in Sc. destruct Sc as [S1 S2]. apply negb_true_iff in S1, S2.
  unfold score_column. rewrite S1, S2, Ea, Ep.
  unfold bind at 1, lift. unfold bind at 1.
  change (String.eqb "f1" "auc") with false. change (String.eqb "f1" "f1") with true.
  cbv iota. unfold bind at 1.
  destruct (call_metric f1_score actual pred) as [v | e]; [| reflexivity].
  unfold bind at 1. cbn [ret]. reflexivity.
Qed.

(** The loop over the columns with [metric = 'f1']: the first score that is
    not defined ends it with its exception. *)
Lemma score_columns_f1_run (multiclass verbose : bool) (pred_df true_df : DataFrame) :
  columns_paired pred_df true_df ->
  forall (cols : list string) (df : DataFrame) (w : World),
    incl cols (columns true_df) ->
    columns df = ["label"; "f1"]%string ->
    forM cols (score_column "f1" multiclass verbose pred_df true_df) (Some df) w
    = match mapM (metric_of_column f1_score pred_df true_df)
              (filter (scored multiclass) cols) with
      | Ret vs =>
          (Ret (Some {| columns := ["label"; "f1"]%string;
                        rows := rows df ++
                          map (fun cv => score_row "f1" (fst cv) (snd cv))
                              (combine (filter (scored multiclass) cols) vs) |}), w)
      | Raise e => (Raise e, w)
      end.
Proof.
  intros Hp cols. induction cols as [|c cols IH]; intros df w Hincl Hdf.
  - cbn [forM filter mapM combine map]. rewrite app_nil_r.
    destruct df as [cs rs]. cbn in Hdf. now subst cs.
  - assert (In c (columns true_df)) as Hc by (apply Hincl; now left).
    assert (incl cols (columns true_df)) as Hincl'
      by (intros x Hx; apply Hincl; now right).
    cbn [forM filter].
    destruct (scored multiclass c) eqn:Sc.
    + pose proof Sc as Sc'. rewrite scored_tests in Sc'.
      apply andb_prop in Sc'. destruct Sc' as [S1 S2].
      apply negb_true_iff in S1, S2.
      destruct (scored_column_has_scores multiclass pred_df true_df c Hp Hc S1 S2)
        as (actual & pred & Ea & Ep).
      assert (metric_of_column f1_score pred_df true_df c
              = call_metric f1_score actual pred) as Em
        by (unfold metric_of_column; now rewrite Ea, Ep).
      unfold bind.
      rewrite (score_column_f1 multiclass verbose pred_df true_df c actual pred
                 (Some df) w Sc Ea Ep).
      cbn [mapM]. rewrite Em.
      destruct (call_metric f1_score actual pred) as [v | e]; cbn [obind];
        [| reflexivity].
      cbn [append_score ret]. rewrite df_append_score_row by exact Hdf.
      rewrite IH by (try exact Hincl'; reflexivity). cbn [rows columns].
      destruct (mapM (metric_of_column f1_score pred_df true_df)
                  (filter (scored multiclass) cols)) as [vs | e];
        cbn [obind]; [| reflexivity].
      cbn [combine map fst snd]. now rewrite <- app_assoc.
    + unfold bind. rewrite score_column_skipped by exact Sc.
      now apply IH.
Qed.

Lemma evaluated_dataset_bind (data_transforms : Transforms)
    (PATH_TO_IMAGES PATH_TO_CSV : string) (dataset : option Dataset)
    (k : Dataset -> M (Model * option (DataFrame * DataFrame))) (w : World) :
  bind (match dataset with
        | None =>
            new_CXPDataset
              {| path_to_images := PATH_TO_IMAGES; path_to_csv := PATH_TO_CSV;
                 fold := "val"; uncertain := None;
                 transform_arg := tr_val data_transforms;
                 orientation_arg := None; sample := None; mask := None;
                 verbose_arg := None |}
        | Some d0 => ret d0
        end) k w
  = k (evaluated_dataset data_transforms PATH_TO_IMAGES PATH_TO_CSV dataset)
      (add_calls
         (evaluated_dataset_calls data_transforms PATH_TO_IMAGES PATH_TO_CSV dataset) w).
Proof.
  destruct dataset as [d0 |]; cbn [evaluated_dataset evaluated_dataset_calls].
  - now rewrite add_calls_nil.
  - reflexivity.
Qed.

(** The routine with [metric = 'f1'] on a well-formed dataset. *)
Lemma make_pred_f1_run (data_transforms : Transforms) (model : Model)
    (PATH_TO_IMAGES PATH_TO_CSV : string) (multiclass verbose : bool)
    (dataset : option Dataset) (w : World) :
  let d := evaluated_dataset data_transforms PATH_TO_IMAGES PATH_TO_CSV dataset in
  dataset_ok multiclass d model = true ->
  exists pred_df true_df,
    collect_rows BATCH_SIZE multiclass d model = Ret (pred_df, true_df) /\
    let labels := filter (scored multiclass) (columns true_df) in
    let w1 :=
      world_after_scoring (len d)
        (evaluated_dataset_calls data_transforms PATH_TO_IMAGES PATH_TO_CSV dataset)
        [] w in
    make_pred_multilabel data_transforms model PATH_TO_IMAGES PATH_TO_CSV "f1"
      multiclass dataset verbose w
    = match mapM (metric_of_column f1_score pred_df true_df) labels with
      | Raise e => (Raise e, w1)
      | Ret vs =>
          let f1_df :=
            {| columns := ["label"; "f1"]%string;
               rows := map (fun cv => score_row "f1" (fst cv) (snd cv))
                           (combine labels vs) |} in
          match results w with
          | Some r =>
              (Ret (model_train model false, Some (pred_df, f1_df)),
               set_results (Some (results_after_evaluation "f1" pred_df f1_df r)) w1)
          | None => (Raise FileNotFoundError, w1)
          end
      end.
Proof.
  intros d Hok.
  destruct (collect_rows_ok BATCH_SIZE multiclass d (model_train model false))
    as ([pred_df true_df] & E & Hal).
  { unfold BATCH_SIZE. lia. }
  { exact Hok. }
  exists pred_df, true_df. split; [exact E |].
  destruct Hal as (_ & _ & _ & Hcols). cbn [fst snd] in Hcols.
  intros labels w1.
  unfold make_pred_multilabel.
  change (str_in "f1" ["auc"; "f1"]%string) with true. cbn [negb when].
  unfold bind at 1. cbn [ret].
  rewrite evaluated_dataset_bind.
  unfold bind at 1. rewrite print_add_stdout.
  unfold bind at 1. rewrite print_add_stdout.
  unfold bind at 1, lift. fold d. rewrite E.
  change (String.eqb "f1" "auc") with false. change (String.eqb "f1" "f1") with true.
  cbv iota.
  unfold bind at 1.
  rewrite (score_columns_f1_run multiclass verbose pred_df true_df Hcols
             (columns true_df) (new_frame ["label"; "f1"]%string) _ (incl_refl _)
             eq_refl).
  rewrite !add_stdout_app. cbn [rows new_frame app].
  fold labels. change (add_stdout _ _) with w1.
  destruct (mapM (metric_of_column f1_score pred_df true_df) labels) as [vs | e];
    [| reflexivity].
  unfold bind at 1, write_preds, in_results.
  change (results w1) with (results w).
  destruct (results w) as [r |]; [| reflexivity].
  unfold bind at 1, write_f1, in_results. cbn [results set_results ret].
  reflexivity.
Qed.

(** X4: with [metric = 'f1'] the first call of [f1_score] for a column is not
    guarded.  On a well-formed dataset and with [results/] present: when the
    call raises for a scored column, the first such exception, in the order
    of the columns, leaves the routine and no file is written; when it raises
    for none, the table holds the label and the score of every scored column
    and is written to [results/f1.csv], next to [results/preds.csv], while
    [results/aucs.csv] stays as it was. *)
Theorem f1_table_or_first_failure (data_transforms : Transforms) (model : Model)
    (PATH_TO_IMAGES PATH_TO_CSV : string) (multiclass verbose : bool)
    (dataset : option Dataset) (w : World) (r : Results) :
  results w = Some r ->
  dataset_ok multiclass
    (evaluated_dataset data_transforms PATH_TO_IMAGES PATH_TO_CSV dataset) model
  = true ->
  exists pred_df true_df,
    collect_rows BATCH_SIZE multiclass
      (evaluated_dataset data_transforms PATH_TO_IMAGES PATH_TO_CSV dataset) model
    = Ret (pred_df, true_df) /\
    let labels := filter (scored multiclass) (columns true_df) in
    (forall e, mapM (metric_of_column f1_score pred_df true_df) labels = Raise e ->
       exists w',
         make_pred_multilabel data_transforms model PATH_TO_IMAGES PATH_TO_CSV "f1"
           multiclass dataset verbose w = (Raise e, w') /\
         results w' = results w) /\
    (forall vs, mapM (metric_of_column f1_score pred_df true_df) labels = Ret vs ->
       exists f1_df w' r',
         make_pred_multilabel data_transforms model PATH_TO_IMAGES PATH_TO_CSV "f1"
           multiclass dataset verbose w
         = (Ret (model_train model false, Some (pred_df, f1_df)), w') /\
         columns f1_df = ["label"; "f1"]%string /\
         rows f1_df
         = map (fun cv => [("label"%string, CStr (fst cv)); ("f1"%string, CFloat (snd cv))])
               (combine labels vs) /\
         results w' = Some r' /\
         preds_csv r' = Some pred_df /\ f1_csv r' = Some f1_df /\
         aucs_csv r' = aucs_csv r).
Proof.
  intros Hr Hok.
  destruct (make_pred_f1_run data_transforms model PATH_TO_IMAGES PATH_TO_CSV
              multiclass verbose dataset w Hok)
    as (pred_df & true_df & E & Hrun).
  cbv zeta in Hrun. rewrite Hr in Hrun.
  exists pred_df, true_df. split; [exact E |]. cbv zeta. split.
  - intros e He. rewrite He in Hrun. eexists. split; [exact Hrun |]. reflexivity.
  - intros vs Hvs. rewrite Hvs in Hrun. eexists. eexists. eexists.
    split; [exact Hrun |].
    split; [reflexivity |]. split; [reflexivity |]. split; [reflexivity |].
    split; [reflexivity |]. split; reflexivity.
Qed.

(** *** A dataset without samples *)

Lemma collect_rows_empty (batch_size : nat) (multiclass : bool) (dataset : Dataset)
    (model : Model) :
  len dataset = 0 ->
  collect_rows batch_size multiclass dataset model
  = Ret (new_frame ["Image Index"%string], new_frame ["Image Index"%string]).
Proof.
  intro H. unfold collect_rows, DataLoader, num_batches. rewrite H.
  replace ((0 + batch_size - 1) / batch_size) with 0; [reflexivity |].
  destruct batch_size as [|b]; [reflexivity |].
  symmetry. apply Nat.div_small. lia.
Qed.

(** X5: on a dataset without samples the routine returns tables without
    rows: the predictions have the identifier column only, the metric table
    its two header columns, and both are written to [results/]. *)
Theorem empty_dataset_gives_empty_tables (data_transforms : Transforms)
    (model : Model) (PATH_TO_IMAGES PATH_TO_CSV metric : string)
    (multiclass verbose : bool) (dataset : option Dataset) (w : World) (r : Results) :
  str_in metric ["auc"; "f1"]%string = true ->
  results w = Some r ->
  len (evaluated_dataset data_transforms PATH_TO_IMAGES PATH_TO_CSV dataset) = 0 ->
  make_pred_multilabel data_transforms model PATH_TO_IMAGES PATH_TO_CSV metric
    multiclass dataset verbose w
  = (Ret (model_train model false,
          Some (new_frame ["Image Index"%string], new_frame ["label"%string; metric])),
     set_results
       (Some (results_after_evaluation metric (new_frame ["Image Index"%string])
                (new_frame ["label"%string; metric]) r))
       (world_after_scoring 0
          (evaluated_dataset_calls data_transforms PATH_TO_IMAGES PATH_TO_CSV dataset)
          [] w)).
Proof.
  intros Hm Hr Hlen.
  assert (metric = "auc"%string \/ metric = "f1"%string) as Hcases.
  { unfold str_in in Hm. cbn [existsb] in Hm.
    destruct (String.eqb metric "auc") eqn:E1; [left; now apply String.eqb_eq |].
    destruct (String.eqb metric "f1") eqn:E2; [right; now apply String.eqb_eq |].
    discriminate. }
  unfold make_pred_multilabel. rewrite Hm. cbn [negb when].
  unfold bind at 1. cbn [ret].
  rewrite evaluated_dataset_bind.
  unfold bind at 1. rewrite print_add_stdout.
  unfold bind at 1. rewrite print_add_stdout.
  unfold bind at 1, lift. rewrite collect_rows_empty by exact Hlen.
  rewrite Hlen. rewrite !add_stdout_app. cbn [app].
  change (add_stdout _ _)
    with (world_after_scoring 0
            (evaluated_dataset_calls data_transforms PATH_TO_IMAGES PATH_TO_CSV dataset)
            [] w).
  set (w1 := world_after_scoring _ _ _ _).
  cbn [new_frame columns forM].
  unfold bind at 1. unfold bind at 1.
  rewrite score_column_skipped by (now destruct multiclass).
  cbn [ret].
  unfold bind at 1, write_preds, in_results.
  change (results w1) with (results w). rewrite Hr.
  destruct Hcases as [-> | ->].
  - change (String.eqb "auc" "auc") with true. cbv iota.
    unfold bind at 1, write_aucs, in_results. cbn [results set_results ret].
    reflexivity.
  - change (String.eqb "f1" "auc") with false. change (String.eqb "f1" "f1") with true.
    cbv iota.
    unfold bind at 1, write_f1, in_results. cbn [results set_results ret].
    reflexivity.
Qed.

(** *** Indices out of range *)

Lemma for_each_raises_only {A St : Type} (P : exn -> Prop) (body : A -> St -> outcome St) :
  (forall x s e, body x s = Raise e -> P e) ->
  forall (xs : list A) (s : St) (e : exn), for_each xs body s = Raise e -> P e.
Proof.
  intros Hb xs. induction xs as [|x xs IH]; intros s e H; cbn [for_each] in H.
  - discriminate.
  - destruct (body x s) as [s1 | e1] eqn:E; cbn [obind] in H.
    + exact (IH _ _ H).
    + injection H as <-. exact (Hb _ _ _ E).
Qed.

Lemma for_each_must_raise {A St : Type} (body : A -> St -> outcome St) (x : A) :
  (forall s, exists e, body x s = Raise e) ->
  forall (xs : list A) (s : St), In x xs -> exists e, for_each xs body s = Raise e.
Proof.
  intros Hx xs. induction xs as [|y xs IH]; intros s Hin; [now elim Hin |].
  cbn [for_each]. destruct (body y s) as [s1 | e1] eqn:E; cbn [obind].
  - destruct Hin as [-> | Hin].
    + destruct (Hx s) as (e & He). congruence.
    + exact (IH s1 Hin).
  - now exists e1.
Qed.

Lemma index_at_raises {A : Type} (l : list A) (i : nat) (e : exn) :
  index_at l i = Raise e -> e = IndexError.
Proof. unfold index_at. destruct (nth_error l i); intro H; congruence. Qed.

Lemma probs_at_raises (model : Model) (image : Image) (k : nat) (e : exn) :
  probs_at model image k = Raise e -> e = IndexError.
Proof. unfold probs_at. destruct (k <? out_features model); intro H; congruence. Qed.

Lemma label_entry_raises (dataset : Dataset) (model : Model) (item : Image * Labels)
    (k : nat) (rws : dict * dict) (e : exn) :
  label_entry dataset model item k rws = Raise e -> e = IndexError.
Proof.
  unfold label_entry. destruct rws as [thisrow truerow].
  destruct (probs_at model (fst item) k) eqn:E1; cbn [obind];
    [| intro H; injection H as <-; exact (probs_at_raises _ _ _ _ E1)].
  destruct (index_at (PRED_LABEL dataset) k) eqn:E2; cbn [obind];
    [| intro H; injection H as <-; exact (index_at_raises _ _ _ E2)].
  destruct (index_at (as_row (snd item)) k) eqn:E3; cbn [obind];
    [| intro H; injection H as <-; exact (index_at_raises _ _ _ E3)].
  discriminate.
Qed.

Lemma orientation_entry_raises (model : Model) (item : Image * Labels)
    (k : nat) (rws : dict * dict) (e : exn) :
  orientation_entry model item k rws = Raise e -> e = IndexError.
Proof.
  unfold orientation_entry. destruct rws as [thisrow truerow].
  destruct (probs_at model (fst item) k) eqn:E1; cbn [obind];
    [| intro H; injection H as <-; exact (probs_at_raises _ _ _ _ E1)].
  destruct (index_at ORIENTATION k) eqn:E2; cbn [obind];
    [| intro H; injection H as <-; exact (index_at_raises _ _ _ E2)].
  destruct (index_at (label_binarize (snd item)) k) eqn:E3; cbn [obind];
    [| intro H; injection H as <-; exact (index_at_raises _ _ _ E3)].
  discriminate.
Qed.

(** The width of the network against the names of the columns: more scores
    than orientations, or fewer scores than labels. *)
Lemma sample_rows_out_of_range (batch_size : nat) (multiclass : bool)
    (dataset : Dataset) (model : Model) (i : nat) (jitem : nat * (Image * Labels))
    (dfs : DataFrame * DataFrame) :
  (if multiclass then List.length ORIENTATION < out_features model
   else out_features model < List.length (PRED_LABEL dataset)) ->
  sample_rows batch_size multiclass dataset model i jitem dfs = Raise IndexError.
Proof.
  intro Hw. unfold sample_rows. destruct jitem as [j item]. destruct dfs as [pred_df true_df].
  destruct (index_at (df_index dataset) (batch_size * i + j)) as [ident | e] eqn:E1;
    cbn [obind]; [| now rewrite (index_at_raises _ _ _ E1)].
  match goal with
  | |- obind ?c _ = _ => assert (c = Raise IndexError) as ->; [| reflexivity]
  end.
  destruct multiclass; cbn [negb].
  - destruct (for_each_must_raise (orientation_entry model item)
                (List.length ORIENTATION)) with
      (xs := seq 0 (out_features model))
      (s := (dict_set "Image Index" (CIdent ident) [],
             dict_set "Image Index" (CIdent ident) [])) as (e & He).
    + intros [thisrow truerow]. unfold orientation_entry, probs_at.
      apply Nat.ltb_lt in Hw. rewrite Hw. cbn. eauto.
    + apply in_seq. lia.
    + rewrite He. f_equal.
      exact (for_each_raises_only (fun e => e = IndexError) _
               (orientation_entry_raises model item) _ _ _ He).
  - destruct (for_each_must_raise (label_entry dataset model item)
                (out_features model)) with
      (xs := seq 0 (List.length (PRED_LABEL dataset)))
      (s := (dict_set "Image Index" (CIdent ident) [],
             dict_set "Image Index" (CIdent ident) [])) as (e & He).
    + intros [thisrow truerow]. unfold label_entry, probs_at.
      rewrite Nat.ltb_irrefl. cbn. eauto.
    + apply in_seq. lia.
    + rewrite He. f_equal.
      exact (for_each_raises_only (fun e => e = IndexError) _
               (label_entry_raises dataset model item) _ _ _ He).
Qed.

Lemma collect_rows_out_of_range (batch_size : nat) (multiclass : bool)
    (dataset : Dataset) (model : Model) :
  0 < batch_size -> 0 < len dataset ->
  (if multiclass then List.length ORIENTATION < out_features model
   else out_features model < List.length (PRED_LABEL dataset)) ->
  collect_rows batch_size multiclass dataset model = Raise IndexError.
Proof.
  intros Hb Hn Hw. unfold collect_rows, DataLoader, enumerate.
  rewrite length_map, length_seq.
  assert (exists m, num_batches (len dataset) batch_size = S m) as (m & ->).
  { destruct (num_batches (len dataset) batch_size) eqn:E; [| eauto].
    pose proof (num_batches_covers (len dataset) batch_size Hb) as Hc.
    rewrite E in Hc. lia. }
  cbn [seq map combine for_each]. unfold batch_rows at 1.
  rewrite Nat.mul_0_r, Nat.sub_0_r.
  assert (exists p, Nat.min batch_size (len dataset) = S p) as (p & ->).
  { destruct (Nat.min batch_size (len dataset)) eqn:E; [lia | eauto]. }
  unfold enumerate. cbn [seq map List.length combine for_each].
  rewrite sample_rows_out_of_range by exact Hw. reflexivity.
Qed.

(** X6: the scores of the network are indexed by the names of the columns.
    On a dataset that is not empty, a network with more outputs than
    [ORIENTATION] has names (with [multiclass]) or with fewer outputs than the
    dataset has labels (without) makes the routine raise [IndexError] on the
    first sample; nothing is written. *)
Theorem network_width_out_of_range (data_transforms : Transforms) (model : Model)
    (PATH_TO_IMAGES PATH_TO_CSV metric : string) (multiclass verbose : bool)
    (dataset : option Dataset) (w : World) :
  let d := evaluated_dataset data_transforms PATH_TO_IMAGES PATH_TO_CSV dataset in
  0 < len d ->
  (if multiclass then 3 < out_features model
   else out_features model < List.length (PRED_LABEL d)) ->
  exists w',
    make_pred_multilabel data_transforms model PATH_TO_IMAGES PATH_TO_CSV metric
      multiclass dataset verbose w = (Raise IndexError, w') /\
    results w' = results w.
Proof.
  intros d Hn Hw.
  assert (collect_rows BATCH_SIZE multiclass d (model_train model false)
          = Raise IndexError) as E.
  { apply collect_rows_out_of_range; [unfold BATCH_SIZE; lia | exact Hn |].
    destruct multiclass; exact Hw. }
  unfold make_pred_multilabel.
  unfold bind at 1.
  destruct (when (negb (str_in metric ["auc"; "f1"]%string))
              (print (MsgInvalidMetric metric)) w) as [[[] | e] w0] eqn:E0.
  2:{ destruct (negb (str_in metric ["auc"; "f1"]%string)); discriminate. }
  assert (results w0 = results w) as R0.
  { destruct (negb (str_in metric ["auc"; "f1"]%string)); cbn in E0;
      injection E0 as <-; reflexivity. }
  rewrite evaluated_dataset_bind.
  unfold bind at 1. rewrite print_add_stdout.
  unfold bind at 1. rewrite print_add_stdout.
  unfold bind at 1, lift. fold d. rewrite E.
  eexists. split; [reflexivity |]. exact R0.
Qed.

(** ** What a computation leaves alone, whatever its outcome *)

Lemma preserves_ret {A X : Type} (f : World -> X) (a : A) : preserves f (ret a).
Proof. intro w. reflexivity. Qed.

Lemma preserves_raise {A X : Type} (f : World -> X) (e : exn) :
  preserves f (@raise _ A e).
Proof. intro w. reflexivity. Qed.

Lemma preserves_lift {A X : Type} (f : World -> X) (o : outcome A) :
  preserves f (lift o).
Proof. intro w. reflexivity. Qed.

Lemma preserves_bind {A B X : Type} (f : World -> X) (c : M A) (k : A -> M B) :
  preserves f c -> (forall a, preserves f (k a)) -> preserves f (bind c k).
Proof.
  intros Hc Hk w. unfold bind. specialize (Hc w).
  destruct (c w) as [[a | e] w1]; cbn [snd] in *.
  - now rewrite Hk.
  - exact Hc.
Qed.

Lemma preserves_when {X : Type} (f : World -> X) (b : bool) (c : M unit) :
  preserves f c -> preserves f (when b c).
Proof. intro H. destruct b; [exact H | apply preserves_ret]. Qed.

Lemma preserves_forM {A St X : Type} (f : World -> X) (body : A -> St -> M St)
    (xs : list A) :
  (forall x s, preserves f (body x s)) -> forall s, preserves f (forM xs body s).
Proof.
  intro Hb. induction xs as [|x xs IH]; intro s; cbn [forM].
  - apply preserves_ret.
  - apply preserves_bind; [apply Hb | exact IH].
Qed.

Lemma preserves_only_prints {A X : Type} (f : World -> X) (c : M A) :
  (forall ms w, f (add_stdout ms w) = f w) -> only_prints c -> preserves f c.
Proof. intros Hf Hc w. destruct (Hc w) as (ms & ->). apply Hf. Qed.

Lemma preserves_in_results {X : Type} (f : World -> X) (g : Results -> Results) :
  (forall r w, results w = Some r -> f (set_results (Some (g r)) w) = f w) ->
  preserves f (in_results g).
Proof.
  intros Hf w. unfold in_results. destruct (results w) as [r |] eqn:E; cbn [snd].
  - now apply Hf.
  - reflexivity.
Qed.

(** Structural steps of a proof that a computation preserves an observation;
    [base] closes the goals on the primitive operations. *)
Ltac preserving base :=
  repeat first
    [ apply preserves_ret | apply preserves_raise | apply preserves_lift
    | apply preserves_bind; [| intro]
    | apply preserves_when
    | apply preserves_forM; intros
    | match goal with
      | |- preserves _ (if ?b then _ else _) => destruct b
      | |- preserves _ (match ?x with _ => _ end) => destruct x
      | |- preserves _ (let (_, _) := ?x in _) => destruct x
      end
    | base ].

Ltac preserves_prim :=
  first
    [ (intro; reflexivity)
    | (apply preserves_in_results; intros; reflexivity) ].

(** The datasets that a call of the routine builds. *)
Lemma make_pred_calls (data_transforms : Transforms)
    (model : Model) (PATH_TO_IMAGES PATH_TO_CSV metric : string)
    (multiclass verbose : bool) (dataset : option Dataset) (w : World) :
  calls (snd (make_pred_multilabel data_transforms model PATH_TO_IMAGES PATH_TO_CSV
                metric multiclass dataset verbose w))
  = calls w ++
    evaluated_dataset_calls data_transforms PATH_TO_IMAGES PATH_TO_CSV dataset.
Proof.
  unfold make_pred_multilabel.
  unfold bind at 1.
  destruct (when (negb (str_in metric ["auc"; "f1"]%string))
              (print (MsgInvalidMetric metric)) w) as [[[] | e] w0] eqn:E0.
  2:{ destruct (negb (str_in metric ["auc"; "f1"]%string)); discriminate. }
  assert (calls w0 = calls w) as C0.
  { destruct (negb (str_in metric ["auc"; "f1"]%string)); cbn in E0;
      injection E0 as <-; reflexivity. }
  rewrite evaluated_dataset_bind.
  match goal with
  | |- calls (snd (?c ?w1)) = _ =>
      assert (preserves calls c) as Hc; [| rewrite (Hc w1)]
  end.
  { unfold write_preds, write_aucs, write_f1.
    preserving preserves_prim.
    all: apply preserves_only_prints;
      [reflexivity | apply only_prints_score_column]. }
  unfold add_calls. cbn [calls]. now rewrite C0.
Qed.

(** X8: the routine reads a dataset from disk only when it is given none, and
    then it builds the fold ['val'] once, with the validation transform and
    no other argument; this is so whatever the outcome of the call. *)
Theorem evaluation_builds_validation_fold_once (data_transforms : Transforms)
    (model : Model) (PATH_TO_IMAGES PATH_TO_CSV metric : string)
    (multiclass verbose : bool) (dataset : option Dataset) (w : World) :
  calls (snd (make_pred_multilabel data_transforms model PATH_TO_IMAGES PATH_TO_CSV
                metric multiclass dataset verbose w))
  = calls w ++
    match dataset with
    | Some _ => []
    | None =>
        [BuildDataset
           {| path_to_images := PATH_TO_IMAGES; path_to_csv := PATH_TO_CSV;
              fold := "val"; uncertain := None;
              transform_arg := tr_val data_transforms;
              orientation_arg := None; sample := None; mask := None;
              verbose_arg := None |}]
    end.
Proof.
  rewrite make_pred_calls. unfold evaluated_dataset_calls.
  destruct dataset; reflexivity.
Qed.

(** What the world holds when the routine has returned its two tables. *)
Lemma make_pred_returns_tables (data_transforms : Transforms) (model m : Model)
    (PATH_TO_IMAGES PATH_TO_CSV metric : string) (multiclass verbose : bool)
    (dataset : option Dataset) (preds table : DataFrame) (w w' : World) :
  make_pred_multilabel data_transforms model PATH_TO_IMAGES PATH_TO_CSV metric
    multiclass dataset verbose w
  = (Ret (m, Some (preds, table)), w') ->
  (metric = "auc"%string \/ metric = "f1"%string) /\
  m = model_train model false /\
  rng w' = rng w /\ user_files w' = user_files w /\
  exists r,
    results w = Some r /\
    results w' = Some (results_after_evaluation metric preds table r).
Proof.
  intro H. unfold make_pred_multilabel in H.
  apply bind_inv in H. destruct H as ([] & w0 & E0 & H).
  assert (results w0 = results w /\ rng w0 = rng w /\ user_files w0 = user_files w)
    as (R0 & G0 & U0).
  { destruct (negb (str_in metric ["auc"; "f1"]%string)); cbn in E0;
      injection E0 as <-; repeat split. }
  rewrite evaluated_dataset_bind in H.
  apply bind_inv in H. destruct H as ([] & w1 & E1 & H).
  rewrite print_add_stdout in E1. injection E1 as <-.
  apply bind_inv in H. destruct H as ([] & w2 & E2 & H).
  rewrite print_add_stdout in E2. injection E2 as <-.
  apply bind_inv in H. destruct H as ([pred_df true_df] & w3 & E3 & H).
  injection E3 as E3 <-.
  apply bind_inv in H. destruct H as (score_df & w4 & E4 & H).
  match type of E4 with
  | forM ?cols (score_column _ _ _ _ _) ?s ?w3 = _ =>
      destruct (score_columns_only_print metric multiclass verbose pred_df true_df
                  cols s w3) as (ms & Hms)
  end.
  rewrite E4 in Hms. cbn [snd] in Hms. subst w4.
  apply bind_inv in H. destruct H as ([] & w5 & E5 & H).
  unfold write_preds, in_results in E5. cbn [results add_stdout add_calls] in E5.
  rewrite R0 in E5. destruct (results w) as [r |] eqn:Hr; [| discriminate].
  injection E5 as <-.
  destruct (String.eqb metric "auc") eqn:Ea.
  - apply String.eqb_eq in Ea. subst metric.
    destruct score_df as [auc_df |]; [| discriminate].
    apply bind_inv in H. destruct H as ([] & w6 & E6 & H).
    unfold write_aucs, in_results in E6. cbn [results set_results] in E6.
    injection E6 as <-. injection H as <- <- <- <-.
    split; [now left |]. split; [reflexivity |].
    split; [exact G0 |]. split; [exact U0 |].
    exists r. split; reflexivity.
  - destruct (String.eqb metric "f1") eqn:Ef; [| discriminate].
    apply String.eqb_eq in Ef. subst metric.
    destruct score_df as [f1_df |]; [| discriminate].
    apply bind_inv in H. destruct H as ([] & w6 & E6 & H).
    unfold write_f1, in_results in E6. cbn [results set_results] in E6.
    injection E6 as <-. injection H as <- <- <- <-.
    split; [now right |]. split; [reflexivity |].
    split; [exact G0 |]. split; [exact U0 |].
    exists r. split; reflexivity.
Qed.


(** ** The columns of the truth table *)

Lemma entry_loop_keys (names : list string) (labs : list Z) (score : nat -> float)
    (entry : nat -> dict * dict -> outcome (dict * dict)) :
  (forall k r t r' t', entry k (r, t) = Ret (r', t') ->
     exists name tv,
       nth_error names k = Some name /\ nth_error labs k = Some tv /\
       r' = dict_set ("prob_" ++ name) (CFloat (score k)) r /\
       t' = dict_set name (CInt tv) t) ->
  forall (n : nat) (rws rws' : dict * dict),
    for_each (seq 0 n) entry rws = Ret rws' ->
    forall c, In c (keys (snd rws')) <->
              In c (keys (snd rws)) \/ exists k, k < n /\ nth_error names k = Some c.
Proof.
  intros Hentry n rws rws' H.
  pose proof (for_each_ret_invariant
                (fun m s => forall c, In c (keys (snd s)) <->
                   In c (keys (snd rws)) \/ exists k, k < m /\ nth_error names k = Some c)
                entry (seq 0 n) 0 rws rws' H) as Hinv.
  rewrite length_seq in Hinv. cbn [Nat.add] in Hinv. apply Hinv.
  - intro c. split; [now left |]. intros [Hc | (k & Hk & _)]; [exact Hc | lia].
  - clear Hinv H. intros m x [r t] [r' t'] Hx HI Hb c.
    cbn [Nat.add] in *. apply nth_error_seq_inv in Hx. destruct Hx as [-> _].
    cbn [Nat.add] in Hb.
    destruct (Hentry _ _ _ _ _ Hb) as (nm & tv & Hnm & _ & _ & ->).
    cbn [snd] in *. rewrite In_keys_dict_set, HI. split.
    + intros [-> | [Hc | (k & Hk & Hc)]].
      * right. exists m. split; [lia | exact Hnm].
      * now left.
      * right. exists k. split; [lia | exact Hc].
    + intros [Hc | (k & Hk & Hc)]; [right; now left |].
      destruct (Nat.eq_dec k m) as [-> | Hne].
      * left. rewrite Hnm in Hc. now injection Hc.
      * right. right. exists k. split; [lia | exact Hc].
Qed.

Lemma sample_rows_columns (batch_size : nat) (multiclass : bool) (dataset : Dataset)
    (model : Model) (i : nat) (jitem : nat * (Image * Labels))
    (dfs dfs' : DataFrame * DataFrame) :
  sample_rows batch_size multiclass dataset model i jitem dfs = Ret dfs' ->
  forall c, In c (columns (snd dfs')) <->
            In c (columns (snd dfs)) \/ c = "Image Index"%string \/
            In c (column_names multiclass dataset model).
Proof.
  intros H c. destruct dfs as [pred_df true_df]. destruct jitem as [j item].
  unfold sample_rows in H.
  destruct (index_at (df_index dataset) (batch_size * i + j)) as [ident | e];
    cbn [obind] in H; [| discriminate].
  match type of H with
  | obind ?c _ = _ => destruct c as [[thisrow truerow] | e] eqn:Eloop
  end; cbn [obind] in H; [| discriminate].
  injection H as <-. cbn [snd]. rewrite In_columns_df_append.
  assert (In c (keys truerow) <->
          c = "Image Index"%string \/ In c (column_names multiclass dataset model))
    as ->; [| reflexivity].
  unfold column_names. destruct multiclass; cbn [negb] in Eloop.
  - rewrite (entry_loop_keys ORIENTATION (label_binarize (snd item))
               (predict (params model) (fst item)) (orientation_entry model item)
               (orientation_entry_inv model item) _ _ _ Eloop c).
    cbn [snd keys dict_set map fst In].
    split; (intros [Hc | Hc]; [left; intuition congruence | right]).
    + destruct Hc as (k & Hk & Hc). apply (nth_error_In _ k).
      rewrite nth_error_firstn. apply Nat.ltb_lt in Hk. now rewrite Hk.
    + apply In_nth_error in Hc. destruct Hc as (k & Hc).
      rewrite nth_error_firstn in Hc. exists k.
      destruct (k <? out_features model) eqn:Hk; [| discriminate].
      apply Nat.ltb_lt in Hk. now split.
  - rewrite (entry_loop_keys (PRED_LABEL dataset) (as_row (snd item))
               (predict (params model) (fst item)) (label_entry dataset model item)
               (label_entry_inv dataset model item) _ _ _ Eloop c).
    cbn [snd keys dict_set map fst In].
    split; (intros [Hc | Hc]; [left; intuition congruence | right]).
    + destruct Hc as (k & Hk & Hc). exact (nth_error_In _ k Hc).
    + apply In_nth_error in Hc. destruct Hc as (k & Hc). exists k.
      split; [| exact Hc]. apply nth_error_Some. now rewrite Hc.
Qed.

(** The columns of the truth table after the pass: the identifier and, when
    the dataset has a sample, the names of the columns that the pass fills. *)
Lemma collect_rows_columns (batch_size : nat) (multiclass : bool) (dataset : Dataset)
    (model : Model) (pred_df true_df : DataFrame) :
  collect_rows batch_size multiclass dataset model = Ret (pred_df, true_df) ->
  forall c, In c (columns true_df) <->
            c = "Image Index"%string \/
            (rows true_df <> [] /\ In c (column_names multiclass dataset model)).
Proof.
  intro H. unfold collect_rows in H.
  set (J := fun s : DataFrame * DataFrame =>
              forall c, In c (columns (snd s)) <->
                        c = "Image Index"%string \/
                        (rows (snd s) <> [] /\
                         In c (column_names multiclass dataset model))).
  assert (forall s s' i jitem,
             sample_rows batch_size multiclass dataset model i jitem s = Ret s' ->
             J s -> J s') as Hsample.
  { intros s s' i jitem E Hs c.
    rewrite (sample_rows_columns _ _ _ _ _ _ _ _ E c), (Hs c).
    assert (rows (snd s') <> []) as Hne.
    { destruct s as [p t]. destruct jitem as [j item]. unfold sample_rows in E.
      destruct (index_at (df_index dataset) (batch_size * i + j)); cbn [obind] in E;
        [| discriminate].
      match type of E with
      | obind ?c _ = _ => destruct c as [[thisrow truerow] | e]
      end; cbn [obind] in E; [| discriminate].
      injection E as <-. cbn [snd df_append rows]. now destruct (rows t). }
    intuition. }
  change (J (pred_df, true_df)).
  refine (for_each_ret_invariant (fun _ s => J s)
            (batch_rows batch_size multiclass dataset model) _ 0 _ _ H _ _).
  - intro c. cbn. intuition.
  - intros k [i data] s0 s1 _ Hs Hb. unfold batch_rows in Hb.
    refine (for_each_ret_invariant (fun _ s => J s)
              (sample_rows batch_size multiclass dataset model i) _ 0 _ _ Hb Hs _).
    intros k' jitem s2 s3 _ Hs2 Hb2. exact (Hsample _ _ _ _ Hb2 Hs2).
Qed.

(** X18: the labels that get a row in the metric table.  With
    [metric = 'auc'], on a well-formed dataset that is not empty and with
    [results/] present, a name is the label of a row of the table exactly when
    it is the name of a column that the prediction pass fills and it passes
    the filter of the loop: without [multiclass], when it is a label of the
    dataset and one of the fourteen findings. *)
Theorem scored_labels_are_known_findings (data_transforms : Transforms) (model : Model)
    (PATH_TO_IMAGES PATH_TO_CSV : string) (multiclass verbose : bool)
    (dataset : option Dataset) (w : World) :
  let d := evaluated_dataset data_transforms PATH_TO_IMAGES PATH_TO_CSV dataset in
  results w <> None ->
  dataset_ok multiclass d model = true ->
  0 < len d ->
  exists pred_df auc_df w',
    make_pred_multilabel data_transforms model PATH_TO_IMAGES PATH_TO_CSV "auc"
      multiclass dataset verbose w
    = (Ret (model_train model false, Some (pred_df, auc_df)), w') /\
    forall c : string,
      In (Some (CStr c)) (map (dict_get "label") (rows auc_df)) <->
      In c (if multiclass then firstn (out_features model) ORIENTATION
            else PRED_LABEL d) /\
      (if multiclass then str_in c ["AP"; "PA"; "0"]%string
       else str_in c FINDINGS) = true.
Proof.
  intros d Hr Hok Hn.
  destruct (make_pred_auc_run data_transforms model PATH_TO_IMAGES PATH_TO_CSV
              multiclass verbose dataset w Hok)
    as (pred_df & true_df & E & Hal & Hrun).
  cbv zeta in Hrun. fold d in E, Hal, Hrun.
  destruct (results w) as [r |]; [| now elim Hr].
  eexists. eexists. eexists. split; [exact Hrun |].
  intro c. unfold table_of. cbn [rows]. rewrite map_map.
  cbn [score_row dict_get]. change (String.eqb "label" "label") with true. cbv iota.
  pose proof (collect_rows_columns _ _ _ _ _ _ E c) as Hcols.
  destruct Hal as (_ & L2 & _). cbn [snd] in L2.
  assert (rows true_df <> []) as Hne by (destruct (rows true_df); [cbn in L2; lia | discriminate]).
  split.
  - intro Hin. apply in_map_iff in Hin. destruct Hin as (c' & Hc' & Hin).
    injection Hc' as ->. apply filter_In in Hin. destruct Hin as [Hin Hs].
    apply Hcols in Hin. destruct Hin as [-> | [_ Hin]].
    + now destruct multiclass.
    + split; [exact Hin | exact Hs].
  - intros [Hin Hs]. apply in_map_iff. exists c. split; [reflexivity |].
    apply filter_In. split; [| exact Hs].
    apply Hcols. right. now split.
Qed.

Section TrainFacts.

Variable criterion : Criterion.
Variable num_epochs : Z.
Variable dataloaders : Rng -> list Batch * Rng.
Variable dataset_sizes : nat.
Variable weight_decay : float.
Variable dataset : Dataset.
Variable data_transforms : Transforms.
Variables PATH_TO_IMAGES PATH_TO_CSV : string.
Variable val_on_dataset : bool.

#[local] Abbreviation train_pass' :=
  (train_pass criterion num_epochs dataloaders dataset_sizes).
#[local] Abbreviation evaluate' :=
  (evaluate criterion dataset data_transforms PATH_TO_IMAGES PATH_TO_CSV val_on_dataset).
#[local] Abbreviation epoch_body' :=
  (epoch_body criterion num_epochs dataloaders dataset_sizes weight_decay dataset
     data_transforms PATH_TO_IMAGES PATH_TO_CSV val_on_dataset).
#[local] Abbreviation epochs_loop' :=
  (epochs_loop criterion num_epochs dataloaders dataset_sizes weight_decay dataset
     data_transforms PATH_TO_IMAGES PATH_TO_CSV val_on_dataset).
#[local] Abbreviation train_model' :=
  (train_model criterion num_epochs dataloaders dataset_sizes weight_decay dataset
     data_transforms PATH_TO_IMAGES PATH_TO_CSV val_on_dataset).

(** The training pass touches neither the learning rate nor the best
    validation score and its epoch. *)
Lemma train_pass_keeps_best (epoch : Z) (st : TrainState) :
  returns (train_pass' epoch st)
    (fun r => st_LR (fst r) = st_LR st /\
              st_best_val_acc (fst r) = st_best_val_acc st /\
              st_best_epoch (fst r) = st_best_epoch st).
Proof.
  unfold train_pass. repeat (apply returns_bind; intro).
  apply returns_ret. cbn. auto.
Qed.

Lemma keeps_saved_train_pass (epoch : Z) (st : TrainState) :
  keeps_saved (train_pass' epoch st).
Proof.
  unfold train_pass. frame.
  intros w0 w1 x H. unfold next_batches in H.
  destruct (dataloaders (rng w0)) as [batches g]. injection H as _ <-.
  reflexivity.
Qed.

Lemma keeps_saved_evaluate (model : Model) : keeps_saved (evaluate' model).
Proof.
  unfold evaluate. apply keeps_saved_bind.
  - destruct (Criterion_eqb criterion BCELoss); [destruct val_on_dataset |];
      apply keeps_saved_make_pred.
  - intros [m [[p metric]|]]; cbn [snd fst]; frame.
Qed.

Lemma keeps_saved_validation_score (metric : DataFrame) :
  keeps_saved (validation_score metric).
Proof. unfold validation_score. frame. Qed.

(** The score of the epoch is numpy's mean of the entries of the table that
    are not NaN. *)
Lemma validation_score_mean (metric : DataFrame) :
  returns (validation_score metric)
    (fun v => exists auc, defined_values metric = Ret auc /\ v = np_mean auc).
Proof.
  unfold validation_score. intros w w' v H.
  apply bind_inv in H. destruct H as (auc & w1 & E1 & E2).
  unfold lift in E1. injection E1 as E1 _.
  exists auc. split; [exact E1 |].
  revert E2. generalize w1 w' v.
  change (returns (print (MsgMetric metric) ;;; log (MsgMetric metric) ;;;
                   say (MsgMeanValAcc (np_mean auc)) ;;; ret (np_mean auc))
            (fun v0 => v0 = np_mean auc)).
  repeat (apply returns_bind; intro). now apply returns_ret.
Qed.


(** The decay divides the learning rate by ten and builds a new optimiser
    exactly when the score of the epoch is below the best score so far; it
    changes nothing else. *)
Lemma decay_learning_rate_spec (st : TrainState) :
  returns (decay_learning_rate weight_decay st)
    (fun st' =>
       let decay := PrimFloat.ltb (st_last_val_acc st) (st_best_val_acc st) in
       st_LR st' = (if decay then PrimFloat.div (st_LR st) 10%float else st_LR st) /\
       st_optimizer st'
       = (if decay
          then Adam (st_model st) (PrimFloat.div (st_LR st) 10%float)
                    (0.9%float, 0.999%float) 1e-08%float weight_decay
          else st_optimizer st) /\
       st_model st' = st_model st /\
       st_best_loss st' = st_best_loss st /\
       st_best_val_acc st' = st_best_val_acc st /\
       st_best_epoch st' = st_best_epoch st /\
       st_last_train_loss st' = st_last_train_loss st /\
       st_last_val_acc st' = st_last_val_acc st).
Proof.
  unfold decay_learning_rate.
  destruct (PrimFloat.ltb (st_last_val_acc st) (st_best_val_acc st)).
  - repeat (apply returns_bind; intro). apply returns_ret. cbn.
    repeat split; reflexivity.
  - apply returns_ret. cbn. repeat split; reflexivity.
Qed.

Lemma keeps_saved_decay (st : TrainState) :
  keeps_saved (decay_learning_rate weight_decay st).
Proof. unfold decay_learning_rate. frame. Qed.

(** [checkpoint] adds one file, named after the epoch. *)
Lemma checkpoint_saved (model : Model) (last_train_loss best_val_acc : float)
    (metric : DataFrame) (epoch best_epoch : Z) (LR WD : float) (w w' : World) :
  checkpoint model last_train_loss best_val_acc metric epoch best_epoch LR WD w
  = (Ret tt, w') ->
  saved_of w'
  = saved_of w ++
    [(epoch, {| ck_model := model; ck_last_train_loss := last_train_loss;
                ck_best_val_acc := best_val_acc; ck_metric := metric;
                ck_epoch := epoch; ck_best_epoch := best_epoch;
                ck_rng_state := rng w; ck_LR := LR; ck_WD := WD |})].
Proof.
  unfold checkpoint, get_rng_state, torch_save, in_results, bind, saved_of.
  destruct (results w) as [r|]; [|discriminate].
  intro H. injection H as <-. reflexivity.
Qed.

(** The end of an epoch saves exactly one checkpoint. *)
Lemma save_and_log_saved (epoch : Z) (metric : DataFrame) (batch_size : option nat)
    (st : TrainState) (w w' : World) :
  save_and_log weight_decay epoch metric batch_size st w = (Ret tt, w') ->
  exists g, saved_of w' = saved_of w ++ [(epoch, checkpoint_of weight_decay epoch metric g st)].
Proof.
  unfold save_and_log. intro H.
  apply bind_inv in H. destruct H as ([] & w1 & E1 & H).
  apply bind_inv in H. destruct H as ([] & w2 & E2 & H).
  apply checkpoint_saved in E2.
  rewrite (keeps_saved_say _ _ _ _ E1) in E2.
  exists (rng w1). unfold checkpoint_of. rewrite <- E2.
  revert H. generalize w2 w' tt.
  match goal with
  | |- forall (w0 w3 : World) (u : unit), ?c w0 = _ -> _ =>
      change (keeps_saved c)
  end.
  frame.
Qed.

Lemma track_best_spec (epoch : Z) (st : TrainState) :
  let best := PrimFloat.ltb (st_best_val_acc st) (st_last_val_acc st) in
  st_best_val_acc (track_best epoch st)
  = (if best then st_last_val_acc st else st_best_val_acc st) /\
  st_best_epoch (track_best epoch st)
  = (if best then epoch else st_best_epoch st) /\
  st_LR (track_best epoch st) = st_LR st /\
  st_optimizer (track_best epoch st) = st_optimizer st /\
  st_model (track_best epoch st) = st_model st /\
  st_last_val_acc (track_best epoch st) = st_last_val_acc st /\
  st_last_train_loss (track_best epoch st) = st_last_train_loss st.
Proof.
  unfold track_best.
  destruct (PrimFloat.ltb (st_best_val_acc st) (st_last_val_acc st)); cbn;
    repeat split; reflexivity.
Qed.


Lemma evaluate_inv (model model' : Model) (metric : DataFrame) (w w' : World) :
  evaluate' model w = (Ret (model', metric), w') ->
  exists preds,
    make_pred_multilabel data_transforms model PATH_TO_IMAGES PATH_TO_CSV "auc"
      (validation_multiclass criterion)
      (validation_dataset criterion val_on_dataset dataset) false w
    = (Ret (model', Some (preds, metric)), w').
Proof.
  unfold evaluate, validation_multiclass, validation_dataset. intro H.
  apply bind_inv in H. destruct H as ([m [[preds metric0]|]] & w1 & E1 & E2);
    cbn [fst snd] in E2; [|discriminate].
  injection E2 as <- <- <-. exists preds.
  destruct (Criterion_eqb criterion BCELoss); [destruct val_on_dataset |];
    exact E1.
Qed.

(** The phases of an epoch that did not raise. *)
Lemma epoch_body_inv (epoch : Z) (st st' : TrainState) (stop : bool) (w w' : World) :
  epoch_body' epoch st w = (Ret (st', stop), w') ->
  exists st1 batch_size w1 model1 metric w2 v w3 st2 w4 w5,
    train_pass' epoch st w = (Ret (st1, batch_size), w1) /\
    evaluate' (st_model st1) w1 = (Ret (model1, metric), w2) /\
    validation_score metric w2 = (Ret v, w3) /\
    decay_learning_rate weight_decay
      {| st_model := model1; st_optimizer := st_optimizer st1; st_LR := st_LR st1;
         st_best_loss := st_best_loss st1; st_best_val_acc := st_best_val_acc st1;
         st_best_epoch := st_best_epoch st1;
         st_last_train_loss := st_last_train_loss st1; st_last_val_acc := v |} w3
    = (Ret st2, w4) /\
    st' = track_best epoch st2 /\
    save_and_log weight_decay epoch metric batch_size st' w4 = (Ret tt, w5) /\
    stop = (epoch - st_best_epoch st' >=? 3)%Z /\
    saved_of w' = saved_of w5.
Proof.
  unfold epoch_body. intro H.
  apply bind_inv in H. destruct H as ([st1 batch_size] & w1 & E1 & H).
  apply bind_inv in H. destruct H as ([model1 metric] & w2 & E2 & H).
  apply bind_inv in H. destruct H as (v & w3 & E3 & H).
  apply bind_inv in H. destruct H as (st2 & w4 & E4 & H).
  apply bind_inv in H. destruct H as ([] & w5 & E5 & H).
  assert (st' = track_best epoch st2 /\
          stop = (epoch - st_best_epoch (track_best epoch st2) >=? 3)%Z /\
          saved_of w' = saved_of w5) as (-> & -> & S).
  { destruct (epoch - st_best_epoch (track_best epoch st2) >=? 3)%Z eqn:Hstop.
    - apply bind_inv in H. destruct H as ([] & w6 & E6 & H).
      injection H as <- <- <-. repeat split.
      exact (keeps_saved_say _ _ _ _ E6).
    - injection H as <- <- <-. repeat split. }
  exists st1, batch_size, w1, model1, metric, w2, v, w3, st2, w4, w5.
  repeat split; assumption.
Qed.

(** What an epoch that did not raise leaves behind: the score of the epoch
    decides on the decay and on the best epoch by strict comparisons with the
    best score before the epoch, the loop stops when the best epoch is three
    epochs old, and one checkpoint is saved. *)
Lemma epoch_body_spec (epoch : Z) (st st' : TrainState) (stop : bool) (w w' : World) :
  epoch_body' epoch st w = (Ret (st', stop), w') ->
  let v := st_last_val_acc st' in
  let b := st_best_val_acc st in
  st_LR st' = (if PrimFloat.ltb v b then PrimFloat.div (st_LR st) 10%float
               else st_LR st) /\
  (PrimFloat.ltb v b = true ->
   st_optimizer st'
   = Adam (st_model st') (PrimFloat.div (st_LR st) 10%float)
          (0.9%float, 0.999%float) 1e-08%float weight_decay) /\
  st_best_val_acc st' = (if PrimFloat.ltb b v then v else b) /\
  st_best_epoch st' = (if PrimFloat.ltb b v then epoch else st_best_epoch st) /\
  stop = (epoch - st_best_epoch st' >=? 3)%Z /\
  exists metric g,
    saved_of w' = saved_of w ++ [(epoch, checkpoint_of weight_decay epoch metric g st')].
Proof.
  intro H. apply epoch_body_inv in H.
  destruct H as (st1 & batch_size & w1 & model1 & metric & w2 & v0 & w3 & st2 & w4
                 & w5 & E1 & E2 & E3 & E4 & -> & E5 & -> & E6).
  destruct (train_pass_keeps_best _ _ _ _ _ E1) as (T1 & T2 & T3).
  cbn [fst] in T1, T2, T3.
  destruct (decay_learning_rate_spec _ _ _ _ E4)
    as (D1 & D2 & D3 & D4 & D5 & D6 & D7 & D8).
  cbn [st_LR st_best_val_acc st_last_val_acc st_model st_best_epoch
       st_optimizer] in D1, D2, D3, D5, D6, D8.
  destruct (track_best_spec epoch st2) as (B1 & B2 & B3 & B4 & B5 & B6 & B7).
  cbv zeta in B1, B2 |- *.
  rewrite B1, B2, B3, B4, B5, B6, D1, D5, D6, D8, T1, T2, T3.
  repeat split.
  - intro Hd. rewrite D2, D3, T2, T1, Hd. reflexivity.
  - destruct (save_and_log_saved _ _ _ _ _ _ E5) as (g & S).
    exists metric, g. rewrite E6, S.
    rewrite (keeps_saved_decay _ _ _ _ E4), (keeps_saved_validation_score _ _ _ _ E3),
      (keeps_saved_evaluate _ _ _ _ E2), (keeps_saved_train_pass _ _ _ _ _ E1).
    reflexivity.
Qed.


(** C1: in every epoch that completes, the learning rate is divided by ten
    (and the optimiser rebuilt with it) exactly when the validation score of
    the epoch is strictly below the best score tracked before the epoch, and
    the best score and the best epoch are updated exactly when the score is
    strictly above that same value; the two never happen together, and a
    score equal to the best one does neither.  From a best score of 0.0, the
    scores 0.5, 0.5, 0.7, 0.6 give: a new best in epoch 1 without decay,
    neither in epoch 2, a new best in epoch 3, a decay and no new best in
    epoch 4. *)
Theorem decay_and_best_by_strict_comparison :
  (forall (epoch : Z) (st st' : TrainState) (stop : bool) (w w' : World),
      epoch_body' epoch st w = (Ret (st', stop), w') ->
      let v := st_last_val_acc st' in
      let b := st_best_val_acc st in
      st_LR st' = (if PrimFloat.ltb v b then PrimFloat.div (st_LR st) 10%float
                   else st_LR st) /\
      (PrimFloat.ltb v b = true ->
       st_optimizer st'
       = Adam (st_model st') (PrimFloat.div (st_LR st) 10%float)
              (0.9%float, 0.999%float) 1e-08%float weight_decay) /\
      st_best_val_acc st' = (if PrimFloat.ltb b v then v else b) /\
      st_best_epoch st' = (if PrimFloat.ltb b v then epoch else st_best_epoch st) /\
      PrimFloat.ltb v b && PrimFloat.ltb b v = false /\
      (PrimFloat.eqb v b = true ->
       st_LR st' = st_LR st /\ st_best_val_acc st' = b /\
       st_best_epoch st' = st_best_epoch st)) /\
  (forall (st0 st1 st2 st3 st4 : TrainState) (s1 s2 s3 s4 : bool)
          (w0 w1 w2 w3 w4 : World),
      st_best_val_acc st0 = 0%float ->
      epoch_body' 1 st0 w0 = (Ret (st1, s1), w1) -> st_last_val_acc st1 = 0.5%float ->
      epoch_body' 2 st1 w1 = (Ret (st2, s2), w2) -> st_last_val_acc st2 = 0.5%float ->
      epoch_body' 3 st2 w2 = (Ret (st3, s3), w3) -> st_last_val_acc st3 = 0.7%float ->
      epoch_body' 4 st3 w3 = (Ret (st4, s4), w4) -> st_last_val_acc st4 = 0.6%float ->
      (st_best_epoch st1 = 1%Z /\ st_best_val_acc st1 = 0.5%float /\
       st_LR st1 = st_LR st0) /\
      (st_best_epoch st2 = 1%Z /\ st_best_val_acc st2 = 0.5%float /\
       st_LR st2 = st_LR st0) /\
      (st_best_epoch st3 = 3%Z /\ st_best_val_acc st3 = 0.7%float /\
       st_LR st3 = st_LR st0) /\
      (st_best_epoch st4 = 3%Z /\ st_best_val_acc st4 = 0.7%float /\
       st_LR st4 = PrimFloat.div (st_LR st0) 10%float)).
Proof.
  split.
  - intros epoch st st' stop w w' H. cbv zeta.
    destruct (epoch_body_spec _ _ _ _ _ _ H) as (H1 & H2 & H3 & H4 & _).
    cbv zeta in H1, H2, H3, H4.
    repeat (split; [assumption |]). split.
    + destruct (PrimFloat.ltb (st_last_val_acc st') (st_best_val_acc st)) eqn:E;
        [| reflexivity].
      apply ltb_antisym in E. rewrite E. reflexivity.
    + intro E. apply eqb_not_ltb in E. destruct E as [E1 E2].
      rewrite E1 in H1. rewrite E2 in H3, H4. auto.
  - intros st0 st1 st2 st3 st4 s1 s2 s3 s4 w0 w1 w2 w3 w4 B0 E1 V1 E2 V2 E3 V3 E4 V4.
    destruct (epoch_body_spec _ _ _ _ _ _ E1) as (L1 & _ & B1 & P1 & _).
    cbv zeta in L1, B1, P1. rewrite V1, B0 in L1, B1, P1.
    change (PrimFloat.ltb 0.5 0) with false in L1.
    change (PrimFloat.ltb 0 0.5) with true in B1, P1.
    destruct (epoch_body_spec _ _ _ _ _ _ E2) as (L2 & _ & B2 & P2 & _).
    cbv zeta in L2, B2, P2. rewrite V2, B1 in L2, B2, P2.
    change (PrimFloat.ltb 0.5 0.5) with false in L2, B2, P2.
    destruct (epoch_body_spec _ _ _ _ _ _ E3) as (L3 & _ & B3 & P3 & _).
    cbv zeta in L3, B3, P3. rewrite V3, B2 in L3, B3, P3.
    change (PrimFloat.ltb 0.7 0.5) with false in L3.
    change (PrimFloat.ltb 0.5 0.7) with true in B3, P3.
    destruct (epoch_body_spec _ _ _ _ _ _ E4) as (L4 & _ & B4 & P4 & _).
    cbv zeta in L4, B4, P4. rewrite V4, B3 in L4, B4, P4.
    change (PrimFloat.ltb 0.6 0.7) with true in L4.
    change (PrimFloat.ltb 0.7 0.6) with false in B4, P4.
    rewrite L4, L3, L2, L1, P4, P3, P2, P1.
    repeat split; assumption || reflexivity.
Qed.


(** ** The loop over the epochs *)

Lemma py_range_cons (a b : Z) :
  (a < b)%Z -> py_range a b = a :: py_range (a + 1) b.
Proof.
  intro H. unfold py_range.
  replace (Z.to_nat (b - a)) with (S (Z.to_nat (b - (a + 1)))) by lia.
  cbn [seq map]. f_equal; [lia |].
  rewrite <- seq_shift, map_map. apply map_ext. intro i. lia.
Qed.

Lemma epochs_loop_stop (epoch : Z) (rest : list Z) (st st' : TrainState)
    (w w' : World) :
  epoch_body' epoch st w = (Ret (st', true), w') ->
  epochs_loop' (epoch :: rest) st w = (Ret st', w').
Proof. intro H. cbn [epochs_loop]. now rewrite (bind_ret _ _ _ _ _ H). Qed.

Lemma epochs_loop_continue (epoch : Z) (rest : list Z) (st st' : TrainState)
    (w w' : World) :
  epoch_body' epoch st w = (Ret (st', false), w') ->
  epochs_loop' (epoch :: rest) st w = epochs_loop' rest st' w'.
Proof. intro H. cbn [epochs_loop]. now rewrite (bind_ret _ _ _ _ _ H). Qed.

(** The checkpoints tell how far the loop went: it goes on after every epoch
    whose checkpoint is not stale, and it leaves epochs out only after a
    stale one. *)
Lemma epochs_loop_trace (es : list Z) :
  forall (st st' : TrainState) (w w' : World),
    epochs_loop' es st w = (Ret st', w') ->
    exists cks rest,
      es = map fst cks ++ rest /\
      saved_of w' = saved_of w ++ cks /\
      forallb (fun p => negb (stale p)) (removelast cks) = true /\
      (rest <> [] -> exists cks0 p, cks = cks0 ++ [p] /\ stale p = true).
Proof.
  induction es as [|e es IH]; intros st st' w w' H.
  - injection H as <- <-. exists [], [].
    split; [reflexivity |]. split; [now rewrite app_nil_r |].
    split; [reflexivity |].
    intro N. now elim N.
  - cbn [epochs_loop] in H. apply bind_inv in H.
    destruct H as ([st1 stop] & w1 & E & H).
    destruct (epoch_body_spec _ _ _ _ _ _ E) as (_ & _ & _ & _ & Hstop & metric & g & S).
    set (p := (e, checkpoint_of weight_decay e metric g st1)) in *.
    assert (stale p = stop) as Hp by (now rewrite Hstop).
    destruct stop.
    + injection H as <- <-. exists [p], es.
      split; [reflexivity |]. split; [exact S |]. split; [reflexivity |].
      intros _. exists [], p. now split.
    + destruct (IH _ _ _ _ H) as (cks & rest & E1 & E2 & E3 & E4).
      exists (p :: cks), rest. split; [| split; [| split]].
      * cbn. now rewrite E1.
      * rewrite E2, S, <- app_assoc. reflexivity.
      * destruct cks as [|q cks]; [reflexivity |].
        change (removelast (p :: q :: cks)) with (p :: removelast (q :: cks)).
        cbn [forallb]. now rewrite Hp, E3.
      * intro N. destruct (E4 N) as (cks0 & q & -> & Hq).
        exists (p :: cks0), q. now split.
Qed.


(** C2: an epoch that completes ends the loop exactly when
    [epoch - best_epoch >= 3] holds at its end; the checkpoints of a run of
    the loop over the epochs [1 .. num_epochs] show it: the epochs run are a
    prefix of [1 .. num_epochs], no epoch before the last one run is stale,
    and epochs are left out only after a stale one (otherwise the loop ends
    with [num_epochs]).  With the best epoch at 2 before epoch 3 and no
    improvement in the epochs 3, 4 and 5, the loop stops at the end of epoch 5,
    whatever [num_epochs >= 5] is; with an improvement in epoch 4 it goes on
    after epoch 5. *)
Theorem early_stopping_after_three_epochs :
  (forall (epoch : Z) (st st' : TrainState) (stop : bool) (w w' : World),
      epoch_body' epoch st w = (Ret (st', stop), w') ->
      (stop = true <-> (epoch - st_best_epoch st' >= 3)%Z) /\
      (forall rest, epochs_loop' (epoch :: rest) st w
                    = if stop then (Ret st', w') else epochs_loop' rest st' w')) /\
  (forall (st st' : TrainState) (w w' : World),
      epochs_loop' (py_range 1 (num_epochs + 1)) st w = (Ret st', w') ->
      exists cks rest,
        py_range 1 (num_epochs + 1) = map fst cks ++ rest /\
        saved_of w' = saved_of w ++ cks /\
        forallb (fun p => negb (stale p)) (removelast cks) = true /\
        (rest <> [] -> exists cks0 p, cks = cks0 ++ [p] /\ stale p = true)) /\
  (forall (st2 st3 st4 st5 : TrainState) (s3 s4 s5 : bool) (w2 w3 w4 w5 : World),
      st_best_epoch st2 = 2%Z ->
      epoch_body' 3 st2 w2 = (Ret (st3, s3), w3) ->
      epoch_body' 4 st3 w3 = (Ret (st4, s4), w4) ->
      epoch_body' 5 st4 w4 = (Ret (st5, s5), w5) ->
      PrimFloat.ltb (st_best_val_acc st2) (st_last_val_acc st3) = false ->
      (PrimFloat.ltb (st_best_val_acc st3) (st_last_val_acc st4) = false ->
       PrimFloat.ltb (st_best_val_acc st4) (st_last_val_acc st5) = false ->
       s3 = false /\ s4 = false /\ s5 = true /\ st_best_epoch st5 = 2%Z /\
       ((5 <= num_epochs)%Z ->
        epochs_loop' (py_range 3 (num_epochs + 1)) st2 w2 = (Ret st5, w5))) /\
      (PrimFloat.ltb (st_best_val_acc st3) (st_last_val_acc st4) = true ->
       s3 = false /\ s4 = false /\ s5 = false /\
       ((5 <= num_epochs)%Z ->
        epochs_loop' (py_range 3 (num_epochs + 1)) st2 w2
        = epochs_loop' (py_range 6 (num_epochs + 1)) st5 w5))).
Proof.
  split; [| split].
  - intros epoch st st' stop w w' H.
    destruct (epoch_body_spec _ _ _ _ _ _ H) as (_ & _ & _ & _ & Hstop & _).
    split.
    + rewrite Hstop. rewrite Z.geb_le. lia.
    + intro rest. destruct stop.
      * now apply epochs_loop_stop.
      * now apply epochs_loop_continue.
  - intros st st' w w' H. exact (epochs_loop_trace _ _ _ _ _ H).
  - intros st2 st3 st4 st5 s3 s4 s5 w2 w3 w4 w5 B2 E3 E4 E5 V3.
    destruct (epoch_body_spec _ _ _ _ _ _ E3) as (_ & _ & A3 & P3 & S3 & _).
    destruct (epoch_body_spec _ _ _ _ _ _ E4) as (_ & _ & A4 & P4 & S4 & _).
    destruct (epoch_body_spec _ _ _ _ _ _ E5) as (_ & _ & A5 & P5 & S5 & _).
    cbv zeta in *. rewrite V3, B2 in P3. rewrite P3 in S3.
    change (3 - 2 >=? 3)%Z with false in S3. subst s3.
    assert (forall rest, epochs_loop' (3 :: rest)%Z st2 w2 = epochs_loop' rest st3 w3)
      as L3 by (intro; now apply epochs_loop_continue).
    split.
    + intros V4 V5. rewrite V4, P3 in P4. rewrite P4 in S4.
      change (4 - 2 >=? 3)%Z with false in S4. subst s4.
      rewrite V5, P4 in P5. rewrite P5 in S5.
      change (5 - 2 >=? 3)%Z with true in S5. subst s5.
      repeat (split; [reflexivity || assumption |]).
      intro Hn.
      rewrite (py_range_cons 3), (py_range_cons (3 + 1)), (py_range_cons (3 + 1 + 1))
        by lia.
      rewrite L3. rewrite (epochs_loop_continue _ _ _ _ _ _ E4).
      now apply epochs_loop_stop.
    + intro V4. rewrite V4 in P4. rewrite P4 in S4.
      change (4 - 4 >=? 3)%Z with false in S4. subst s4.
      assert (s5 = false) as ->.
      { rewrite S5, P5, P4.
        destruct (PrimFloat.ltb (st_best_val_acc st4) (st_last_val_acc st5));
          reflexivity. }
      repeat (split; [reflexivity |]).
      intro Hn.
      rewrite (py_range_cons 3), (py_range_cons (3 + 1)), (py_range_cons (3 + 1 + 1))
        by lia.
      rewrite L3. rewrite (epochs_loop_continue _ _ _ _ _ _ E4).
      now rewrite (epochs_loop_continue _ _ _ _ _ _ E5).
Qed.


(** ** The end of [train_model] *)

Lemma last_saved_app (epoch : Z) (l1 l2 : list (Z * CheckpointState)) :
  last_saved epoch (l1 ++ l2)
  = match last_saved epoch l2 with
    | Some state => Some state
    | None => last_saved epoch l1
    end.
Proof.
  induction l1 as [|[e state] l1 IH]; cbn [app last_saved].
  - now destruct (last_saved epoch l2).
  - rewrite IH. now destruct (last_saved epoch l2).
Qed.

Lemma torch_load_missing (epoch : Z) (w : World) :
  last_saved epoch (saved_of w) = None ->
  torch_load (CheckpointFile epoch) w = (Raise FileNotFoundError, w).
Proof.
  unfold torch_load, saved_of. destruct (results w) as [r|]; intro H.
  - now rewrite H.
  - reflexivity.
Qed.

Lemma say_ok (m : msg) (w : World) :
  saved_of w <> [] -> exists w', say m w = (Ret tt, w') /\ saved_of w' = saved_of w.
Proof.
  unfold saved_of, say, bind, print, log, in_results. cbn [results].
  destruct (results w) as [r|]; intro H; [| now elim H].
  eexists. split; reflexivity.
Qed.

Lemma keeps_saved_prologue : keeps_saved (prologue val_on_dataset).
Proof. unfold prologue. frame. Qed.

(** C9: the best epoch starts at -1.  When the first two epochs complete and
    neither reaches a validation score above 0 (a NaN score is not above 0),
    the test [epoch - best_epoch >= 3] holds at the end of epoch 2: the loop
    runs two epochs only, whatever [num_epochs >= 2] is, and [train_model]
    then raises on loading [results/checkpoint_-1], a file that no epoch
    wrote. *)
Theorem no_positive_score_loads_missing_checkpoint
    (model : Model) (optimizer : Optimizer) (LR : float)
    (st1 st2 : TrainState) (s1 s2 : bool) (w w0 w1 w2 : World) :
  (2 <= num_epochs)%Z ->
  last_saved (-1) (saved_of w) = None ->
  prologue val_on_dataset w = (Ret tt, w0) ->
  epoch_body' 1 (initial_state model optimizer LR) w0 = (Ret (st1, s1), w1) ->
  PrimFloat.ltb 0 (st_last_val_acc st1) = false ->
  epoch_body' 2 st1 w1 = (Ret (st2, s2), w2) ->
  PrimFloat.ltb 0 (st_last_val_acc st2) = false ->
  s1 = false /\ s2 = true /\
  st_best_epoch st2 = (-1)%Z /\ (2 - st_best_epoch st2 >= 3)%Z /\
  (exists ck1 ck2, saved_of w2 = saved_of w ++ [(1%Z, ck1); (2%Z, ck2)]) /\
  last_saved (-1) (saved_of w2) = None /\
  exists w',
    train_model' model optimizer LR w = (Raise FileNotFoundError, w') /\
    saved_of w' = saved_of w2.
Proof.
  intros Hn Hnone E0 E1 V1 E2 V2.
  destruct (epoch_body_spec _ _ _ _ _ _ E1) as (_ & _ & A1 & P1 & S1 & m1 & g1 & C1).
  destruct (epoch_body_spec _ _ _ _ _ _ E2) as (_ & _ & A2 & P2 & S2 & m2 & g2 & C2).
  cbv zeta in *. cbn [initial_state st_best_val_acc st_best_epoch] in A1, P1.
  rewrite V1 in A1, P1. rewrite A1, V2 in P2. rewrite P1 in P2, S1. rewrite P2 in S2.
  change (1 - -1 >=? 3)%Z with false in S1.
  change (2 - -1 >=? 3)%Z with true in S2. subst s1 s2.
  rewrite (keeps_saved_prologue _ _ _ E0) in C1. rewrite C1, <- app_assoc in C2.
  cbn [app] in C2.
  assert (last_saved (-1) (saved_of w2) = None) as Hmiss.
  { rewrite C2, last_saved_app, Hnone. reflexivity. }
  split; [reflexivity |]. split; [reflexivity |]. split; [exact P2 |].
  split; [rewrite P2; lia |]. split; [eauto |]. split; [exact Hmiss |].
  destruct (say_ok MsgTrainingComplete w2) as (w3 & Esay & S3).
  { rewrite C2. intro N. apply app_eq_nil in N. destruct N as [_ N]. discriminate. }
  exists w3. split; [| exact S3].
  unfold train_model. cbv zeta. rewrite (bind_ret _ _ _ _ _ E0).
  assert (epochs_loop' (py_range 1 (num_epochs + 1)) (initial_state model optimizer LR) w0
          = (Ret st2, w2)) as Eloop.
  { rewrite (py_range_cons 1), (py_range_cons (1 + 1)) by lia.
    rewrite (epochs_loop_continue _ _ _ _ _ _ E1).
    now apply epochs_loop_stop. }
  rewrite (bind_ret _ _ _ _ _ Eloop), (bind_ret _ _ _ _ _ Esay).
  apply bind_raise. rewrite P2. apply torch_load_missing. now rewrite S3.
Qed.


(** C6: in every epoch that completes, the validation score, which is the
    value the decay and the best-tracking compare with the best score so
    far, is the mean of the scores that are not NaN in the table that
    [make_pred_multilabel] returns for the metric ['auc'], called after the
    training pass on the model it left, on the validation data (the dataset
    handed to [train_model], or the validation fold the routine builds). *)
Theorem validation_score_is_mean_of_defined_aucs
    (epoch : Z) (st st' : TrainState) (stop : bool) (w w' : World) :
  epoch_body' epoch st w = (Ret (st', stop), w') ->
  exists st1 batch_size w1 preds metric w2,
    train_pass' epoch st w = (Ret (st1, batch_size), w1) /\
    make_pred_multilabel data_transforms (st_model st1) PATH_TO_IMAGES PATH_TO_CSV
      "auc" (validation_multiclass criterion)
      (validation_dataset criterion val_on_dataset dataset) false w1
    = (Ret (st_model st', Some (preds, metric)), w2) /\
    score_table "auc" metric /\
    st_last_val_acc st' = mean_of_defined "auc" metric /\
    st_LR st'
    = (if PrimFloat.ltb (mean_of_defined "auc" metric) (st_best_val_acc st)
       then PrimFloat.div (st_LR st) 10%float else st_LR st) /\
    st_best_val_acc st'
    = (if PrimFloat.ltb (st_best_val_acc st) (mean_of_defined "auc" metric)
       then mean_of_defined "auc" metric else st_best_val_acc st) /\
    st_best_epoch st'
    = (if PrimFloat.ltb (st_best_val_acc st) (mean_of_defined "auc" metric)
       then epoch else st_best_epoch st).
Proof.
  intro H.
  destruct (epoch_body_spec _ _ _ _ _ _ H) as (L & _ & B & P & _).
  cbv zeta in L, B, P.
  apply epoch_body_inv in H.
  destruct H as (st1 & batch_size & w1 & model1 & metric & w2 & v & w3 & st2 & w4
                 & w5 & E1 & E2 & E3 & E4 & -> & _).
  apply evaluate_inv in E2. destruct E2 as (preds & E2).
  pose proof (make_pred_auc_table _ _ _ _ _ _ _ _ _ _ _ _ E2) as Ht.
  destruct (validation_score_mean _ _ _ _ E3) as (auc & Ed & ->).
  apply (defined_values_score_table "auc" metric auc eq_refl Ht) in Ed.
  destruct (decay_learning_rate_spec _ _ _ _ E4) as (_ & _ & D3 & _ & _ & _ & _ & D8).
  cbn [st_model st_last_val_acc] in D3, D8.
  destruct (track_best_spec epoch st2) as (_ & _ & _ & _ & B5 & B6 & _).
  assert (st_last_val_acc (track_best epoch st2) = mean_of_defined "auc" metric) as V.
  { rewrite B6, D8. unfold mean_of_defined. now rewrite Ed. }
  rewrite V in L, B, P.
  exists st1, batch_size, w1, preds, metric, w2.
  rewrite B5, D3.
  exact (conj E1 (conj E2 (conj Ht (conj V (conj L (conj B P)))))).
Qed.

(** ** The best epoch *)

Lemma epochs_loop_invariant (J : Z -> TrainState -> World -> Prop) :
  (forall e st w st' stop w',
      J e st w -> epoch_body' e st w = (Ret (st', stop), w') ->
      J (e + 1)%Z st' w') ->
  forall (n : nat) (a : Z) (st st' : TrainState) (w w' : World),
    J a st w ->
    epochs_loop' (py_range a (a + Z.of_nat n)) st w = (Ret st', w') ->
    exists e, (a <= e <= a + Z.of_nat n)%Z /\ J e st' w'.
Proof.
  intros Hstep n. induction n as [|n IH]; intros a st st' w w' HJ H.
  - replace (a + Z.of_nat 0)%Z with a in H by lia.
    unfold py_range in H. rewrite Z.sub_diag in H. cbn in H. injection H as <- <-.
    exists a. split; [lia | exact HJ].
  - rewrite py_range_cons in H by lia.
    cbn [epochs_loop] in H. apply bind_inv in H.
    destruct H as ([st1 stop] & w1 & E & H).
    pose proof (Hstep _ _ _ _ _ _ HJ E) as HJ1.
    destruct stop.
    + injection H as <- <-. exists (a + 1)%Z. split; [lia | exact HJ1].
    + replace (a + Z.of_nat (S n))%Z with ((a + 1) + Z.of_nat n)%Z in H by lia.
      destruct (IH _ _ _ _ _ HJ1 H) as (e & He & HJe).
      exists e. split; [lia | exact HJe].
Qed.

Lemma py_range_epochs :
  py_range 1 (num_epochs + 1) = py_range 1 (1 + Z.of_nat (Z.to_nat num_epochs)).
Proof. unfold py_range. do 2 f_equal. lia. Qed.

Lemma make_pred_returns_model (data_transforms0 : Transforms) (model : Model)
    (P1 P2 metric : string) (multiclass : bool) (ds : option Dataset) (verbose : bool) :
  returns (make_pred_multilabel data_transforms0 model P1 P2 metric multiclass ds verbose)
    (fun r => fst r = model_train model false).
Proof.
  unfold make_pred_multilabel.
  repeat first
    [ apply returns_bind; intro
    | apply returns_ret; reflexivity
    | (intros ? ? ? H; discriminate H)
    | match goal with
      | |- returns (match ?x with _ => _ end) _ => destruct x
      | |- returns (if ?b then _ else _) _ => destruct b
      | |- returns (let (_, _) := ?x in _) _ => destruct x
      end ].
Qed.

(** The model an epoch leaves is in evaluation mode. *)
Lemma epoch_body_model (epoch : Z) (st st' : TrainState) (stop : bool) (w w' : World) :
  epoch_body' epoch st w = (Ret (st', stop), w') -> training (st_model st') = false.
Proof.
  intro H. apply epoch_body_inv in H.
  destruct H as (st1 & batch_size & w1 & model1 & metric & w2 & v & w3 & st2 & w4 & w5
                 & _ & Ee & _ & Ed & -> & _).
  apply evaluate_inv in Ee. destruct Ee as (preds & Ee).
  apply make_pred_returns_model in Ee. cbn [fst] in Ee.
  destruct (track_best_spec epoch st2) as (_ & _ & _ & _ & -> & _).
  destruct (decay_learning_rate_spec _ _ _ _ Ed) as (_ & _ & -> & _).
  cbn [st_model]. now rewrite Ee.
Qed.

Lemma ltb_trans (a b c : float) :
  PrimFloat.ltb a b = true -> PrimFloat.ltb b c = true -> PrimFloat.ltb a c = true.
Proof. rewrite !FloatAxioms.ltb_spec. apply SFltb_trans. Qed.

Lemma ltb_irrefl (a : float) : PrimFloat.ltb a a = false.
Proof.
  destruct (PrimFloat.ltb a a) eqn:E; [| reflexivity].
  now rewrite (ltb_antisym a a E) in E.
Qed.

Lemma last_saved_In (epoch : Z) (l : list (Z * CheckpointState)) (ck : CheckpointState) :
  last_saved epoch l = Some ck -> In (epoch, ck) l.
Proof.
  induction l as [|[e s] l IH]; cbn [last_saved]; [discriminate |].
  destruct (last_saved epoch l) as [later |].
  - intro H. right. now apply IH.
  - destruct (e =? epoch)%Z eqn:E; [| discriminate].
    apply Z.eqb_eq in E. intro H. injection H as <-. subst e. now left.
Qed.

Lemma last_saved_other (epoch : Z) (l : list (Z * CheckpointState)) :
  Forall (fun p => fst p <> epoch) l -> last_saved epoch l = None.
Proof.
  induction 1 as [|[e s] l Hp _ IH]; cbn [last_saved]; [reflexivity |].
  rewrite IH. cbn [fst] in Hp. apply Z.eqb_neq in Hp. now rewrite Hp.
Qed.

(** An epoch keeps [best_so_far]. *)
Lemma epoch_body_best (cks0 : list (Z * CheckpointState)) (s0 : list (Z * CheckpointState))
    (e : Z) (st st' : TrainState) (stop : bool) (w w' : World) :
  saved_of w = s0 ++ cks0 ->
  best_so_far cks0 e st ->
  epoch_body' e st w = (Ret (st', stop), w') ->
  exists ck,
    saved_of w' = s0 ++ (cks0 ++ [(e, ck)]) /\
    best_so_far (cks0 ++ [(e, ck)]) (e + 1) st'.
Proof.
  intros Hs (He & Hall & Hbest) H.
  pose proof (epoch_body_model _ _ _ _ _ _ H) as Hmode.
  destruct (epoch_body_spec _ _ _ _ _ _ H) as (_ & _ & Hb & Hbe & _ & metric & g & S).
  cbv zeta in Hb, Hbe.
  set (v := st_last_val_acc st') in *. set (b := st_best_val_acc st) in *.
  set (ck := checkpoint_of weight_decay e metric g st') in *.
  exists ck. split; [now rewrite S, Hs, app_assoc |].
  assert (PrimFloat.ltb 0 (st_best_val_acc st') = true \/
          (PrimFloat.ltb b v = false /\ st_best_val_acc st' = b)) as Hpos.
  { rewrite Hb. destruct (PrimFloat.ltb b v) eqn:Ebv; [left | right; now split].
    destruct Hbest as [[_ H0] | (ck0 & _ & _ & _ & _ & _ & H0)].
    - fold b in H0. now rewrite H0 in Ebv.
    - exact (ltb_trans _ _ _ H0 Ebv). }
  split; [lia |]. split.
  - apply Forall_app. split.
    + eapply Forall_impl; [| exact Hall]. intros p (Hp1 & Hp2). split; [lia |].
      rewrite Hb. destruct (PrimFloat.ltb b v) eqn:Ebv; [| exact Hp2].
      destruct (PrimFloat.ltb v (ck_best_val_acc (snd p))) eqn:Evp; [| reflexivity].
      fold b in Hp2. now rewrite (ltb_trans _ _ _ Ebv Evp) in Hp2.
    + constructor; [| constructor]. cbn [fst snd]. split; [lia |].
      change (ck_best_val_acc ck) with v. rewrite Hb.
      destruct (PrimFloat.ltb b v) eqn:Ebv; [apply ltb_irrefl | exact Ebv].
  - rewrite Hbe, Hb. destruct (PrimFloat.ltb b v) eqn:Ebv.
    + right. exists ck. rewrite last_saved_app. cbn [last_saved]. rewrite Z.eqb_refl.
      split; [reflexivity |]. split; [reflexivity |].
      split; [unfold ck, checkpoint_of; cbn [ck_best_epoch]; rewrite Hbe;
              try rewrite Ebv; reflexivity |].
      split; [reflexivity |]. split; [exact Hmode |].
      destruct Hpos as [Hpos | [Hpos _]]; [| discriminate].
      now rewrite Hb in Hpos.
    + destruct Hbest as [Hinit | (ck0 & L & E1 & E2 & E3 & E4 & E5)]; [now left |].
      right. exists ck0. rewrite last_saved_app. cbn [last_saved].
      assert ((e =? st_best_epoch st)%Z = false) as ->.
      { apply Z.eqb_neq. intro Heq. apply last_saved_In in L.
        rewrite Forall_forall in Hall. destruct (Hall _ L) as [Hr _].
        cbn [fst] in Hr. lia. }
      now repeat split.
Qed.

(** The state the loop over the epochs [1 .. num_epochs] ends in. *)
Lemma epochs_loop_best (model : Model) (optimizer : Optimizer) (LR : float)
    (st : TrainState) (w w' : World) :
  epochs_loop' (py_range 1 (num_epochs + 1)) (initial_state model optimizer LR) w
  = (Ret st, w') ->
  exists cks e,
    (1 <= e <= 1 + Z.of_nat (Z.to_nat num_epochs))%Z /\
    saved_of w' = saved_of w ++ cks /\ best_so_far cks e st.
Proof.
  intro H. rewrite py_range_epochs in H.
  destruct (epochs_loop_invariant
              (fun e st1 w1 => exists cks, saved_of w1 = saved_of w ++ cks /\
                                           best_so_far cks e st1))
    with (n := Z.to_nat num_epochs) (a := 1%Z)
         (st := initial_state model optimizer LR) (st' := st) (w := w) (w' := w')
    as (e & He & cks & Hs & Hb).
  - intros e st1 w1 st2 stop w2 (cks & Hs & Hb) E.
    destruct (epoch_body_best cks (saved_of w) e st1 st2 stop w1 w2 Hs Hb E)
      as (ck & Hs' & Hb').
    now exists (cks ++ [(e, ck)]).
  - exists []. split; [now rewrite app_nil_r |].
    split; [lia |]. split; [constructor |]. left. now split.
  - exact H.
  - exists cks, e. split; [exact He |]. split; [exact Hs | exact Hb].
Qed.

Lemma train_model_inv (model : Model) (optimizer : Optimizer) (LR : float)
    (m : Model) (best_epoch : Z) (w w' : World) :
  train_model' model optimizer LR w = (Ret (m, best_epoch), w') ->
  exists st w1 w2 ck,
    prologue val_on_dataset w = (Ret tt, w1) /\
    epochs_loop' (py_range 1 (num_epochs + 1)) (initial_state model optimizer LR) w1
    = (Ret st, w2) /\
    say MsgTrainingComplete w2 = (Ret tt, w') /\
    torch_load (CheckpointFile (st_best_epoch st)) w' = (Ret ck, w') /\
    m = ck_model ck /\ best_epoch = st_best_epoch st.
Proof.
  intro H. unfold train_model in H. cbv zeta in H.
  apply bind_inv in H. destruct H as ([] & w1 & E1 & H).
  apply bind_inv in H. destruct H as (st & w2 & E2 & H).
  apply bind_inv in H. destruct H as ([] & w3 & E3 & H).
  apply bind_inv in H. destruct H as (ck & w4 & E4 & H).
  injection H as <- <- <-.
  assert (w4 = w3) as ->.
  { unfold torch_load in E4.
    destruct (match results w3 with
              | Some r => last_saved (st_best_epoch st) (saved r)
              | None => None
              end); [| discriminate].
    now injection E4. }
  exists st, w1, w2, ck. now repeat split.
Qed.

(** What a run of [train_model] that returns has saved and loaded. *)
Lemma train_model_best (model : Model) (optimizer : Optimizer) (LR : float)
    (m : Model) (best_epoch : Z) (w w' : World) :
  last_saved (-1) (saved_of w) = None ->
  train_model' model optimizer LR w = (Ret (m, best_epoch), w') ->
  exists st cks e ck,
    (1 <= e <= 1 + Z.of_nat (Z.to_nat num_epochs))%Z /\
    saved_of w' = saved_of w ++ cks /\
    best_so_far cks e st /\
    best_epoch = st_best_epoch st /\
    last_saved best_epoch cks = Some ck /\
    torch_load (CheckpointFile best_epoch) w' = (Ret ck, w') /\
    m = ck_model ck.
Proof.
  intros Hnone H. apply train_model_inv in H.
  destruct H as (st & w1 & w2 & ck & E1 & E2 & E3 & E4 & -> & ->).
  destruct (epochs_loop_best _ _ _ _ _ _ E2) as (cks & e & He & Hs & Hb).
  rewrite (keeps_saved_prologue _ _ _ E1) in Hs.
  assert (saved_of w' = saved_of w ++ cks) as Hs'
    by (now rewrite (keeps_saved_say _ _ _ _ E3)).
  assert (last_saved (st_best_epoch st) (saved_of w') = Some ck) as L.
  { unfold torch_load in E4. unfold saved_of.
    destruct (results w') as [r |]; [| discriminate].
    destruct (last_saved (st_best_epoch st) (saved r)); [| discriminate].
    now injection E4 as ->. }
  rewrite Hs', last_saved_app in L.
  exists st, cks, e, ck.
  split; [exact He |]. split; [exact Hs' |]. split; [exact Hb |].
  split; [reflexivity |]. split; [| split; [exact E4 | reflexivity]].
  destruct Hb as (_ & Hall & [[Hbe _] | (ck0 & L0 & _)]).
  - rewrite Hbe in L |- *.
    rewrite last_saved_other in L.
    + now rewrite Hnone in L.
    + eapply Forall_impl; [| exact Hall]. intros p [Hp _]. lia.
  - rewrite L0 in L. now rewrite L0, L.
Qed.

(** X11: a call of [train_model] that returns, in a directory without a
    file [checkpoint_-1], returns the number of an epoch it ran and the model
    stored in the checkpoint of that epoch: the model as the epoch left it,
    in evaluation mode.  That checkpoint names its own epoch as the best one
    and holds a positive score. *)
Theorem train_model_returns_best_checkpoint (model : Model) (optimizer : Optimizer)
    (LR : float) (m : Model) (best_epoch : Z) (w w' : World) :
  last_saved (-1) (saved_of w) = None ->
  train_model' model optimizer LR w = (Ret (m, best_epoch), w') ->
  (1 <= best_epoch <= num_epochs)%Z /\
  exists ck,
    torch_load (CheckpointFile best_epoch) w' = (Ret ck, w') /\
    m = ck_model ck /\
    training m = false /\
    ck_epoch ck = best_epoch /\
    ck_best_epoch ck = best_epoch /\
    PrimFloat.ltb 0 (ck_best_val_acc ck) = true.
Proof.
  intros Hnone H.
  destruct (train_model_best _ _ _ _ _ _ _ Hnone H)
    as (st & cks & e & ck & He & Hs & Hb & -> & L & E & ->).
  destruct Hb as (_ & Hall & Hbest).
  pose proof (last_saved_In _ _ _ L) as Hin.
  rewrite Forall_forall in Hall. destruct (Hall _ Hin) as [Hr _]. cbn [fst] in Hr.
  split; [lia |].
  destruct Hbest as [[Hbe _] | (ck0 & L0 & E1 & E2 & E3 & E4 & E5)]; [lia |].
  rewrite L in L0. injection L0 as <-.
  exists ck. repeat split; try assumption. now rewrite E3.
Qed.

(** X12: the epoch that [train_model] returns as the best one has a score
    that no epoch of the run exceeds: the score that the checkpoint of any
    epoch holds (the call of [checkpoint] stores the validation score of the
    epoch) is not above the score in the checkpoint of the best epoch. *)
Theorem best_epoch_score_is_not_exceeded (model : Model) (optimizer : Optimizer)
    (LR : float) (m : Model) (best_epoch : Z) (w w' : World) :
  last_saved (-1) (saved_of w) = None ->
  train_model' model optimizer LR w = (Ret (m, best_epoch), w') ->
  exists cks ck,
    saved_of w' = saved_of w ++ cks /\
    In (best_epoch, ck) cks /\
    forall p, In p cks ->
      PrimFloat.ltb (ck_best_val_acc ck) (ck_best_val_acc (snd p)) = false.
Proof.
  intros Hnone H.
  destruct (train_model_best _ _ _ _ _ _ _ Hnone H)
    as (st & cks & e & ck & He & Hs & Hb & -> & L & E & ->).
  destruct Hb as (_ & Hall & Hbest).
  pose proof (last_saved_In _ _ _ L) as Hin.
  rewrite Forall_forall in Hall.
  exists cks, ck. split; [exact Hs |]. split; [exact Hin |].
  intros p Hp. destruct (Hall _ Hp) as [_ Hle].
  destruct Hbest as [[Hbe _] | (ck0 & L0 & _ & _ & E3 & _)].
  - destruct (Hall _ Hin) as [Hr _]. cbn [fst] in Hr. lia.
  - rewrite L in L0. injection L0 as <-. now rewrite E3.
Qed.

(** ** The files of an epoch *)

Lemma preserves_run {A X : Type} (f : World -> X) (c : M A) (w w' : World)
    (o : outcome A) :
  preserves f c -> c w = (o, w') -> f w' = f w.
Proof. intros Hc E. specialize (Hc w). now rewrite E in Hc. Qed.

Ltac files_prim :=
  first
    [ (intro; reflexivity)
    | (apply preserves_in_results; intros; reflexivity)
    | (apply preserves_in_results; intros ? ? Hres;
       unfold log_train_of, aucs_csv_of; cbn [results set_results];
       rewrite Hres; reflexivity)
    | (intro; unfold next_batches;
       match goal with |- context [dataloaders ?g] => destruct (dataloaders g) end;
       reflexivity)
    | (intro; unfold torch_load;
       repeat match goal with
              | |- context [match ?x with _ => _ end] => destruct x
              end; reflexivity) ].

Ltac files :=
  unfold epoch_body, train_pass, evaluate, validation_score, decay_learning_rate,
    save_and_log, checkpoint, torch_save, get_rng_state, make_pred_multilabel,
    new_CXPDataset, write_preds, write_aucs, write_f1, score_column, append_score,
    prologue, say, log;
  preserving files_prim.

Lemma log_train_train_pass (epoch : Z) (st : TrainState) :
  preserves log_train_of (train_pass' epoch st).
Proof. files. Qed.

Lemma log_train_evaluate (model : Model) : preserves log_train_of (evaluate' model).
Proof. files. Qed.

Lemma log_train_validation_score (metric : DataFrame) :
  preserves log_train_of (validation_score metric).
Proof. files. Qed.

Lemma log_train_decay (st : TrainState) :
  preserves log_train_of (decay_learning_rate weight_decay st).
Proof. files. Qed.

Lemma log_train_say (m : msg) : preserves log_train_of (say m).
Proof. files. Qed.

Lemma log_train_prologue : preserves log_train_of (prologue val_on_dataset).
Proof. files. Qed.

Lemma aucs_csv_validation_score (metric : DataFrame) :
  preserves aucs_csv_of (validation_score metric).
Proof. files. Qed.

Lemma aucs_csv_decay (st : TrainState) :
  preserves aucs_csv_of (decay_learning_rate weight_decay st).
Proof. files. Qed.

Lemma aucs_csv_say (m : msg) : preserves aucs_csv_of (say m).
Proof. files. Qed.

Lemma aucs_csv_save_and_log (epoch : Z) (metric : DataFrame) (batch_size : option nat)
    (st : TrainState) :
  preserves aucs_csv_of (save_and_log weight_decay epoch metric batch_size st).
Proof. files. Qed.

(** The steps of an epoch that returns, and the world each one leaves. *)
Lemma epoch_body_steps (epoch : Z) (st st' : TrainState) (stop : bool) (w w' : World) :
  epoch_body' epoch st w = (Ret (st', stop), w') ->
  exists st1 batch_size w1 model1 metric w2 v w3 st2 w4 w5,
    train_pass' epoch st w = (Ret (st1, batch_size), w1) /\
    evaluate' (st_model st1) w1 = (Ret (model1, metric), w2) /\
    validation_score metric w2 = (Ret v, w3) /\
    decay_learning_rate weight_decay
      {| st_model := model1; st_optimizer := st_optimizer st1; st_LR := st_LR st1;
         st_best_loss := st_best_loss st1; st_best_val_acc := st_best_val_acc st1;
         st_best_epoch := st_best_epoch st1;
         st_last_train_loss := st_last_train_loss st1; st_last_val_acc := v |} w3
    = (Ret st2, w4) /\
    st' = track_best epoch st2 /\
    save_and_log weight_decay epoch metric batch_size st' w4 = (Ret tt, w5) /\
    (if stop then say MsgNoImprovement w5 = (Ret tt, w') else w' = w5).
Proof.
  unfold epoch_body. intro H.
  apply bind_inv in H. destruct H as ([st1 batch_size] & w1 & E1 & H).
  apply bind_inv in H. destruct H as ([model1 metric] & w2 & E2 & H).
  apply bind_inv in H. destruct H as (v & w3 & E3 & H).
  apply bind_inv in H. destruct H as (st2 & w4 & E4 & H).
  apply bind_inv in H. destruct H as ([] & w5 & E5 & H).
  exists st1, batch_size, w1, model1, metric, w2, v, w3, st2, w4, w5.
  split; [exact E1 |]. split; [exact E2 |]. split; [exact E3 |]. split; [exact E4 |].
  destruct (epoch - st_best_epoch (track_best epoch st2) >=? 3)%Z.
  - apply bind_inv in H. destruct H as ([] & w6 & E6 & H).
    injection H as <- <- <-. now repeat split.
  - injection H as <- <- <-. now repeat split.
Qed.

Lemma save_and_log_log_train (epoch : Z) (metric : DataFrame) (batch_size : option nat)
    (st : TrainState) (w w' : World) :
  save_and_log weight_decay epoch metric batch_size st w = (Ret tt, w') ->
  exists ck,
    saved_of w' = saved_of w ++ [(epoch, ck)] /\
    ck = checkpoint_of weight_decay epoch metric (ck_rng_state ck) st /\
    log_train_of w'
    = log_train_of w ++
      (if (epoch =? 1)%Z then [log_train_header] else []) ++
      [log_train_row (epoch, ck)].
Proof.
  intro H. destruct (save_and_log_saved _ _ _ _ _ _ H) as (g & S).
  exists (checkpoint_of weight_decay epoch metric g st).
  split; [exact S |]. split; [reflexivity |].
  unfold save_and_log in H.
  apply bind_inv in H. destruct H as ([] & w1 & E1 & H).
  apply bind_inv in H. destruct H as ([] & w2 & E2 & H).
  apply bind_inv in H. destruct H as ([] & w3 & E3 & H).
  assert (log_train_of w2 = log_train_of w) as L2.
  { rewrite <- (preserves_run log_train_of _ _ _ _ (log_train_say _) E1).
    refine (preserves_run log_train_of _ _ _ _ _ E2). files. }
  assert (log_train_of w' = log_train_of w3) as L3.
  { refine (preserves_run log_train_of _ _ _ _ _ H). files. }
  rewrite L3, <- L2. unfold in_results in E3. unfold log_train_of.
  destruct (results w2) as [r |]; [| discriminate].
  injection E3 as <-. reflexivity.
Qed.

(** What an epoch adds to [results/log_train] and to the checkpoints. *)
Lemma epoch_body_log_train (epoch : Z) (st st' : TrainState) (stop : bool)
    (w w' : World) :
  epoch_body' epoch st w = (Ret (st', stop), w') ->
  exists ck,
    saved_of w' = saved_of w ++ [(epoch, ck)] /\
    log_train_of w'
    = log_train_of w ++
      (if (epoch =? 1)%Z then [log_train_header] else []) ++
      [log_train_row (epoch, ck)].
Proof.
  intro H. destruct (epoch_body_steps _ _ _ _ _ _ H)
    as (st1 & batch_size & w1 & model1 & metric & w2 & v & w3 & st2 & w4 & w5
        & E1 & E2 & E3 & E4 & -> & E5 & E6).
  destruct (save_and_log_log_train _ _ _ _ _ _ E5) as (ck & S & _ & L).
  exists ck.
  assert (saved_of w4 = saved_of w) as S4.
  { rewrite (keeps_saved_decay _ _ _ _ E4), (keeps_saved_validation_score _ _ _ _ E3),
      (keeps_saved_evaluate _ _ _ _ E2).
    exact (keeps_saved_train_pass _ _ _ _ _ E1). }
  assert (log_train_of w4 = log_train_of w) as L4.
  { rewrite (preserves_run _ _ _ _ _ (log_train_decay _) E4),
      (preserves_run _ _ _ _ _ (log_train_validation_score _) E3),
      (preserves_run _ _ _ _ _ (log_train_evaluate _) E2).
    exact (preserves_run _ _ _ _ _ (log_train_train_pass _ _) E1). }
  rewrite S4 in S. rewrite L4 in L.
  destruct stop.
  - rewrite (keeps_saved_say _ _ _ _ E6),
      (preserves_run _ _ _ _ _ (log_train_say _) E6). now split.
  - subst w'. now split.
Qed.

Lemma py_range_snoc (e : Z) :
  (1 <= e)%Z -> py_range 1 (e + 1) = py_range 1 e ++ [e].
Proof.
  intro H. unfold py_range.
  replace (Z.to_nat (e + 1 - 1)) with (S (Z.to_nat (e - 1))) by lia.
  rewrite seq_S, map_app. cbn [map]. do 2 f_equal. lia.
Qed.

(** X13: [results/log_train] mirrors the checkpoints.  A call of
    [train_model] that returns has run the epochs [1 .. k] for some [k], has
    saved one checkpoint for each of them, and has added to the file the
    header, once, and then one row for every epoch, in order: the number of
    the epoch, its training loss and its validation score, as the checkpoint
    of the epoch holds them. *)
Theorem log_train_mirrors_checkpoints (model : Model) (optimizer : Optimizer)
    (LR : float) (m : Model) (best_epoch : Z) (w w' : World) :
  train_model' model optimizer LR w = (Ret (m, best_epoch), w') ->
  exists cks e,
    saved_of w' = saved_of w ++ cks /\
    map fst cks = py_range 1 e /\
    log_train_of w'
    = log_train_of w ++
      match cks with
      | [] => []
      | _ :: _ => log_train_header :: map log_train_row cks
      end.
Proof.
  intro H. apply train_model_inv in H.
  destruct H as (st & w1 & w2 & ck & E1 & E2 & E3 & _).
  rewrite py_range_epochs in E2.
  destruct (epochs_loop_invariant
              (fun e st1 w0 =>
                 (1 <= e)%Z /\
                 exists cks,
                   saved_of w0 = saved_of w ++ cks /\
                   map fst cks = py_range 1 e /\
                   log_train_of w0
                   = log_train_of w ++
                     match cks with
                     | [] => []
                     | _ :: _ => log_train_header :: map log_train_row cks
                     end))
    with (n := Z.to_nat num_epochs) (a := 1%Z)
         (st := initial_state model optimizer LR) (st' := st) (w := w1) (w' := w2)
    as (e & _ & _ & cks & Hs & Hm & Hl).
  - intros e st1 w0 st2 stop w3 (He & cks & Hs & Hm & Hl) E.
    destruct (epoch_body_log_train _ _ _ _ _ _ E) as (ck1 & S & L).
    split; [lia |]. exists (cks ++ [(e, ck1)]).
    split; [now rewrite S, Hs, app_assoc |].
    split; [now rewrite map_app, Hm, py_range_snoc |].
    rewrite L, Hl, <- app_assoc. f_equal.
    destruct cks as [| p cks].
    + assert (e = 1%Z) as ->.
      { unfold py_range in Hm. cbn [map] in Hm.
        destruct (Z.to_nat (e - 1)) eqn:En; [lia | discriminate]. }
      reflexivity.
    + assert ((e =? 1)%Z = false) as ->.
      { apply Z.eqb_neq. intros ->. discriminate. }
      cbn [app map]. rewrite map_app. reflexivity.
  - split; [lia |]. exists [].
    rewrite (keeps_saved_prologue _ _ _ E1),
      (preserves_run _ _ _ _ _ log_train_prologue E1), !app_nil_r.
    now repeat split.
  - exact E2.
  - exists cks, e.
    rewrite (keeps_saved_say _ _ _ _ E3), (preserves_run _ _ _ _ _ (log_train_say _) E3).
    now repeat split.
Qed.

(** ** The progress message *)

(** The test of lines 263-264: [total_done] is the size of the last batch,
    which is not a multiple of a hundred times itself. *)
Lemma progress_tail (b : nat) :
  (if Nat.eqb (100 * b) 0 then raise (A := unit) ZeroDivisionError
   else when (Nat.eqb ((0 + b) mod (100 * b)) 0) (say (MsgCompleted (0 + b))))
  = (if Nat.eqb b 0 then raise ZeroDivisionError else ret tt).
Proof.
  destruct b as [|b]; [reflexivity |].
  replace (Nat.eqb (100 * S b) 0) with false by (symmetry; apply Nat.eqb_neq; lia).
  rewrite Nat.add_0_l, Nat.mod_small by lia. reflexivity.
Qed.

Lemma progress_print (m : msg) :
  is_progress m = false -> preserves progress_lines (print m).
Proof.
  intros Hm w. unfold progress_lines, print. cbn [snd stdout results logger_of].
  rewrite filter_app. cbn [filter]. rewrite Hm. now rewrite app_nil_r.
Qed.

Lemma progress_log (m : msg) :
  is_progress m = false -> preserves progress_lines (log m).
Proof.
  intro Hm. apply preserves_in_results. intros r w Hr.
  unfold progress_lines, logger_of. cbn [results set_results stdout logger].
  rewrite Hr, filter_app. cbn [filter]. rewrite Hm. now rewrite app_nil_r.
Qed.

Lemma progress_say (m : msg) :
  is_progress m = false -> preserves progress_lines (say m).
Proof.
  intro Hm. apply preserves_bind; [now apply progress_print |].
  intro. now apply progress_log.
Qed.

Ltac progress_prim :=
  first
    [ (apply progress_say; reflexivity)
    | (apply progress_print; reflexivity)
    | (apply progress_log; reflexivity)
    | (intro; reflexivity)
    | (apply preserves_in_results; intros ? ? Hres;
       unfold progress_lines, logger_of; cbn [results set_results stdout logger];
       rewrite Hres; reflexivity)
    | (intro; unfold next_batches;
       match goal with |- context [dataloaders ?g] => destruct (dataloaders g) end;
       reflexivity)
    | (intro; unfold torch_load;
       repeat match goal with
              | |- context [match ?x with _ => _ end] => destruct x
              end; reflexivity) ].

Ltac progress_free :=
  repeat first
    [ match goal with
      | |- preserves _ (if Nat.eqb (100 * ?b) 0 then _ else _) =>
          rewrite (progress_tail b)
      end
    | progress cbv zeta
    | apply preserves_ret | apply preserves_raise | apply preserves_lift
    | apply preserves_bind; [| intro]
    | apply preserves_when
    | apply preserves_forM; intros
    | match goal with
      | |- preserves _ (if ?b then _ else _) => destruct b
      | |- preserves _ (match ?x with _ => _ end) => destruct x
      | |- preserves _ (let (_, _) := ?x in _) => destruct x
      end
    | progress_prim ].

Lemma progress_make_pred (data_transforms0 : Transforms) (model : Model)
    (P1 P2 metric : string) (multiclass : bool) (ds : option Dataset) (verbose : bool) :
  preserves progress_lines
    (make_pred_multilabel data_transforms0 model P1 P2 metric multiclass ds verbose).
Proof.
  unfold make_pred_multilabel, new_CXPDataset, write_preds, write_aucs, write_f1,
    score_column, append_score.
  progress_free.
Qed.

Lemma progress_epoch_body (epoch : Z) (st : TrainState) :
  preserves progress_lines (epoch_body' epoch st).
Proof.
  unfold epoch_body, train_pass, validation_score, decay_learning_rate,
    save_and_log, checkpoint, torch_save, get_rng_state.
  apply preserves_bind; [progress_free |].
  intros [st1 batch_size]. apply preserves_bind.
  { unfold evaluate. apply preserves_bind.
    - destruct (Criterion_eqb criterion BCELoss); [destruct val_on_dataset |];
        apply progress_make_pred.
    - intro. progress_free. }
  intros [model1 metric]. progress_free.
Qed.

Lemma progress_epochs_loop (es : list Z) :
  forall st, preserves progress_lines (epochs_loop' es st).
Proof.
  induction es as [|e es IH]; intro st; cbn [epochs_loop].
  - apply preserves_ret.
  - apply preserves_bind; [apply progress_epoch_body |].
    intros [st1 stop]. destruct stop; [apply preserves_ret | apply IH].
Qed.

(** X16: the message "completed ... so far in epoch" of lines 263-267 is
    never issued.  Whatever a call of [train_model] does and however it
    ends, it adds no such line to the standard output or to
    [results/logger]. *)
Theorem progress_message_is_never_issued (model : Model) (optimizer : Optimizer)
    (LR : float) (w : World) (total_done : nat) :
  let w' := snd (train_model' model optimizer LR w) in
  (In (MsgCompleted total_done) (stdout w') -> In (MsgCompleted total_done) (stdout w)) /\
  (In (MsgCompleted total_done) (logger_of w') ->
   In (MsgCompleted total_done) (logger_of w)).
Proof.
  intro w'.
  assert (progress_lines w' = progress_lines w) as H.
  { subst w'. revert w.
    change (preserves progress_lines (train_model' model optimizer LR)).
    unfold train_model, prologue. cbv zeta.
    progress_free. apply progress_epochs_loop. }
  unfold progress_lines in H. injection H as H1 H2.
  split; intro Hin.
  - assert (In (MsgCompleted total_done) (filter is_progress (stdout w'))) as Hf
      by (apply filter_In; now split).
    rewrite H1 in Hf. now apply filter_In in Hf.
  - assert (In (MsgCompleted total_done) (filter is_progress (logger_of w'))) as Hf
      by (apply filter_In; now split).
    rewrite H2 in Hf. now apply filter_In in Hf.
Qed.

(** ** Runs without an epoch, and without a training sample *)

(** X14: with [num_epochs <= 0] no epoch runs, so the best epoch stays [-1]
    and the call raises [FileNotFoundError] (in a directory without a file
    [checkpoint_-1]): from the first write to the log when [results/] is
    missing, from loading [checkpoint_-1] otherwise.  Nothing is trained,
    evaluated or saved. *)
Theorem no_epoch_no_model (model : Model) (optimizer : Optimizer) (LR : float)
    (w : World) :
  (num_epochs <= 0)%Z ->
  last_saved (-1) (saved_of w) = None ->
  let r := train_model' model optimizer LR w in
  fst r = Raise FileNotFoundError /\
  saved_of (snd r) = saved_of w /\
  calls (snd r) = calls w /\
  rng (snd r) = rng w.
Proof.
  intros Hn Hnone. unfold train_model. cbv zeta.
  assert (py_range 1 (num_epochs + 1) = []) as ->.
  { unfold py_range. now replace (Z.to_nat (num_epochs + 1 - 1)) with 0 by lia. }
  cbn [epochs_loop]. unfold saved_of in *.
  unfold prologue, say, log, in_results, print, torch_load, when, bind, ret.
  destruct (results w) as [r |] eqn:Hr.
  - destruct val_on_dataset; cbn; rewrite ?Hr; cbn; rewrite Hnone; cbn;
      now repeat split.
  - destruct val_on_dataset; cbn; rewrite ?Hr; cbn; now repeat split.
Qed.

(** X15: the loss of an epoch is divided by the size of the training set.
    With [dataset_sizes['train'] = 0] the first epoch raises
    [ZeroDivisionError] after its training pass: no evaluation is run, no
    dataset is read and no checkpoint is saved. *)
Theorem empty_training_set_divides_by_zero (model : Model) (optimizer : Optimizer)
    (LR : float) (w : World) :
  dataset_sizes = 0 ->
  (1 <= num_epochs)%Z ->
  results w <> None ->
  let r := train_model' model optimizer LR w in
  fst r = Raise ZeroDivisionError /\
  saved_of (snd r) = saved_of w /\
  calls (snd r) = calls w /\
  aucs_csv_of (snd r) = aucs_csv_of w.
Proof.
  intros Hsize Hn Hres. unfold train_model. cbv zeta.
  rewrite py_range_cons by lia. cbn [epochs_loop].
  unfold epoch_body, train_pass. rewrite Hsize. cbn [Nat.eqb].
  unfold saved_of, aucs_csv_of, prologue, say, log, in_results, print, next_batches,
    when, bind, ret, raise.
  destruct (results w) as [r |] eqn:Hr; [| now elim Hres].
  destruct val_on_dataset; cbn; rewrite ?Hr; cbn;
    destruct (dataloaders (rng w)) as [batches g]; cbn; now repeat split.
Qed.

(** ** The dataset of the validation *)

Lemma calls_train_pass (epoch : Z) (st : TrainState) :
  preserves calls (train_pass' epoch st).
Proof. files. Qed.

Lemma calls_validation_score (metric : DataFrame) :
  preserves calls (validation_score metric).
Proof. files. Qed.

Lemma calls_decay (st : TrainState) :
  preserves calls (decay_learning_rate weight_decay st).
Proof. files. Qed.

Lemma calls_say (m : msg) : preserves calls (say m).
Proof. files. Qed.

Lemma calls_save_and_log (epoch : Z) (metric : DataFrame) (batch_size : option nat)
    (st : TrainState) :
  preserves calls (save_and_log weight_decay epoch metric batch_size st).
Proof. files. Qed.

(** X20: an epoch that completes reads a dataset from disk exactly when the
    criterion is the binary cross-entropy and [val_on_dataset] is off: its
    evaluation then builds the fold ['val'] anew, with the validation
    transform and without an orientation; in the other cases the epoch
    builds no dataset (it evaluates on the one it was given). *)
Theorem epoch_reads_validation_fold (epoch : Z) (st st' : TrainState) (stop : bool)
    (w w' : World) :
  epoch_body' epoch st w = (Ret (st', stop), w') ->
  calls w'
  = calls w ++
    (if Criterion_eqb criterion BCELoss && negb val_on_dataset
     then [BuildDataset
             {| path_to_images := PATH_TO_IMAGES; path_to_csv := PATH_TO_CSV;
                fold := "val"; uncertain := None;
                transform_arg := tr_val data_transforms;
                orientation_arg := None; sample := None; mask := None;
                verbose_arg := None |}]
     else []).
Proof.
  intro H. destruct (epoch_body_steps _ _ _ _ _ _ H)
    as (st1 & batch_size & w1 & model1 & metric & w2 & v & w3 & st2 & w4 & w5
        & E1 & E2 & E3 & E4 & -> & E5 & E6).
  assert (calls w' = calls w5) as ->.
  { destruct stop; [exact (preserves_run _ _ _ _ _ (calls_say _) E6) | now subst]. }
  rewrite (preserves_run _ _ _ _ _ (calls_save_and_log _ _ _ _) E5),
    (preserves_run _ _ _ _ _ (calls_decay _) E4),
    (preserves_run _ _ _ _ _ (calls_validation_score _) E3).
  apply evaluate_inv in E2. destruct E2 as (preds & E2).
  pose proof (make_pred_calls data_transforms (st_model st1) PATH_TO_IMAGES PATH_TO_CSV
                "auc" (validation_multiclass criterion) false
                (validation_dataset criterion val_on_dataset dataset) w1) as Hc.
  rewrite E2 in Hc. cbn [snd] in Hc. rewrite Hc.
  rewrite (preserves_run _ _ _ _ _ (calls_train_pass _ _) E1).
  unfold validation_dataset, evaluated_dataset_calls.
  destruct (Criterion_eqb criterion BCELoss); [destruct val_on_dataset |]; reflexivity.
Qed.

(** ** The checkpoint of an epoch *)

Lemma rng_say (m : msg) : preserves rng (say m).
Proof. files. Qed.

Lemma rng_evaluate (model : Model) : preserves rng (evaluate' model).
Proof. files. Qed.

Lemma rng_validation_score (metric : DataFrame) : preserves rng (validation_score metric).
Proof. files. Qed.

Lemma rng_decay (st : TrainState) :
  preserves rng (decay_learning_rate weight_decay st).
Proof. files. Qed.

Lemma rng_save_and_log (epoch : Z) (metric : DataFrame) (batch_size : option nat)
    (st : TrainState) :
  preserves rng (save_and_log weight_decay epoch metric batch_size st).
Proof. files. Qed.

Lemma rng_print (m : msg) : preserves rng (print m).
Proof. files. Qed.

Lemma rng_log (m : msg) : preserves rng (log m).
Proof. files. Qed.

Lemma rng_train_pass (epoch : Z) (st : TrainState) (r : TrainState * option nat)
    (w w' : World) :
  train_pass' epoch st w = (Ret r, w') -> rng w' = snd (dataloaders (rng w)).
Proof.
  unfold train_pass. intro H.
  apply bind_inv in H. destruct H as ([] & wa & Ea & H).
  apply bind_inv in H. destruct H as ([] & wb & Eb & H).
  apply bind_inv in H. destruct H as ([] & wc & Ec & H).
  apply bind_inv in H. destruct H as ([] & wd & Ed & H).
  apply bind_inv in H. destruct H as ([] & we & Ee & H).
  apply bind_inv in H. destruct H as (batches & wf & Ef & H).
  assert (rng we = rng w) as Ge.
  { rewrite (preserves_run _ _ _ _ _ (rng_print _) Ee),
      (preserves_run _ _ _ _ _ (rng_log _) Ed),
      (preserves_run _ _ _ _ _ (rng_log _) Ec),
      (preserves_run _ _ _ _ _ (rng_print _) Eb).
    exact (preserves_run _ _ _ _ _ (rng_print _) Ea). }
  unfold next_batches in Ef. rewrite Ge in Ef.
  destruct (dataloaders (rng w)) as [bs g]. injection Ef as <- <-.
  cbn [snd].
  match type of H with
  | ?c ?w0 = _ => assert (preserves rng c) as Hp by files;
                  rewrite (preserves_run rng c w0 w' _ Hp H)
  end.
  reflexivity.
Qed.

Lemma save_and_log_checkpoint (epoch : Z) (metric : DataFrame) (batch_size : option nat)
    (st : TrainState) (w w' : World) :
  save_and_log weight_decay epoch metric batch_size st w = (Ret tt, w') ->
  saved_of w' = saved_of w ++ [(epoch, checkpoint_of weight_decay epoch metric (rng w) st)].
Proof.
  intro H. unfold save_and_log in H.
  apply bind_inv in H. destruct H as ([] & w1 & E1 & H).
  apply bind_inv in H. destruct H as ([] & w2 & E2 & H).
  apply checkpoint_saved in E2.
  rewrite (keeps_saved_say _ _ _ _ E1), (preserves_run _ _ _ _ _ (rng_say _) E1) in E2.
  assert (saved_of w' = saved_of w2) as ->; [| exact E2].
  revert H. generalize w2 w' tt.
  match goal with
  | |- forall (w0 w3 : World) (u : unit), ?c w0 = _ -> _ => change (keeps_saved c)
  end.
  frame.
Qed.

(** X19: every epoch that completes saves one checkpoint, under the number
    of the epoch, whether the score improved or not.  It holds the model, the
    training loss, the number of the best epoch and the learning rate as the
    epoch leaves them, the weight decay, the metric table, the state of the
    random generator after the shuffle of the epoch and, under
    ['best_val_acc'], the validation score of the epoch. *)
Theorem epoch_saves_one_checkpoint (epoch : Z) (st st' : TrainState) (stop : bool)
    (w w' : World) :
  epoch_body' epoch st w = (Ret (st', stop), w') ->
  exists metric,
    saved_of w'
    = saved_of w ++
      [(epoch,
        {| ck_model := st_model st';
           ck_last_train_loss := st_last_train_loss st';
           ck_best_val_acc := st_last_val_acc st';
           ck_metric := metric;
           ck_epoch := epoch;
           ck_best_epoch := st_best_epoch st';
           ck_rng_state := snd (dataloaders (rng w));
           ck_LR := st_LR st';
           ck_WD := weight_decay |})] /\
    aucs_csv_of w' = Some metric /\
    rng w' = snd (dataloaders (rng w)).
Proof.
  intro H. destruct (epoch_body_steps _ _ _ _ _ _ H)
    as (st1 & batch_size & w1 & model1 & metric & w2 & v & w3 & st2 & w4 & w5
        & E1 & E2 & E3 & E4 & -> & E5 & E6).
  exists metric.
  assert (rng w4 = snd (dataloaders (rng w))) as G4.
  { rewrite (preserves_run _ _ _ _ _ (rng_decay _) E4),
      (preserves_run _ _ _ _ _ (rng_validation_score _) E3),
      (preserves_run _ _ _ _ _ (rng_evaluate _) E2).
    exact (rng_train_pass _ _ _ _ _ E1). }
  assert (saved_of w4 = saved_of w) as S4.
  { rewrite (keeps_saved_decay _ _ _ _ E4), (keeps_saved_validation_score _ _ _ _ E3),
      (keeps_saved_evaluate _ _ _ _ E2).
    exact (keeps_saved_train_pass _ _ _ _ _ E1). }
  assert (aucs_csv_of w5 = Some metric) as A5.
  { rewrite (preserves_run _ _ _ _ _ (aucs_csv_save_and_log _ _ _ _) E5),
      (preserves_run _ _ _ _ _ (aucs_csv_decay _) E4),
      (preserves_run _ _ _ _ _ (aucs_csv_validation_score _) E3).
    apply evaluate_inv in E2. destruct E2 as (preds & E2).
    apply make_pred_returns_tables in E2.
    destruct E2 as (_ & _ & _ & _ & r & _ & R').
    unfold aucs_csv_of. now rewrite R'. }
  pose proof (save_and_log_checkpoint _ _ _ _ _ _ E5) as S5.
  rewrite S4, G4 in S5.
  assert (rng w5 = snd (dataloaders (rng w))) as G5
    by (now rewrite (preserves_run _ _ _ _ _ (rng_save_and_log _ _ _ _) E5)).
  destruct stop.
  - rewrite (keeps_saved_say _ _ _ _ E6),
      (preserves_run _ _ _ _ _ (aucs_csv_say _) E6),
      (preserves_run _ _ _ _ _ (rng_say _) E6).
    split; [exact S5 |]. now split.
  - subst w'. split; [exact S5 |]. now split.
Qed.

(** ** The number of epochs *)

(** The loop either runs every epoch of the range, or it ends with an epoch
    that asks to stop. *)
Lemma epochs_loop_cases (J : Z -> TrainState -> World -> Prop) :
  (forall e st w st' w',
      J e st w -> epoch_body' e st w = (Ret (st', false), w') ->
      J (e + 1)%Z st' w') ->
  forall (n : nat) (a : Z) (st st' : TrainState) (w w' : World),
    J a st w ->
    epochs_loop' (py_range a (a + Z.of_nat n)) st w = (Ret st', w') ->
    J (a + Z.of_nat n)%Z st' w' \/
    exists e st0 w0,
      (a <= e < a + Z.of_nat n)%Z /\ J e st0 w0 /\
      epoch_body' e st0 w0 = (Ret (st', true), w').
Proof.
  intros Hstep n. induction n as [|n IH]; intros a st st' w w' HJ H.
  - replace (a + Z.of_nat 0)%Z with a in * by lia.
    unfold py_range in H. rewrite Z.sub_diag in H. cbn in H. injection H as <- <-.
    now left.
  - rewrite py_range_cons in H by lia.
    cbn [epochs_loop] in H. apply bind_inv in H.
    destruct H as ([st1 stop] & w1 & E & H).
    destruct stop.
    + injection H as <- <-. right. exists a, st, w. split; [lia |]. now split.
    + pose proof (Hstep _ _ _ _ _ HJ E) as HJ1.
      replace (a + Z.of_nat (S n))%Z with ((a + 1) + Z.of_nat n)%Z in * by lia.
      destruct (IH _ _ _ _ _ HJ1 H) as [Hend | (e & st0 & w0 & He & HJe & Ee)].
      * now left.
      * right. exists e, st0, w0. split; [lia |]. now split.
Qed.

(** X17: the number of epochs of a run.  A call of [train_model] with
    [num_epochs >= 0] that returns has run, and saved a checkpoint for,
    exactly [min(num_epochs, best_epoch + 3)] epochs, where [best_epoch] is
    the epoch it returns: the loop stops three epochs after the best one,
    unless [num_epochs] comes first. *)
Theorem epochs_run_is_minimum (model : Model) (optimizer : Optimizer)
    (LR : float) (m : Model) (best_epoch : Z) (w w' : World) :
  (0 <= num_epochs)%Z ->
  train_model' model optimizer LR w = (Ret (m, best_epoch), w') ->
  exists cks,
    saved_of w' = saved_of w ++ cks /\
    Z.of_nat (List.length cks) = Z.min num_epochs (best_epoch + 3).
Proof.
  intros Hn H. apply train_model_inv in H.
  destruct H as (st & w1 & w2 & ck & E1 & E2 & E3 & _ & _ & ->).
  rewrite py_range_epochs in E2.
  pose (J := fun (e : Z) (st1 : TrainState) (w0 : World) =>
               exists cks,
                 saved_of w0 = saved_of w ++ cks /\
                 Z.of_nat (List.length cks) = (e - 1)%Z /\
                 (st_best_epoch st1 < e)%Z /\
                 (e - 1 - st_best_epoch st1 < 3)%Z).
  assert (forall e st1 w0 st2 stop w3,
             J e st1 w0 -> epoch_body' e st1 w0 = (Ret (st2, stop), w3) ->
             exists cks,
               saved_of w3 = saved_of w ++ cks /\
               Z.of_nat (List.length cks) = e /\
               (st_best_epoch st2 = e \/ st_best_epoch st2 = st_best_epoch st1) /\
               stop = (e - st_best_epoch st2 >=? 3)%Z) as Hbody.
  { intros e st1 w0 st2 stop w3 (cks & Hs & Hl & _) E.
    destruct (epoch_body_spec _ _ _ _ _ _ E) as (_ & _ & _ & Hbe & Hstop & metric & g & S).
    cbv zeta in Hbe. eexists. split; [rewrite S, Hs, <- app_assoc; reflexivity |].
    split; [rewrite length_app; cbn [List.length]; lia |].
    split; [| exact Hstop].
    rewrite Hbe. destruct (PrimFloat.ltb _ _); [now left | now right]. }
  assert (saved_of w' = saved_of w2) as Hw' by exact (keeps_saved_say _ _ _ _ E3).
  destruct (epochs_loop_cases J) with
    (n := Z.to_nat num_epochs) (a := 1%Z)
    (st := initial_state model optimizer LR) (st' := st) (w := w1) (w' := w2)
    as [(cks & Hs & Hl & Hb1 & Hb2) | (e & st0 & w0 & He & HJ & Ee)].
  - intros e st1 w0 st2 w3 HJ E.
    destruct (Hbody _ _ _ _ _ _ HJ E) as (cks & Hs & Hl & Hbe & Hstop).
    destruct HJ as (_ & _ & _ & Hlt & _).
    exists cks. split; [exact Hs |]. split; [lia |].
    symmetry in Hstop. rewrite Z.geb_leb in Hstop. apply Z.leb_gt in Hstop. lia.
  - exists []. rewrite app_nil_r. split; [exact (keeps_saved_prologue _ _ _ E1) |].
    cbn. lia.
  - exact E2.
  - exists cks. rewrite Hw'. split; [exact Hs |]. lia.
  - destruct (Hbody _ _ _ _ _ _ HJ Ee) as (cks & Hs & Hl & Hbe & Hstop).
    destruct HJ as (_ & _ & _ & Hlt & Hclose).
    exists cks. rewrite Hw'. split; [exact Hs |].
    symmetry in Hstop. rewrite Z.geb_leb in Hstop. apply Z.leb_le in Hstop. lia.
Qed.

(** ** The weights of an epoch *)

(** What the training pass of an epoch returns: one step per batch of the
    shuffled loader, from the weights and the optimiser it is given. *)
Lemma train_pass_inv (epoch : Z) (st st1 : TrainState) (batch_size : option nat)
    (w w1 : World) :
  train_pass' epoch st w = (Ret (st1, batch_size), w1) ->
  let b := fold_left (train_batch criterion) (fst (dataloaders (rng w)))
             {| bs_optimizer := st_optimizer st; bs_params := params (st_model st);
                bs_running_loss := 0%float; bs_batch_size := None |} in
  let loss := PrimFloat.div (bs_running_loss b) (float_of_nat dataset_sizes) in
  st_model st1 = {| params := bs_params b; out_features := out_features (st_model st);
                    training := true |} /\
  st_optimizer st1 = bs_optimizer b /\
  st_last_train_loss st1 = loss /\
  st_best_loss st1
  = (if PrimFloat.ltb loss (st_best_loss st) then loss else st_best_loss st) /\
  batch_size = bs_batch_size b.
Proof.
  unfold train_pass. intro H.
  apply bind_inv in H. destruct H as ([] & wa & Ea & H).
  apply bind_inv in H. destruct H as ([] & wb & Eb & H).
  apply bind_inv in H. destruct H as ([] & wc & Ec & H).
  apply bind_inv in H. destruct H as ([] & wd & Ed & H).
  apply bind_inv in H. destruct H as ([] & we & Ee & H).
  apply bind_inv in H. destruct H as (batches & wf & Ef & H).
  assert (rng we = rng w) as Ge.
  { rewrite (preserves_run _ _ _ _ _ (rng_print _) Ee),
      (preserves_run _ _ _ _ _ (rng_log _) Ed),
      (preserves_run _ _ _ _ _ (rng_log _) Ec),
      (preserves_run _ _ _ _ _ (rng_print _) Eb).
    exact (preserves_run _ _ _ _ _ (rng_print _) Ea). }
  unfold next_batches in Ef. rewrite Ge in Ef.
  destruct (dataloaders (rng w)) as [bs g]. injection Ef as <- _.
  cbn [fst].
  apply bind_inv in H. destruct H as (epoch_loss & wg & Eg & H).
  destruct (Nat.eqb dataset_sizes 0); [discriminate |].
  injection Eg as <- _.
  apply bind_inv in H. destruct H as ([] & wh & _ & H).
  apply bind_inv in H. destruct H as ([] & wi & _ & H).
  apply bind_inv in H. destruct H as ([] & wj & _ & H).
  injection H as <- <- _. cbn. now repeat split.
Qed.

(** X23: the weights of an epoch.  In an epoch that completes, the model
    that is evaluated, saved and carried to the next epoch has the weights
    that one optimisation step per batch of the epoch's shuffled loader
    leaves, from the weights and the optimiser the epoch starts with; the
    evaluation, the decay of the learning rate and the tracking of the best
    score change neither the weights nor the width of the network.  The
    training loss of the epoch is the running loss of these steps divided by
    [dataset_sizes['train']], and without a decay the optimiser carried on is
    the one the steps leave. *)
Theorem epoch_keeps_trained_weights (epoch : Z) (st st' : TrainState) (stop : bool)
    (w w' : World) :
  epoch_body' epoch st w = (Ret (st', stop), w') ->
  let b := fold_left (train_batch criterion) (fst (dataloaders (rng w)))
             {| bs_optimizer := st_optimizer st; bs_params := params (st_model st);
                bs_running_loss := 0%float; bs_batch_size := None |} in
  params (st_model st') = bs_params b /\
  out_features (st_model st') = out_features (st_model st) /\
  training (st_model st') = false /\
  st_last_train_loss st'
  = PrimFloat.div (bs_running_loss b) (float_of_nat dataset_sizes) /\
  st_best_loss st'
  = (if PrimFloat.ltb (st_last_train_loss st') (st_best_loss st)
     then st_last_train_loss st' else st_best_loss st) /\
  (PrimFloat.ltb (st_last_val_acc st') (st_best_val_acc st) = false ->
   st_optimizer st' = bs_optimizer b).
Proof.
  intros H b. destruct (epoch_body_steps _ _ _ _ _ _ H)
    as (st1 & batch_size & w1 & model1 & metric & w2 & v & w3 & st2 & w4 & w5
        & E1 & E2 & E3 & E4 & -> & _).
  destruct (train_pass_inv _ _ _ _ _ _ E1) as (Hm & Ho & Hl & Hb & _).
  destruct (train_pass_keeps_best _ _ _ _ _ E1) as (_ & Hv & _). cbn [fst] in Hv.
  apply evaluate_inv in E2. destruct E2 as (preds & E2).
  apply make_pred_returns_model in E2. cbn [fst] in E2. subst model1.
  destruct (decay_learning_rate_spec _ _ _ _ E4)
    as (_ & Hopt & Hmodel & Hbl & _ & _ & Hloss & Hval).
  cbv zeta in Hopt. cbn [st_model st_optimizer st_best_loss st_last_train_loss
                         st_last_val_acc st_best_val_acc] in *.
  destruct (track_best_spec epoch st2) as (_ & _ & _ & -> & -> & -> & ->).
  assert (st_best_loss (track_best epoch st2) = st_best_loss st2) as ->
    by (unfold track_best;
        destruct (PrimFloat.ltb (st_best_val_acc st2) (st_last_val_acc st2));
        reflexivity).
  rewrite Hmodel, Hloss, Hbl, Hval, Hl, Hm. cbn [model_train params out_features training].
  fold b in Hb |- *.
  split; [reflexivity |]. split; [reflexivity |]. split; [reflexivity |].
  split; [reflexivity |]. split; [exact Hb |].
  intro Hnd. rewrite Hopt, Hv, Hnd. exact Ho.
Qed.

(** X24: a validation score that is not a number.  An epoch that completes
    with the score NaN (the mean of no defined AUC) neither decays the
    learning rate nor becomes the best epoch: both comparisons with the best
    score are false, and the epoch counts as one without improvement. *)
Theorem undefined_validation_score_is_inert (epoch : Z) (st st' : TrainState)
    (stop : bool) (w w' : World) :
  epoch_body' epoch st w = (Ret (st', stop), w') ->
  np_isnan (st_last_val_acc st') = true ->
  st_LR st' = st_LR st /\
  st_best_val_acc st' = st_best_val_acc st /\
  st_best_epoch st' = st_best_epoch st /\
  stop = (epoch - st_best_epoch st >=? 3)%Z.
Proof.
  intros H Hnan.
  destruct (epoch_body_spec _ _ _ _ _ _ H) as (HLR & _ & Hb & Hbe & Hstop & _).
  cbv zeta in HLR, Hb, Hbe.
  destruct (nan_not_ltb _ (st_best_val_acc st) Hnan) as [N1 N2].
  rewrite N1 in HLR. rewrite N2 in Hb, Hbe.
  rewrite Hbe in Hstop. now repeat split.
Qed.

End TrainFacts.



(** ** The driver *)

Section DriverFacts.

Variables PATH_TO_IMAGES PATH_TO_CSV : string.
Variables LR WEIGHT_DECAY : float.
Variable orientation : string.
Variable cross_val_on_train : bool.
Variable NUM_IMAGES : nat.

Lemma check_configuration_invalid (w : World) :
  str_in orientation ["all"; "ap"; "pa"; "lat"; "trainer"]%string = false ->
  check_configuration orientation w
  = (Ret false, add_stdout [MsgInvalidOrientation] w).
Proof. intro H. unfold check_configuration. rewrite H. reflexivity. Qed.

Lemma check_configuration_present (w : World) (r : Results) :
  str_in orientation ["all"; "ap"; "pa"; "lat"; "trainer"]%string = true ->
  results w = Some r ->
  check_configuration orientation w = (Ret false, add_stdout [MsgRemoveResults] w).
Proof.
  intros H Hr. unfold check_configuration. rewrite H. cbn [negb].
  unfold bind at 1, try_except, bind at 1, os_path_exists_results.
  rewrite Hr. reflexivity.
Qed.

Lemma check_configuration_fresh (w : World) :
  str_in orientation ["all"; "ap"; "pa"; "lat"; "trainer"]%string = true ->
  results w = None ->
  check_configuration orientation w = (Ret true, set_results (Some empty_results) w).
Proof.
  intros H Hr. unfold check_configuration. rewrite H. cbn [negb].
  unfold bind at 1, try_except, bind at 1, os_path_exists_results.
  rewrite Hr. unfold bind at 1, rmtree_results. rewrite Hr. cbn [ret].
  unfold bind, os_makedirs_results. rewrite Hr. reflexivity.
Qed.

Lemma prepare_data_fresh (w : World) :
  results w = None ->
  prepare_data PATH_TO_IMAGES PATH_TO_CSV LR WEIGHT_DECAY orientation
    cross_val_on_train NUM_IMAGES (set_results (Some empty_results) w)
  = (Ret ({| tr_val := val_transform; tr_train := train_transform orientation |},
          CXPDataset (train_dataset_args PATH_TO_IMAGES PATH_TO_CSV orientation
                        cross_val_on_train NUM_IMAGES),
          CXPDataset (val_dataset_args PATH_TO_IMAGES PATH_TO_CSV orientation
                        cross_val_on_train NUM_IMAGES)),
     world_after_setup PATH_TO_IMAGES PATH_TO_CSV LR WEIGHT_DECAY orientation
       cross_val_on_train NUM_IMAGES w).
Proof.
  intro Hr. destruct w as [res out files g cl]. cbn in Hr. subst res.
  unfold world_after_setup, train_dataset_args, val_dataset_args.
  destruct cross_val_on_train; cbn; rewrite <- !app_assoc; reflexivity.
Qed.


(** C7 (as amended): an invalid orientation, or a [results/] that is there,
    makes [train_cnn] print a line and return at once: nothing is built and
    [results/] is not touched.  Without a GPU, [train_cnn] raises
    ["Error, requires GPU"] before it builds or loads a network and before
    the first epoch, but after it has created [results/], written the first
    lines of the log and built the two data sets and their loaders. *)
Theorem configuration_errors (PATH_TO_CHECKPOINT : option path) (w : World) :
  (str_in orientation ["all"; "ap"; "pa"; "lat"; "trainer"]%string = false ->
   train_cnn PATH_TO_IMAGES PATH_TO_CSV LR WEIGHT_DECAY orientation
     cross_val_on_train NUM_IMAGES PATH_TO_CHECKPOINT w
   = (Ret tt, add_stdout [MsgInvalidOrientation] w)) /\
  (str_in orientation ["all"; "ap"; "pa"; "lat"; "trainer"]%string = true ->
   results w <> None ->
   train_cnn PATH_TO_IMAGES PATH_TO_CSV LR WEIGHT_DECAY orientation
     cross_val_on_train NUM_IMAGES PATH_TO_CHECKPOINT w
   = (Ret tt, add_stdout [MsgRemoveResults] w)) /\
  (str_in orientation ["all"; "ap"; "pa"; "lat"; "trainer"]%string = true ->
   results w = None ->
   use_gpu = false ->
   train_cnn PATH_TO_IMAGES PATH_TO_CSV LR WEIGHT_DECAY orientation
     cross_val_on_train NUM_IMAGES PATH_TO_CHECKPOINT w
   = (Raise (ValueError "Error, requires GPU"),
      world_after_setup PATH_TO_IMAGES PATH_TO_CSV LR WEIGHT_DECAY orientation
        cross_val_on_train NUM_IMAGES w)).
Proof.
  split; [| split].
  - intro H. unfold train_cnn.
    now rewrite (bind_ret _ _ _ _ _ (check_configuration_invalid w H)).
  - intros H Hr. destruct (results w) as [r|] eqn:E; [| now elim Hr].
    unfold train_cnn.
    now rewrite (bind_ret _ _ _ _ _ (check_configuration_present w r H E)).
  - intros H Hr Hgpu. unfold train_cnn.
    rewrite (bind_ret _ _ _ _ _ (check_configuration_fresh w H Hr)). cbn [negb].
    rewrite (bind_ret _ _ _ _ _ (prepare_data_fresh w Hr)).
    rewrite Hgpu. reflexivity.
Qed.

(** C8: when [train_cnn] is given the path of a checkpoint, the model it
    trains is the one stored in that file, no network is built, and the
    optimiser is a new Adam over that model with the learning rate and the
    weight decay of the call, betas (0.9, 0.999) and eps 1e-08; the call of
    [train_model] gets that same learning rate, and nothing else of the
    checkpoint is read. *)
Theorem resume_uses_stored_model_and_new_optimizer
    (name : string) (state : CheckpointState) (w : World) :
  str_in orientation ["all"; "ap"; "pa"; "lat"; "trainer"]%string = true ->
  results w = None ->
  use_gpu = true ->
  find_file name (user_files w) = Some state ->
  let criterion := if negb (String.eqb orientation "trainer")
                   then BCELoss else CrossEntropyLoss in
  let train := CXPDataset (train_dataset_args PATH_TO_IMAGES PATH_TO_CSV orientation
                             cross_val_on_train NUM_IMAGES) in
  let val := CXPDataset (val_dataset_args PATH_TO_IMAGES PATH_TO_CSV orientation
                           cross_val_on_train NUM_IMAGES) in
  train_cnn PATH_TO_IMAGES PATH_TO_CSV LR WEIGHT_DECAY orientation
    cross_val_on_train NUM_IMAGES (Some (UserPath name)) w
  = (train_model criterion NUM_EPOCHS (shuffled_loader train BATCH_SIZE) (len train)
       WEIGHT_DECAY val
       {| tr_val := val_transform; tr_train := train_transform orientation |}
       PATH_TO_IMAGES PATH_TO_CSV cross_val_on_train
       (ck_model state)
       (Adam (ck_model state) LR (0.9%float, 0.999%float) 1e-08%float WEIGHT_DECAY)
       LR ;;;
     print MsgModelTrainingComplete)
      (add_stdout [MsgCriterion criterion; MsgTrainingStart]
         (world_after_setup PATH_TO_IMAGES PATH_TO_CSV LR WEIGHT_DECAY orientation
            cross_val_on_train NUM_IMAGES w)).
Proof.
  intros H Hr Hgpu Hfile. cbv zeta. unfold train_cnn.
  rewrite (bind_ret _ _ _ _ _ (check_configuration_fresh w H Hr)). cbn [negb].
  rewrite (bind_ret _ _ _ _ _ (prepare_data_fresh w Hr)).
  rewrite Hgpu. cbn [negb]. unfold bind at 1. cbn [ret].
  assert (obtain_model orientation (Some (UserPath name))
            (world_after_setup PATH_TO_IMAGES PATH_TO_CSV LR WEIGHT_DECAY orientation
               cross_val_on_train NUM_IMAGES w)
          = (Ret (ck_model state),
             world_after_setup PATH_TO_IMAGES PATH_TO_CSV LR WEIGHT_DECAY orientation
               cross_val_on_train NUM_IMAGES w)) as Emodel.
  { unfold obtain_model, bind, torch_load. cbn [user_files world_after_setup].
    now rewrite Hfile. }
  rewrite (bind_ret _ _ _ _ _ Emodel).
  unfold bind at 1, print at 1. unfold bind at 1, print at 1.
  unfold add_stdout. cbn [results stdout user_files rng calls world_after_setup].
  rewrite <- !app_assoc. reflexivity.
Qed.

(** X21: without a checkpoint, a run that passes the checks trains the
    pretrained DenseNet-121 with a new classifier, in training mode: five
    outputs with a sigmoid and the binary cross-entropy criterion or, for the
    orientation ['trainer'], three outputs with a softmax and the
    cross-entropy criterion.  The optimiser is Adam over that model with the
    learning rate and the weight decay of the call. *)
Theorem new_network_matches_orientation (w : World) :
  str_in orientation ["all"; "ap"; "pa"; "lat"; "trainer"]%string = true ->
  results w = None ->
  use_gpu = true ->
  let trainer := String.eqb orientation "trainer" in
  let n := if trainer then 3 else 5 in
  let activation := if trainer then Softmax else Sigmoid in
  let criterion := if trainer then CrossEntropyLoss else BCELoss in
  let train := CXPDataset (train_dataset_args PATH_TO_IMAGES PATH_TO_CSV orientation
                             cross_val_on_train NUM_IMAGES) in
  let val := CXPDataset (val_dataset_args PATH_TO_IMAGES PATH_TO_CSV orientation
                           cross_val_on_train NUM_IMAGES) in
  let head := new_classifier densenet121 n activation (rng w) in
  let model := {| params := fst head; out_features := n; training := true |} in
  train_cnn PATH_TO_IMAGES PATH_TO_CSV LR WEIGHT_DECAY orientation
    cross_val_on_train NUM_IMAGES None w
  = (train_model criterion NUM_EPOCHS (shuffled_loader train BATCH_SIZE) (len train)
       WEIGHT_DECAY val
       {| tr_val := val_transform; tr_train := train_transform orientation |}
       PATH_TO_IMAGES PATH_TO_CSV cross_val_on_train
       model (Adam model LR (0.9%float, 0.999%float) 1e-08%float WEIGHT_DECAY) LR ;;;
     print MsgModelTrainingComplete)
      (add_stdout [MsgCriterion criterion; MsgTrainingStart]
         (set_rng (snd head)
            (add_calls [BuildDensenet121]
               (world_after_setup PATH_TO_IMAGES PATH_TO_CSV LR WEIGHT_DECAY orientation
                  cross_val_on_train NUM_IMAGES w)))).
Proof.
  intros H Hr Hgpu trainer n activation criterion train val head model.
  unfold train_cnn.
  rewrite (bind_ret _ _ _ _ _ (check_configuration_fresh w H Hr)). cbn [negb].
  rewrite (bind_ret _ _ _ _ _ (prepare_data_fresh w Hr)).
  rewrite Hgpu. cbn [negb]. unfold bind at 1. cbn [ret].
  assert (obtain_model orientation None
            (world_after_setup PATH_TO_IMAGES PATH_TO_CSV LR WEIGHT_DECAY orientation
               cross_val_on_train NUM_IMAGES w)
          = (Ret model,
             set_rng (snd head)
               (add_calls [BuildDensenet121]
                  (world_after_setup PATH_TO_IMAGES PATH_TO_CSV LR WEIGHT_DECAY
                     orientation cross_val_on_train NUM_IMAGES w)))) as Emodel.
  { unfold obtain_model, bind, record_call. subst model head n activation trainer.
    cbn [rng world_after_setup]. unfold N_LABELS, N_ORIENTS.
    destruct (String.eqb orientation "trainer"); cbn [negb];
      destruct (new_classifier _ _ _ _) as [weights g]; reflexivity. }
  rewrite (bind_ret _ _ _ _ _ Emodel).
  assert ((if negb (String.eqb orientation "trainer") then BCELoss else CrossEntropyLoss)
          = criterion) as ->
    by (subst criterion trainer; now destruct (String.eqb orientation "trainer")).
  unfold bind at 1, print at 1. unfold bind at 1, print at 1.
  unfold add_stdout, set_rng, add_calls.
  cbn [results stdout user_files rng calls world_after_setup].
  rewrite <- !app_assoc. reflexivity.
Qed.

End DriverFacts.

(** ** Checkpoints *)

(** X10: [checkpoint] needs the directory [results/]: without it the call
    raises and changes nothing.  With it, the file of the epoch holds the
    arguments of the call and the state of the random generator, whatever a
    file of that name held before: loading it gives them back; the files of
    the other epochs load as before, and nothing is printed. *)
Theorem checkpoint_round_trip (model : Model) (last_train_loss best_val_acc : float)
    (metric : DataFrame) (epoch best_epoch : Z) (LR WD : float) (w : World) :
  (results w = None ->
   checkpoint model last_train_loss best_val_acc metric epoch best_epoch LR WD w
   = (Raise FileNotFoundError, w)) /\
  (results w <> None ->
   exists w',
     checkpoint model last_train_loss best_val_acc metric epoch best_epoch LR WD w
     = (Ret tt, w') /\
     torch_load (CheckpointFile epoch) w'
     = (Ret {| ck_model := model; ck_last_train_loss := last_train_loss;
               ck_best_val_acc := best_val_acc; ck_metric := metric;
               ck_epoch := epoch; ck_best_epoch := best_epoch;
               ck_rng_state := rng w; ck_LR := LR; ck_WD := WD |}, w') /\
     (forall e, e <> epoch ->
        fst (torch_load (CheckpointFile e) w') = fst (torch_load (CheckpointFile e) w)) /\
     stdout w' = stdout w /\ rng w' = rng w /\ user_files w' = user_files w).
Proof.
  unfold checkpoint, get_rng_state, torch_save, in_results, bind. cbn [results].
  split; intro Hr.
  - now rewrite Hr.
  - destruct (results w) as [r |] eqn:E; [| now elim Hr].
    eexists. split; [reflexivity |].
    unfold torch_load. cbn [results set_results saved].
    split; [| split; [| repeat split]].
    + rewrite last_saved_app. cbn [last_saved]. now rewrite Z.eqb_refl.
    + intros e He. rewrite E, last_saved_app. cbn [last_saved].
      apply Z.eqb_neq in He. rewrite Z.eqb_sym, He.
      now destruct (last_saved e (saved r)).
Qed.

(** ** The dataset argument of [train_model] *)

Lemma bind_ext {A B : Type} (c : M A) (k1 k2 : A -> M B) (w : World) :
  (forall a w1, k1 a w1 = k2 a w1) -> bind c k1 w = bind c k2 w.
Proof. intro H. unfold bind. destruct (c w) as [[a | e] w1]; [apply H | reflexivity]. Qed.

Lemma epochs_loop_ignores_dataset (num_epochs : Z) (dataloaders : Rng -> list Batch * Rng)
    (dataset_sizes : nat) (weight_decay : float) (dataset1 dataset2 : Dataset)
    (data_transforms : Transforms) (PATH_TO_IMAGES PATH_TO_CSV : string) (es : list Z) :
  forall (st : TrainState) (w : World),
    epochs_loop BCELoss num_epochs dataloaders dataset_sizes weight_decay dataset1
      data_transforms PATH_TO_IMAGES PATH_TO_CSV false es st w
    = epochs_loop BCELoss num_epochs dataloaders dataset_sizes weight_decay dataset2
        data_transforms PATH_TO_IMAGES PATH_TO_CSV false es st w.
Proof.
  induction es as [|e es IH]; intros st w; cbn [epochs_loop]; [reflexivity |].
  change (epoch_body BCELoss num_epochs dataloaders dataset_sizes weight_decay dataset1
            data_transforms PATH_TO_IMAGES PATH_TO_CSV false e)
    with (epoch_body BCELoss num_epochs dataloaders dataset_sizes weight_decay dataset2
            data_transforms PATH_TO_IMAGES PATH_TO_CSV false e).
  unfold bind.
  destruct (epoch_body BCELoss num_epochs dataloaders dataset_sizes weight_decay dataset2
              data_transforms PATH_TO_IMAGES PATH_TO_CSV false e st w)
    as [[[st1 stop] | ex] w1]; [| reflexivity].
  destruct stop; [reflexivity | apply IH].
Qed.

(** X22: with the binary cross-entropy criterion and [val_on_dataset] off,
    [train_model] does not use its [dataset] argument: the call does the same
    and returns the same with any other dataset in its place. *)
Theorem validation_dataset_is_ignored (num_epochs : Z)
    (dataloaders : Rng -> list Batch * Rng) (dataset_sizes : nat) (weight_decay : float)
    (dataset1 dataset2 : Dataset) (data_transforms : Transforms)
    (PATH_TO_IMAGES PATH_TO_CSV : string) (model : Model) (optimizer : Optimizer)
    (LR : float) (w : World) :
  train_model BCELoss num_epochs dataloaders dataset_sizes weight_decay dataset1
    data_transforms PATH_TO_IMAGES PATH_TO_CSV false model optimizer LR w
  = train_model BCELoss num_epochs dataloaders dataset_sizes weight_decay dataset2
      data_transforms PATH_TO_IMAGES PATH_TO_CSV false model optimizer LR w.
Proof.
  unfold train_model. cbv zeta.
  apply bind_ext. intros [] w1. unfold bind at 1 5.
  now rewrite (epochs_loop_ignores_dataset num_epochs dataloaders dataset_sizes
                 weight_decay dataset1 dataset2).
Qed.

End Facts.

(** C10: for every metric other than ['auc'] and ['f1'], on a well-formed
    dataset and with [results/] present, [make_pred_multilabel] prints the
    warning, runs the whole prediction pass (one record per sample), writes
    the prediction frame to [results/preds.csv], writes no metric table, and
    returns [None]; the outcome is the same whatever the two metric
    functions are, so none of them is consulted. *)
Theorem unknown_metric_returns_none {T : Types} {C : Collaborators T}
    (data_transforms : Transforms) (model : Model)
    (PATH_TO_IMAGES PATH_TO_CSV metric : string) (multiclass verbose : bool)
    (dataset : option Dataset) (w : World) (r : Results) :
  str_in metric ["auc"; "f1"]%string = false ->
  results w = Some r ->
  dataset_ok multiclass
    (evaluated_dataset data_transforms PATH_TO_IMAGES PATH_TO_CSV dataset) model
  = true ->
  exists pred_df true_df,
    collect_rows BATCH_SIZE multiclass
      (evaluated_dataset data_transforms PATH_TO_IMAGES PATH_TO_CSV dataset) model
    = Ret (pred_df, true_df) /\
    List.length (rows pred_df)
    = len (evaluated_dataset data_transforms PATH_TO_IMAGES PATH_TO_CSV dataset) /\
    make_pred_multilabel data_transforms model PATH_TO_IMAGES PATH_TO_CSV metric
      multiclass dataset verbose w
    = (Ret (model_train model false, None),
       world_after_unknown_metric metric
         (len (evaluated_dataset data_transforms PATH_TO_IMAGES PATH_TO_CSV dataset))
         (evaluated_dataset_calls data_transforms PATH_TO_IMAGES PATH_TO_CSV dataset)
         pred_df r w) /\
    forall roc f1 : list Z -> list float -> outcome float,
      @make_pred_multilabel T (with_metrics C roc f1) data_transforms model
        PATH_TO_IMAGES PATH_TO_CSV metric multiclass dataset verbose w
      = (Ret (model_train model false, None),
         world_after_unknown_metric metric
           (len (evaluated_dataset data_transforms PATH_TO_IMAGES PATH_TO_CSV dataset))
           (evaluated_dataset_calls data_transforms PATH_TO_IMAGES PATH_TO_CSV dataset)
           pred_df r w).
Proof.
  intros Hm Hr Hok.
  destruct (make_pred_unknown_metric data_transforms model PATH_TO_IMAGES PATH_TO_CSV
              metric multiclass verbose dataset w r Hm Hr Hok)
    as (pred_df & true_df & E & L & Hrun).
  exists pred_df, true_df. repeat split; try assumption.
  intros roc f1.
  destruct (@make_pred_unknown_metric T (with_metrics C roc f1) data_transforms model
              PATH_TO_IMAGES PATH_TO_CSV metric multiclass verbose dataset w r
              Hm Hr Hok)
    as (pred_df' & true_df' & E' & _ & Hrun').
  change (collect_rows BATCH_SIZE multiclass
            (evaluated_dataset data_transforms PATH_TO_IMAGES PATH_TO_CSV dataset)
            model = Ret (pred_df', true_df')) in E'.
  rewrite E in E'. injection E' as <- <-. exact Hrun'.
Qed.

(** * The program on the instance *)

#[local] Existing Instance Demo.types.

(** Seventeen samples in batches of sixteen: seventeen aligned records, the
    last one under the last identifier of the dataset. *)
Lemma evaluation_records_aligned_witness :
  0 < 16 /\
  @dataset_ok _ (Demo.collab [] Demo.dataset17 true) false
    Demo.dataset17 Demo.model0 = true /\
  exists pred_df true_df,
    @collect_rows _ (Demo.collab [] Demo.dataset17 true) 16 false
      Demo.dataset17 Demo.model0 = Ret (pred_df, true_df) /\
    List.length (rows pred_df) = 17 /\
    List.length (rows true_df) = 17 /\
    last (df_index Demo.dataset17) 0 = 116 /\
    record_id pred_df 16 = Some (CIdent 116) /\
    record_id true_df 16 = Some (CIdent 116).
Proof.
  assert (0 < 16) as H0 by lia.
  assert (@dataset_ok _ (Demo.collab [] Demo.dataset17 true) false
            Demo.dataset17 Demo.model0 = true) as H1 by reflexivity.
  split; [exact H0 |]. split; [exact H1 |].
  destruct (proj1 (@evaluation_records_aligned _ (Demo.collab [] Demo.dataset17 true))
              16 false Demo.dataset17 Demo.model0 H0 H1)
    as (pred_df & true_df & E & L1 & L2 & Hid).
  exists pred_df, true_df.
  destruct (Hid 16) as (id & N & I1 & I2); [simpl; lia |].
  simpl in N. injection N as <-.
  repeat split; assumption || reflexivity.
Defined.

(** The metric ['accuracy'] on the eleven samples: [None] is returned, the
    eleven predictions are written, no metric table is. *)
Lemma unknown_metric_returns_none_witness :
  str_in "accuracy" ["auc"; "f1"]%string = false /\
  results Demo.world0 = Some empty_results /\
  @dataset_ok _ (Demo.collab [5] Demo.dataset true) false
    (@evaluated_dataset _ (Demo.collab [5] Demo.dataset true) Demo.transforms "" ""
       (Some Demo.dataset)) Demo.model0 = true /\
  exists (pred_df : DataFrame) (w' : World) (r' : Results),
    @make_pred_multilabel _ (Demo.collab [5] Demo.dataset true) Demo.transforms
      Demo.model0 "" "" "accuracy" false (Some Demo.dataset) false Demo.world0
    = (Ret (model_train Demo.model0 false, None), w') /\
    results w' = Some r' /\
    preds_csv r' = Some pred_df /\ aucs_csv r' = None /\ f1_csv r' = None /\
    List.length (rows pred_df) = 11 /\
    stdout w' = [MsgInvalidMetric "accuracy"; MsgEvaluating 11; MsgModelTrain false].
Proof.
  assert (str_in "accuracy" ["auc"; "f1"]%string = false) as H1 by reflexivity.
  assert (results Demo.world0 = Some empty_results) as H2 by reflexivity.
  assert (@dataset_ok _ (Demo.collab [5] Demo.dataset true) false
            (@evaluated_dataset _ (Demo.collab [5] Demo.dataset true)
               Demo.transforms "" "" (Some Demo.dataset)) Demo.model0 = true)
    as H3 by reflexivity.
  repeat (split; [assumption |]).
  destruct (@unknown_metric_returns_none _ (Demo.collab [5] Demo.dataset true)
              Demo.transforms Demo.model0 "" "" "accuracy" false false
              (Some Demo.dataset) Demo.world0 empty_results H1 H2 H3)
    as (pred_df & true_df & E & L & Hrun & _).
  exists pred_df. eexists. eexists. split; [exact Hrun |].
  repeat split; try reflexivity. exact L.
Defined.

(** Four epochs on the instance, with the scores 0.5, 0.5, 0.7 and 0.6. *)
Lemma decay_and_best_by_strict_comparison_witness :
  (st_best_val_acc (Demo.state1 0) = 0%float /\
   Demo.body Demo.scores1 Demo.dataset 4 1 (Demo.state1 0) (Demo.world1 0)
   = (Ret (Demo.state1 1, false), Demo.world1 1) /\
   st_last_val_acc (Demo.state1 1) = 0.5%float /\
   Demo.body Demo.scores1 Demo.dataset 4 2 (Demo.state1 1) (Demo.world1 1)
   = (Ret (Demo.state1 2, false), Demo.world1 2) /\
   st_last_val_acc (Demo.state1 2) = 0.5%float /\
   Demo.body Demo.scores1 Demo.dataset 4 3 (Demo.state1 2) (Demo.world1 2)
   = (Ret (Demo.state1 3, false), Demo.world1 3) /\
   st_last_val_acc (Demo.state1 3) = 0.7%float /\
   Demo.body Demo.scores1 Demo.dataset 4 4 (Demo.state1 3) (Demo.world1 3)
   = (Ret (Demo.state1 4, false), Demo.world1 4) /\
   st_last_val_acc (Demo.state1 4) = 0.6%float) /\
  (st_best_epoch (Demo.state1 1) = 1%Z /\
   st_best_val_acc (Demo.state1 1) = 0.5%float /\
   st_LR (Demo.state1 1) = st_LR (Demo.state1 0)) /\
  (st_best_epoch (Demo.state1 2) = 1%Z /\
   st_best_val_acc (Demo.state1 2) = 0.5%float /\
   st_LR (Demo.state1 2) = st_LR (Demo.state1 0)) /\
  (st_best_epoch (Demo.state1 3) = 3%Z /\
   st_best_val_acc (Demo.state1 3) = 0.7%float /\
   st_LR (Demo.state1 3) = st_LR (Demo.state1 0)) /\
  (st_best_epoch (Demo.state1 4) = 3%Z /\
   st_best_val_acc (Demo.state1 4) = 0.7%float /\
   st_LR (Demo.state1 4) = PrimFloat.div (st_LR (Demo.state1 0)) 10%float).
Proof.
  assert (st_best_val_acc (Demo.state1 0) = 0%float) as B0
    by (vm_compute; reflexivity).
  assert (Demo.body Demo.scores1 Demo.dataset 4 1 (Demo.state1 0) (Demo.world1 0)
          = (Ret (Demo.state1 1, false), Demo.world1 1)) as E1
    by (vm_compute; reflexivity).
  assert (st_last_val_acc (Demo.state1 1) = 0.5%float) as V1
    by (vm_compute; reflexivity).
  assert (Demo.body Demo.scores1 Demo.dataset 4 2 (Demo.state1 1) (Demo.world1 1)
          = (Ret (Demo.state1 2, false), Demo.world1 2)) as E2
    by (vm_compute; reflexivity).
  assert (st_last_val_acc (Demo.state1 2) = 0.5%float) as V2
    by (vm_compute; reflexivity).
  assert (Demo.body Demo.scores1 Demo.dataset 4 3 (Demo.state1 2) (Demo.world1 2)
          = (Ret (Demo.state1 3, false), Demo.world1 3)) as E3
    by (vm_compute; reflexivity).
  assert (st_last_val_acc (Demo.state1 3) = 0.7%float) as V3
    by (vm_compute; reflexivity).
  assert (Demo.body Demo.scores1 Demo.dataset 4 4 (Demo.state1 3) (Demo.world1 3)
          = (Ret (Demo.state1 4, false), Demo.world1 4)) as E4
    by (vm_compute; reflexivity).
  assert (st_last_val_acc (Demo.state1 4) = 0.6%float) as V4
    by (vm_compute; reflexivity).
  split.
  - exact (conj B0 (conj E1 (conj V1 (conj E2 (conj V2 (conj E3 (conj V3
             (conj E4 V4)))))))).
  - exact (proj2 (@decay_and_best_by_strict_comparison _
                    (Demo.collab Demo.scores1 Demo.dataset true) BCELoss 4
                    (fun g => ([16], S g)) 16 0%float Demo.dataset Demo.transforms
                    "" "" true)
             _ _ _ _ _ _ _ _ _ _ _ _ _ _ B0 E1 V1 E2 V2 E3 V3 E4 V4).
Defined.

(** The best score in epoch 2 and the score 0.6 in the epochs 3, 4 and 5:
    of the hundred epochs allowed, the loop runs five. *)
Lemma early_stopping_after_three_epochs_witness :
  (st_best_epoch (Demo.state2 2) = 2%Z /\
   Demo.body Demo.scores2 Demo.dataset 100 3 (Demo.state2 2) (Demo.world2 2)
   = (Ret (Demo.state2 3, false), Demo.world2 3) /\
   Demo.body Demo.scores2 Demo.dataset 100 4 (Demo.state2 3) (Demo.world2 3)
   = (Ret (Demo.state2 4, false), Demo.world2 4) /\
   Demo.body Demo.scores2 Demo.dataset 100 5 (Demo.state2 4) (Demo.world2 4)
   = (Ret (Demo.state2 5, true), Demo.world2 5) /\
   PrimFloat.ltb (st_best_val_acc (Demo.state2 2)) (st_last_val_acc (Demo.state2 3))
   = false /\
   PrimFloat.ltb (st_best_val_acc (Demo.state2 3)) (st_last_val_acc (Demo.state2 4))
   = false /\
   PrimFloat.ltb (st_best_val_acc (Demo.state2 4)) (st_last_val_acc (Demo.state2 5))
   = false /\
   (5 <= 100)%Z) /\
  st_best_epoch (Demo.state2 5) = 2%Z /\
  Demo.loop Demo.scores2 Demo.dataset 100 (py_range 3 (100 + 1))
    (Demo.state2 2) (Demo.world2 2)
  = (Ret (Demo.state2 5), Demo.world2 5).
Proof.
  assert (st_best_epoch (Demo.state2 2) = 2%Z) as B2 by (vm_compute; reflexivity).
  assert (Demo.body Demo.scores2 Demo.dataset 100 3 (Demo.state2 2) (Demo.world2 2)
          = (Ret (Demo.state2 3, false), Demo.world2 3)) as E3
    by (vm_compute; reflexivity).
  assert (Demo.body Demo.scores2 Demo.dataset 100 4 (Demo.state2 3) (Demo.world2 3)
          = (Ret (Demo.state2 4, false), Demo.world2 4)) as E4
    by (vm_compute; reflexivity).
  assert (Demo.body Demo.scores2 Demo.dataset 100 5 (Demo.state2 4) (Demo.world2 4)
          = (Ret (Demo.state2 5, true), Demo.world2 5)) as E5
    by (vm_compute; reflexivity).
  assert (PrimFloat.ltb (st_best_val_acc (Demo.state2 2))
            (st_last_val_acc (Demo.state2 3)) = false) as V3
    by (vm_compute; reflexivity).
  assert (PrimFloat.ltb (st_best_val_acc (Demo.state2 3))
            (st_last_val_acc (Demo.state2 4)) = false) as V4
    by (vm_compute; reflexivity).
  assert (PrimFloat.ltb (st_best_val_acc (Demo.state2 4))
            (st_last_val_acc (Demo.state2 5)) = false) as V5
    by (vm_compute; reflexivity).
  assert (5 <= 100)%Z as Hn by lia.
  destruct (proj1 (proj2 (proj2 (@early_stopping_after_three_epochs _
                      (Demo.collab Demo.scores2 Demo.dataset true) BCELoss 100
                      (fun g => ([16], S g)) 16 0%float Demo.dataset Demo.transforms
                      "" "" true))
                     (Demo.state2 2) (Demo.state2 3) (Demo.state2 4) (Demo.state2 5)
                     false false true
                     (Demo.world2 2) (Demo.world2 3) (Demo.world2 4) (Demo.world2 5)
                     B2 E3 E4 E5 V3) V4 V5)
    as (_ & _ & _ & B5 & L).
  exact (conj (conj B2 (conj E3 (conj E4 (conj E5 (conj V3 (conj V4 (conj V5 Hn)))))))
              (conj B5 (L Hn))).
Defined.

(** On the samples without a positive one the score of every epoch is NaN:
    the run of a hundred epochs stops after two and fails on
    [results/checkpoint_-1]. *)
Lemma no_positive_score_loads_missing_checkpoint_witness :
  ((2 <= 100)%Z /\
   last_saved (-1) (saved_of Demo.world0) = None /\
   prologue true Demo.world0 = (Ret tt, Demo.world_started) /\
   Demo.body [] Demo.dataset_negative 100 1
     (initial_state Demo.model0 Demo.optimizer0 0.001%float) Demo.world_started
   = (Ret (Demo.state3 1, false), Demo.world3 1) /\
   PrimFloat.ltb 0 (st_last_val_acc (Demo.state3 1)) = false /\
   Demo.body [] Demo.dataset_negative 100 2 (Demo.state3 1) (Demo.world3 1)
   = (Ret (Demo.state3 2, true), Demo.world3 2) /\
   PrimFloat.ltb 0 (st_last_val_acc (Demo.state3 2)) = false) /\
  np_isnan (st_last_val_acc (Demo.state3 1)) = true /\
  st_best_epoch (Demo.state3 2) = (-1)%Z /\
  exists w',
    Demo.train [] Demo.dataset_negative 100 Demo.model0 Demo.optimizer0 0.001%float
      Demo.world0
    = (Raise FileNotFoundError, w') /\
    saved_of w' = saved_of (Demo.world3 2).
Proof.
  assert (2 <= 100)%Z as Hn by lia.
  assert (last_saved (-1) (saved_of Demo.world0) = None) as H0
    by (vm_compute; reflexivity).
  assert (prologue true Demo.world0 = (Ret tt, Demo.world_started)) as E0
    by (vm_compute; reflexivity).
  assert (Demo.body [] Demo.dataset_negative 100 1
            (initial_state Demo.model0 Demo.optimizer0 0.001%float) Demo.world_started
          = (Ret (Demo.state3 1, false), Demo.world3 1)) as E1
    by (vm_compute; reflexivity).
  assert (PrimFloat.ltb 0 (st_last_val_acc (Demo.state3 1)) = false) as V1
    by (vm_compute; reflexivity).
  assert (Demo.body [] Demo.dataset_negative 100 2 (Demo.state3 1) (Demo.world3 1)
          = (Ret (Demo.state3 2, true), Demo.world3 2)) as E2
    by (vm_compute; reflexivity).
  assert (PrimFloat.ltb 0 (st_last_val_acc (Demo.state3 2)) = false) as V2
    by (vm_compute; reflexivity).
  assert (np_isnan (st_last_val_acc (Demo.state3 1)) = true) as N1
    by (vm_compute; reflexivity).
  destruct (@no_positive_score_loads_missing_checkpoint _
              (Demo.collab [] Demo.dataset_negative true) BCELoss 100
              (fun g => ([16], S g)) 16 0%float Demo.dataset_negative Demo.transforms
              "" "" true Demo.model0 Demo.optimizer0 0.001%float
              (Demo.state3 1) (Demo.state3 2) false true
              Demo.world0 Demo.world_started (Demo.world3 1) (Demo.world3 2)
              Hn H0 E0 E1 V1 E2 V2)
    as (_ & _ & B2 & _ & _ & _ & Hrun).
  exact (conj (conj Hn (conj H0 (conj E0 (conj E1 (conj V1 (conj E2 V2))))))
              (conj N1 (conj B2 Hrun))).
Defined.

(** Two findings, the second one with an undefined score: the validation
    score of the epoch is the score of the first one, 0.5, and not NaN. *)
Lemma validation_score_is_mean_of_defined_aucs_witness :
  Demo.body [5] Demo.dataset2 1 1 (Demo.state4 0) (Demo.world4 0)
  = (Ret (Demo.state4 1, false), Demo.world4 1) /\
  st_last_val_acc (Demo.state4 1) = 0.5%float /\
  option_map (table_scores "auc") (aucs_csv_of (Demo.world4 1))
  = Some [0.5%float; PrimFloat.nan] /\
  exists metric : DataFrame,
    score_table "auc" metric /\
    st_last_val_acc (Demo.state4 1)
    = @mean_of_defined _ (Demo.collab [5] Demo.dataset2 true) "auc" metric /\
    @mean_of_defined _ (Demo.collab [5] Demo.dataset2 true) "auc" metric = 0.5%float.
Proof.
  assert (Demo.body [5] Demo.dataset2 1 1 (Demo.state4 0) (Demo.world4 0)
          = (Ret (Demo.state4 1, false), Demo.world4 1)) as E1
    by (vm_compute; reflexivity).
  assert (st_last_val_acc (Demo.state4 1) = 0.5%float) as V1
    by (vm_compute; reflexivity).
  assert (option_map (table_scores "auc") (aucs_csv_of (Demo.world4 1))
          = Some [0.5%float; PrimFloat.nan]) as A1
    by (vm_compute; reflexivity).
  destruct (@validation_score_is_mean_of_defined_aucs _
              (Demo.collab [5] Demo.dataset2 true) BCELoss 1
              (fun g => ([16], S g)) 16 0%float Demo.dataset2 Demo.transforms
              "" "" true 1%Z (Demo.state4 0) (Demo.state4 1) false
              (Demo.world4 0) (Demo.world4 1) E1)
    as (st1 & batch_size & w1 & preds & metric & w2 & _ & _ & Ht & V & _).
  split; [exact E1 |]. split; [exact V1 |]. split; [exact A1 |].
  exists metric. split; [exact Ht |]. split; [exact V |].
  rewrite <- V. exact V1.
Defined.

(** C3: with the validation scores 0.7 and 0.6, each of the two epochs saves
    one checkpoint, under its own number; the checkpoint of epoch 2 holds 0.6
    under ['best_val_acc'], the score of that epoch, while the best score so
    far is 0.7 (from epoch 1, the best epoch it records). *)
Theorem checkpoint_holds_last_score_as_best :
  map (fun p => (fst p, ck_epoch (snd p), ck_best_epoch (snd p),
                 ck_best_val_acc (snd p)))
      (saved_of (Demo.world5 2))
  = [(1%Z, 1%Z, 1%Z, 0.7%float); (2%Z, 2%Z, 1%Z, 0.6%float)] /\
  st_best_val_acc (Demo.state5 2) = 0.7%float /\
  st_last_val_acc (Demo.state5 2) = 0.6%float.
Proof. vm_compute. repeat split; reflexivity. Qed.

(** C4: on the eleven samples with two findings, the second one without a
    positive sample, the metric ['auc'] records NaN for the second finding
    and returns the table, but the metric ['f1'], whose computation fails on
    the first finding, raises out of [make_pred_multilabel]: no table is
    returned and nothing is written. *)
Theorem f1_failure_aborts_aggregation :
  (exists preds metric w',
      @make_pred_multilabel _ (Demo.collab [5] Demo.dataset2 true) Demo.transforms
        Demo.model1 "" "" "auc" false (Some Demo.dataset2) false Demo.world0
      = (Ret (model_train Demo.model1 false, Some (preds, metric)), w') /\
      map (dict_get "label") (rows metric)
      = [Some (CStr "Cardiomegaly"); Some (CStr "Edema")] /\
      table_scores "auc" metric = [0.5%float; PrimFloat.nan]) /\
  exists w',
    @make_pred_multilabel _ (Demo.collab [5] Demo.dataset2 true) Demo.transforms
      Demo.model1 "" "" "f1" false (Some Demo.dataset2) false Demo.world0
    = (Raise (ValueError "mix of binary and continuous targets"), w') /\
    results w' = results Demo.world0.
Proof.
  split.
  - eexists. eexists. eexists. split; [vm_compute; reflexivity |].
    split; vm_compute; reflexivity.
  - eexists. split; vm_compute; reflexivity.
Qed.

(** C7, as the specification words it, fails: without a GPU the run ends on
    the error, and by then the two data sets are built and [results/] is
    there. *)
Lemma configuration_not_checked_first :
  ~ @configuration_checked_first _ (Demo.collab [] Demo.dataset false).
Proof.
  intro H.
  destruct (H ""%string ""%string 0.001%float 0%float "all"%string false 11 None
              Demo.world_fresh (or_intror (or_intror eq_refl))) as [Hcalls _].
  vm_compute in Hcalls. discriminate Hcalls.
Qed.

(** A run without a GPU, from a world without [results/]. *)
Lemma configuration_errors_witness :
  (str_in "all" ["all"; "ap"; "pa"; "lat"; "trainer"]%string = true /\
   results Demo.world_fresh = None /\
   @use_gpu _ (Demo.collab [] Demo.dataset false) = false) /\
  exists w',
    Demo.cnn [] false None Demo.world_fresh
    = (Raise (ValueError "Error, requires GPU"), w') /\
    saved_of w' = [] /\
    results w' <> None /\
    List.length (calls w') = 4 /\
    existsb (fun c => match c with BuildDensenet121 => true | _ => false end) (calls w')
    = false.
Proof.
  assert (str_in "all" ["all"; "ap"; "pa"; "lat"; "trainer"]%string = true) as H1
    by reflexivity.
  assert (results Demo.world_fresh = None) as H2 by reflexivity.
  assert (@use_gpu _ (Demo.collab [] Demo.dataset false) = false) as H3
    by reflexivity.
  split; [exact (conj H1 (conj H2 H3)) |].
  eexists. split.
  - exact (proj2 (proj2 (@configuration_errors _ (Demo.collab [] Demo.dataset false)
                           "" "" 0.001%float 0%float "all" false 11 None
                           Demo.world_fresh)) H1 H2 H3).
  - split; [reflexivity |]. split; [discriminate |]. split; reflexivity.
Defined.

(** A run that resumes from the old checkpoint: it ends on the best of its
    six epochs; its first checkpoint holds the model after the eighth
    optimiser step and the learning rate of the call, not the one of the old
    checkpoint, and no network was built. *)
Lemma resume_uses_stored_model_and_new_optimizer_witness :
  (str_in "all" ["all"; "ap"; "pa"; "lat"; "trainer"]%string = true /\
   results Demo.world_resume = None /\
   @use_gpu _ (Demo.collab Demo.scores3 Demo.dataset true) = true /\
   find_file "old/checkpoint_7" (user_files Demo.world_resume)
   = Some Demo.old_checkpoint) /\
  fst (Demo.cnn Demo.scores3 true (Some (UserPath "old/checkpoint_7"))
         Demo.world_resume) = Ret tt /\
  map (fun p => (fst p, params (ck_model (snd p)), ck_LR (snd p)))
      (firstn 1 (saved_of (snd (Demo.cnn Demo.scores3 true
                                  (Some (UserPath "old/checkpoint_7"))
                                  Demo.world_resume))))
  = [(1%Z, 8, 0.001%float)] /\
  existsb (fun c => match c with BuildDensenet121 => true | _ => false end)
          (calls (snd (Demo.cnn Demo.scores3 true
                         (Some (UserPath "old/checkpoint_7")) Demo.world_resume)))
  = false.
Proof.
  assert (str_in "all" ["all"; "ap"; "pa"; "lat"; "trainer"]%string = true) as H1
    by reflexivity.
  assert (results Demo.world_resume = None) as H2 by reflexivity.
  assert (@use_gpu _ (Demo.collab Demo.scores3 Demo.dataset true) = true) as H3
    by reflexivity.
  assert (find_file "old/checkpoint_7" (user_files Demo.world_resume)
          = Some Demo.old_checkpoint) as H4 by reflexivity.
  split; [exact (conj H1 (conj H2 (conj H3 H4))) |].
  pose proof (@resume_uses_stored_model_and_new_optimizer _
                (Demo.collab Demo.scores3 Demo.dataset true)
                "" "" 0.001%float 0%float "all" false 11
                "old/checkpoint_7" Demo.old_checkpoint Demo.world_resume H1 H2 H3 H4)
    as E.
  cbv zeta in E. rewrite E.
  split; [vm_compute; reflexivity |]. split; vm_compute; reflexivity.
Defined.

(** ** The evaluation routine on the instance *)

(** The samples with two findings: the second one has no positive sample, so
    its AUC is not defined and its row holds NaN. *)
Lemma auc_table_holds_score_or_nan_witness :
  (results Demo.world0 <> None /\
   @dataset_ok _ (Demo.collab [5] Demo.dataset2 true) false
     (@evaluated_dataset _ (Demo.collab [5] Demo.dataset2 true) Demo.transforms "" ""
        (Some Demo.dataset2)) Demo.model1 = true) /\
  exists pred_df auc_df w',
    @make_pred_multilabel _ (Demo.collab [5] Demo.dataset2 true) Demo.transforms
      Demo.model1 "" "" "auc" false (Some Demo.dataset2) false Demo.world0
    = (Ret (model_train Demo.model1 false, Some (pred_df, auc_df)), w') /\
    rows auc_df
    = [[("label"%string, CStr "Cardiomegaly"); ("auc"%string, CFloat 0.5%float)];
       [("label"%string, CStr "Edema"); ("auc"%string, CFloat PrimFloat.nan)]].
Proof.
  assert (results Demo.world0 <> None) as H1 by discriminate.
  assert (@dataset_ok _ (Demo.collab [5] Demo.dataset2 true) false
            (@evaluated_dataset _ (Demo.collab [5] Demo.dataset2 true) Demo.transforms
               "" "" (Some Demo.dataset2)) Demo.model1 = true) as H2
    by (vm_compute; reflexivity).
  split; [exact (conj H1 H2) |].
  destruct (@auc_table_holds_score_or_nan _ (Demo.collab [5] Demo.dataset2 true)
              Demo.transforms Demo.model1 "" "" false false (Some Demo.dataset2)
              Demo.world0 H1 H2)
    as (pred_df & true_df & auc_df & w' & E1 & E2 & _ & Hr).
  exists pred_df, auc_df, w'. split; [exact E2 |].
  rewrite Hr. vm_compute in E1. injection E1 as <- <-.
  vm_compute. reflexivity.
Defined.

(** The same evaluation with [verbose]: the label without a positive sample
    is reported. *)
Lemma verbose_reports_undefined_aucs_witness :
  @dataset_ok _ (Demo.collab [5] Demo.dataset2 true) false
    (@evaluated_dataset _ (Demo.collab [5] Demo.dataset2 true) Demo.transforms "" ""
       (Some Demo.dataset2)) Demo.model1 = true /\
  stdout (snd (@make_pred_multilabel _ (Demo.collab [5] Demo.dataset2 true)
                 Demo.transforms Demo.model1 "" "" "auc" false (Some Demo.dataset2)
                 true Demo.world0))
  = [MsgEvaluating 11; MsgModelTrain false; MsgCantCalculate "auc" "Edema"] /\
  stdout (snd (@make_pred_multilabel _ (Demo.collab [5] Demo.dataset2 true)
                 Demo.transforms Demo.model1 "" "" "auc" false (Some Demo.dataset2)
                 false Demo.world0))
  = [MsgEvaluating 11; MsgModelTrain false].
Proof.
  assert (@dataset_ok _ (Demo.collab [5] Demo.dataset2 true) false
            (@evaluated_dataset _ (Demo.collab [5] Demo.dataset2 true) Demo.transforms
               "" "" (Some Demo.dataset2)) Demo.model1 = true) as H
    by (vm_compute; reflexivity).
  split; [exact H |]. split.
  - destruct (@verbose_reports_undefined_aucs _ (Demo.collab [5] Demo.dataset2 true)
                Demo.transforms Demo.model1 "" "" false true (Some Demo.dataset2)
                Demo.world0 H) as (pred_df & true_df & E & Hs).
    rewrite Hs. vm_compute in E. injection E as <- <-. vm_compute. reflexivity.
  - destruct (@verbose_reports_undefined_aucs _ (Demo.collab [5] Demo.dataset2 true)
                Demo.transforms Demo.model1 "" "" false false (Some Demo.dataset2)
                Demo.world0 H) as (pred_df & true_df & E & Hs).
    rewrite Hs. reflexivity.
Defined.

(** The evaluation in a world without [results/]. *)
Lemma evaluation_needs_results_directory_witness :
  (results Demo.world_fresh = None /\
   @dataset_ok _ (Demo.collab [5] Demo.dataset2 true) false
     (@evaluated_dataset _ (Demo.collab [5] Demo.dataset2 true) Demo.transforms "" ""
        None) Demo.model1 = true) /\
  exists w',
    @make_pred_multilabel _ (Demo.collab [5] Demo.dataset2 true) Demo.transforms
      Demo.model1 "" "" "auc" false None false Demo.world_fresh
    = (Raise FileNotFoundError, w') /\
    results w' = None /\
    List.length (calls w') = 1.
Proof.
  assert (results Demo.world_fresh = None) as H1 by reflexivity.
  assert (@dataset_ok _ (Demo.collab [5] Demo.dataset2 true) false
            (@evaluated_dataset _ (Demo.collab [5] Demo.dataset2 true) Demo.transforms
               "" "" None) Demo.model1 = true) as H2
    by (vm_compute; reflexivity).
  split; [exact (conj H1 H2) |].
  destruct (@evaluation_needs_results_directory _ (Demo.collab [5] Demo.dataset2 true)
              Demo.transforms Demo.model1 "" "" false false None Demo.world_fresh H1 H2)
    as (w' & messages & E & R & _ & Hc).
  exists w'. split; [exact E |]. split; [exact R |]. now rewrite Hc.
Defined.

(** The F1 score on the same samples: the scores of the network are not class
    labels, so the metric raises for the first finding and the routine with
    it; a metric that accepts them gives a table with a row per finding. *)
Lemma f1_table_or_first_failure_witness :
  (results Demo.world0 = Some empty_results /\
   @dataset_ok _ (Demo.collab [5] Demo.dataset2 true) false
     (@evaluated_dataset _ (Demo.collab [5] Demo.dataset2 true) Demo.transforms "" ""
        (Some Demo.dataset2)) Demo.model1 = true) /\
  (exists w',
     @make_pred_multilabel _ (Demo.collab [5] Demo.dataset2 true) Demo.transforms
       Demo.model1 "" "" "f1" false (Some Demo.dataset2) false Demo.world0
     = (Raise (ValueError "mix of binary and continuous targets"), w') /\
     results w' = results Demo.world0) /\
  exists pred_df f1_df w',
    @make_pred_multilabel _
      (with_metrics (Demo.collab [5] Demo.dataset2 true) Demo.auc
         (fun _ _ => Ret 0.5%float))
      Demo.transforms Demo.model1 "" "" "f1" false (Some Demo.dataset2) false
      Demo.world0
    = (Ret (model_train Demo.model1 false, Some (pred_df, f1_df)), w') /\
    rows f1_df
    = [[("label"%string, CStr "Cardiomegaly"); ("f1"%string, CFloat 0.5%float)];
       [("label"%string, CStr "Edema"); ("f1"%string, CFloat 0.5%float)]].
Proof.
  assert (results Demo.world0 = Some empty_results) as H1 by reflexivity.
  assert (@dataset_ok _ (Demo.collab [5] Demo.dataset2 true) false
            (@evaluated_dataset _ (Demo.collab [5] Demo.dataset2 true) Demo.transforms
               "" "" (Some Demo.dataset2)) Demo.model1 = true) as H2
    by (vm_compute; reflexivity).
  split; [exact (conj H1 H2) |]. split.
  - destruct (@f1_table_or_first_failure _ (Demo.collab [5] Demo.dataset2 true)
                Demo.transforms Demo.model1 "" "" false false (Some Demo.dataset2)
                Demo.world0 empty_results H1 H2)
      as (pred_df & true_df & E & Hfail & _).
    vm_compute in E. injection E as <- <-.
    apply Hfail. vm_compute. reflexivity.
  - destruct (@f1_table_or_first_failure _
                (with_metrics (Demo.collab [5] Demo.dataset2 true) Demo.auc
                   (fun _ _ => Ret 0.5%float))
                Demo.transforms Demo.model1 "" "" false false (Some Demo.dataset2)
                Demo.world0 empty_results H1 H2)
      as (pred_df & true_df & E & _ & Hok).
    vm_compute in E. injection E as <- <-.
    destruct (Hok [0.5%float; 0.5%float]) as (f1_df & w' & r' & E2 & _ & Hr & _).
    { vm_compute. reflexivity. }
    eexists. exists f1_df, w'. split; [exact E2 |].
    rewrite Hr. vm_compute. reflexivity.
Defined.

(** The evaluation of a dataset without samples. *)
Lemma empty_dataset_gives_empty_tables_witness :
  (str_in "auc" ["auc"; "f1"]%string = true /\
   results Demo.world0 = Some empty_results /\
   len (@evaluated_dataset _ (Demo.collab [] Demo.dataset true) Demo.transforms "" ""
          (Some Demo.dataset_empty)) = 0) /\
  fst (@make_pred_multilabel _ (Demo.collab [] Demo.dataset true) Demo.transforms
         Demo.model0 "" "" "auc" false (Some Demo.dataset_empty) false Demo.world0)
  = Ret (model_train Demo.model0 false,
         Some (new_frame ["Image Index"%string], new_frame ["label"; "auc"]%string)) /\
  aucs_csv_of
    (snd (@make_pred_multilabel _ (Demo.collab [] Demo.dataset true) Demo.transforms
            Demo.model0 "" "" "auc" false (Some Demo.dataset_empty) false Demo.world0))
  = Some (new_frame ["label"; "auc"]%string).
Proof.
  assert (str_in "auc" ["auc"; "f1"]%string = true) as H1 by reflexivity.
  assert (results Demo.world0 = Some empty_results) as H2 by reflexivity.
  assert (len (@evaluated_dataset _ (Demo.collab [] Demo.dataset true) Demo.transforms
                 "" "" (Some Demo.dataset_empty)) = 0) as H3 by reflexivity.
  split; [exact (conj H1 (conj H2 H3)) |].
  rewrite (@empty_dataset_gives_empty_tables _ (Demo.collab [] Demo.dataset true)
             Demo.transforms Demo.model0 "" "" "auc" false false
             (Some Demo.dataset_empty) Demo.world0 empty_results H1 H2 H3).
  split; reflexivity.
Defined.

(** Two labels and a network with one output. *)
Lemma network_width_out_of_range_witness :
  (0 < len (@evaluated_dataset _ (Demo.collab [5] Demo.dataset2 true) Demo.transforms
              "" "" (Some Demo.dataset2)) /\
   out_features Demo.model_narrow
   < List.length
       (PRED_LABEL (@evaluated_dataset _ (Demo.collab [5] Demo.dataset2 true)
                      Demo.transforms "" "" (Some Demo.dataset2)))) /\
  exists w',
    @make_pred_multilabel _ (Demo.collab [5] Demo.dataset2 true) Demo.transforms
      Demo.model_narrow "" "" "auc" false (Some Demo.dataset2) false Demo.world0
    = (Raise IndexError, w') /\
    results w' = results Demo.world0.
Proof.
  assert (0 < len (@evaluated_dataset _ (Demo.collab [5] Demo.dataset2 true)
                     Demo.transforms "" "" (Some Demo.dataset2))) as H1
    by (cbn; lia).
  assert (out_features Demo.model_narrow
          < List.length
              (PRED_LABEL (@evaluated_dataset _ (Demo.collab [5] Demo.dataset2 true)
                             Demo.transforms "" "" (Some Demo.dataset2)))) as H2
    by (cbn; lia).
  split; [exact (conj H1 H2) |].
  exact (@network_width_out_of_range _ (Demo.collab [5] Demo.dataset2 true)
           Demo.transforms Demo.model_narrow "" "" "auc" false false
           (Some Demo.dataset2) Demo.world0 H1 H2).
Defined.


(** The fourth sample of the dataset with two findings: its score for the
    first finding and its labels. *)
Lemma tables_hold_scores_and_labels_witness :
  (0 < 16 /\
   @dataset_ok _ (Demo.collab [5] Demo.dataset2 true) false Demo.dataset2 Demo.model1
   = true /\
   NoDup (PRED_LABEL Demo.dataset2)) /\
  exists pred_df true_df thisrow truerow,
    @collect_rows _ (Demo.collab [5] Demo.dataset2 true) 16 false Demo.dataset2
      Demo.model1 = Ret (pred_df, true_df) /\
    nth_error (rows pred_df) 3 = Some thisrow /\
    nth_error (rows true_df) 3 = Some truerow /\
    dict_get "prob_Cardiomegaly" thisrow = Some (CFloat 0.25%float) /\
    dict_get "Cardiomegaly" truerow = Some (CInt 0).
Proof.
  assert (0 < 16) as H1 by lia.
  assert (@dataset_ok _ (Demo.collab [5] Demo.dataset2 true) false Demo.dataset2
            Demo.model1 = true) as H2 by (vm_compute; reflexivity).
  assert (NoDup (PRED_LABEL Demo.dataset2)) as H3.
  { cbn. repeat constructor; cbn; intuition discriminate. }
  split; [exact (conj H1 (conj H2 H3)) |].
  destruct (@tables_hold_scores_and_labels _ (Demo.collab [5] Demo.dataset2 true)
              16 false Demo.dataset2 Demo.model1 H1 H2 (fun _ => H3))
    as (pred_df & true_df & E & Hrows).
  destruct (Hrows 3 0 "Cardiomegaly"%string) as (thisrow & truerow & t & N1 & N2 & G1 & G2 & G3).
  { cbn. lia. }
  { reflexivity. }
  exists pred_df, true_df, thisrow, truerow.
  split; [exact E |]. split; [exact N1 |]. split; [exact N2 |].
  split; [exact G1 |].
  cbn in G2. injection G2 as <-. exact G3.
Defined.

(** A label that is not a finding gets no row. *)
Lemma scored_labels_are_known_findings_witness :
  (results Demo.world0 <> None /\
   @dataset_ok _ (Demo.collab [5] Demo.dataset_age true) false
     (@evaluated_dataset _ (Demo.collab [5] Demo.dataset_age true) Demo.transforms
        "" "" None) Demo.model1 = true /\
   0 < len (@evaluated_dataset _ (Demo.collab [5] Demo.dataset_age true)
              Demo.transforms "" "" None)) /\
  exists pred_df auc_df w',
    @make_pred_multilabel _ (Demo.collab [5] Demo.dataset_age true) Demo.transforms
      Demo.model1 "" "" "auc" false None false Demo.world0
    = (Ret (model_train Demo.model1 false, Some (pred_df, auc_df)), w') /\
    In (Some (CStr "Cardiomegaly")) (map (dict_get "label") (rows auc_df)) /\
    ~ In (Some (CStr "Age")) (map (dict_get "label") (rows auc_df)).
Proof.
  assert (results Demo.world0 <> None) as H1 by discriminate.
  assert (@dataset_ok _ (Demo.collab [5] Demo.dataset_age true) false
            (@evaluated_dataset _ (Demo.collab [5] Demo.dataset_age true)
               Demo.transforms "" "" None) Demo.model1 = true) as H2
    by (vm_compute; reflexivity).
  assert (0 < len (@evaluated_dataset _ (Demo.collab [5] Demo.dataset_age true)
                     Demo.transforms "" "" None)) as H3 by (cbn; lia).
  split; [exact (conj H1 (conj H2 H3)) |].
  destruct (@scored_labels_are_known_findings _ (Demo.collab [5] Demo.dataset_age true)
              Demo.transforms Demo.model1 "" "" false false None Demo.world0 H1 H2 H3)
    as (pred_df & auc_df & w' & E & Hl).
  exists pred_df, auc_df, w'. split; [exact E |]. split.
  - apply Hl. split; [cbn; now left | reflexivity].
  - intro Hin. apply Hl in Hin. destruct Hin as [_ Hf]. discriminate Hf.
Defined.

(** ** The training loop on the instance *)

(** A checkpoint for epoch 3 in the empty [results/], loaded again. *)
Lemma checkpoint_round_trip_witness :
  results Demo.world0 <> None /\
  exists w',
    checkpoint Demo.model1 0.25%float 0.5%float (new_frame []) 3 1 0.001%float 0%float
      Demo.world0 = (Ret tt, w') /\
    option_map (fun ck => (params (ck_model ck), ck_epoch ck, ck_best_epoch ck))
      (match fst (torch_load (CheckpointFile 3) w') with
       | Ret ck => Some ck
       | Raise _ => None
       end)
    = Some (1, 3%Z, 1%Z) /\
    fst (torch_load (CheckpointFile 2) w') = Raise FileNotFoundError.
Proof.
  assert (results Demo.world0 <> None) as H by discriminate.
  split; [exact H |].
  destruct (proj2 (@checkpoint_round_trip _ Demo.model1 0.25%float 0.5%float
                     (new_frame []) 3%Z 1%Z 0.001%float 0%float Demo.world0) H)
    as (w' & E & L & O & _).
  exists w'. split; [exact E |]. split.
  - rewrite L. reflexivity.
  - rewrite (O 2%Z) by discriminate. reflexivity.
Defined.

(** The run with the scores 0.5, 0.7, 0.6, 0.6, 0.6: it stops after epoch 5
    and returns epoch 2 and the model of its checkpoint. *)
Lemma train_model_returns_best_checkpoint_witness :
  (last_saved (-1) (saved_of Demo.world0) = None /\
   Demo.train Demo.scores2 Demo.dataset 100 Demo.model0 Demo.optimizer0 0.001%float
     Demo.world0
   = (Ret (Demo.model2, 2%Z), Demo.world_end2)) /\
  (1 <= 2 <= 100)%Z /\
  exists ck,
    torch_load (CheckpointFile 2) Demo.world_end2 = (Ret ck, Demo.world_end2) /\
    Demo.model2 = ck_model ck /\
    params Demo.model2 = 2 /\
    training Demo.model2 = false /\
    ck_best_val_acc ck = 0.7%float.
Proof.
  assert (last_saved (-1) (saved_of Demo.world0) = None) as H1 by reflexivity.
  assert (Demo.train Demo.scores2 Demo.dataset 100 Demo.model0 Demo.optimizer0
            0.001%float Demo.world0
          = (Ret (Demo.model2, 2%Z), Demo.world_end2)) as H2
    by (vm_compute; reflexivity).
  split; [exact (conj H1 H2) |].
  destruct (@train_model_returns_best_checkpoint _
              (Demo.collab Demo.scores2 Demo.dataset true) BCELoss 100
              (fun g => ([16], S g)) 16 0%float Demo.dataset Demo.transforms "" "" true
              Demo.model0 Demo.optimizer0 0.001%float Demo.model2 2%Z
              Demo.world0 Demo.world_end2 H1 H2)
    as (Hr & ck & L & Hm & Ht & _).
  split; [exact Hr |]. exists ck. split; [exact L |]. split; [exact Hm |].
  split; [vm_compute; reflexivity |]. split; [exact Ht |].
  assert (fst (torch_load (CheckpointFile 2) Demo.world_end2)
          = Ret ck) as L' by (now rewrite L).
  vm_compute in L'. injection L' as <-. vm_compute. reflexivity.
Defined.

(** The scores of the five epochs of that run: none is above the 0.7 of
    epoch 2. *)
Lemma best_epoch_score_is_not_exceeded_witness :
  (last_saved (-1) (saved_of Demo.world0) = None /\
   Demo.train Demo.scores2 Demo.dataset 100 Demo.model0 Demo.optimizer0 0.001%float
     Demo.world0
   = (Ret (Demo.model2, 2%Z), Demo.world_end2)) /\
  map (fun p => (fst p, ck_best_val_acc (snd p))) (saved_of Demo.world_end2)
  = [(1%Z, 0.5%float); (2%Z, 0.7%float); (3%Z, 0.6%float); (4%Z, 0.6%float);
     (5%Z, 0.6%float)] /\
  exists cks ck,
    saved_of Demo.world_end2 = saved_of Demo.world0 ++ cks /\
    In (2%Z, ck) cks /\
    forall p, In p cks ->
      PrimFloat.ltb (ck_best_val_acc ck) (ck_best_val_acc (snd p)) = false.
Proof.
  assert (last_saved (-1) (saved_of Demo.world0) = None) as H1 by reflexivity.
  assert (Demo.train Demo.scores2 Demo.dataset 100 Demo.model0 Demo.optimizer0
            0.001%float Demo.world0
          = (Ret (Demo.model2, 2%Z), Demo.world_end2)) as H2
    by (vm_compute; reflexivity).
  split; [exact (conj H1 H2) |].
  split; [vm_compute; reflexivity |].
  exact (@best_epoch_score_is_not_exceeded _
           (Demo.collab Demo.scores2 Demo.dataset true) BCELoss 100
           (fun g => ([16], S g)) 16 0%float Demo.dataset Demo.transforms "" "" true
           Demo.model0 Demo.optimizer0 0.001%float Demo.model2 2%Z
           Demo.world0 Demo.world_end2 H1 H2).
Defined.

(** The training log of that run: the header and five rows. *)
Lemma log_train_mirrors_checkpoints_witness :
  Demo.train Demo.scores2 Demo.dataset 100 Demo.model0 Demo.optimizer0 0.001%float
    Demo.world0
  = (Ret (Demo.model2, 2%Z), Demo.world_end2) /\
  log_train_of Demo.world_end2
  = [[CStr "epoch"; CStr "train_loss"; CStr "average auc"];
     [CInt 1; CFloat 0.25%float; CFloat 0.5%float];
     [CInt 2; CFloat 0.25%float; CFloat 0.7%float];
     [CInt 3; CFloat 0.25%float; CFloat 0.6%float];
     [CInt 4; CFloat 0.25%float; CFloat 0.6%float];
     [CInt 5; CFloat 0.25%float; CFloat 0.6%float]] /\
  exists cks e,
    saved_of Demo.world_end2 = saved_of Demo.world0 ++ cks /\
    map fst cks = py_range 1 e /\
    log_train_of Demo.world_end2
    = log_train_of Demo.world0 ++
      match cks with
      | [] => []
      | _ :: _ => log_train_header :: map log_train_row cks
      end.
Proof.
  assert (Demo.train Demo.scores2 Demo.dataset 100 Demo.model0 Demo.optimizer0
            0.001%float Demo.world0
          = (Ret (Demo.model2, 2%Z), Demo.world_end2)) as H
    by (vm_compute; reflexivity).
  split; [exact H |]. split; [vm_compute; reflexivity |].
  exact (@log_train_mirrors_checkpoints _
           (Demo.collab Demo.scores2 Demo.dataset true) BCELoss 100
           (fun g => ([16], S g)) 16 0%float Demo.dataset Demo.transforms "" "" true
           Demo.model0 Demo.optimizer0 0.001%float Demo.model2 2%Z
           Demo.world0 Demo.world_end2 H).
Defined.

(** A call with [num_epochs = 0]. *)
Lemma no_epoch_no_model_witness :
  ((0 <= 0)%Z /\ last_saved (-1) (saved_of Demo.world0) = None) /\
  fst (Demo.train [] Demo.dataset 0 Demo.model0 Demo.optimizer0 0.001%float Demo.world0)
  = Raise FileNotFoundError /\
  saved_of (snd (Demo.train [] Demo.dataset 0 Demo.model0 Demo.optimizer0 0.001%float
                   Demo.world0)) = [].
Proof.
  assert ((0 <= 0)%Z) as H1 by lia.
  assert (last_saved (-1) (saved_of Demo.world0) = None) as H2 by reflexivity.
  split; [exact (conj H1 H2) |].
  pose proof (@no_epoch_no_model _ (Demo.collab [] Demo.dataset true) BCELoss 0
                (fun g => ([16], S g)) 16 0%float Demo.dataset Demo.transforms "" "" true
                Demo.model0 Demo.optimizer0 0.001%float Demo.world0 H1 H2) as E.
  cbv zeta in E. destruct E as (E1 & E2 & _).
  split; [exact E1 | exact E2].
Defined.

(** A call with an empty training set. *)
Lemma empty_training_set_divides_by_zero_witness :
  (0 = 0 /\ (1 <= 100)%Z /\ results Demo.world0 <> None) /\
  fst (@train_model _ (Demo.collab [] Demo.dataset true) BCELoss 100
         (fun g => ([], g)) 0 0%float Demo.dataset Demo.transforms "" "" true
         Demo.model0 Demo.optimizer0 0.001%float Demo.world0)
  = Raise ZeroDivisionError /\
  saved_of (snd (@train_model _ (Demo.collab [] Demo.dataset true) BCELoss 100
                   (fun g => ([], g)) 0 0%float Demo.dataset Demo.transforms "" "" true
                   Demo.model0 Demo.optimizer0 0.001%float Demo.world0)) = [].
Proof.
  assert (0 = 0) as H1 by reflexivity.
  assert ((1 <= 100)%Z) as H2 by lia.
  assert (results Demo.world0 <> None) as H3 by discriminate.
  split; [exact (conj H1 (conj H2 H3)) |].
  pose proof (@empty_training_set_divides_by_zero _ (Demo.collab [] Demo.dataset true)
                BCELoss 100 (fun g => ([], g)) 0 0%float Demo.dataset Demo.transforms
                "" "" true Demo.model0 Demo.optimizer0 0.001%float Demo.world0
                H1 H2 H3) as E.
  cbv zeta in E. destruct E as (E1 & E2 & _).
  split; [exact E1 | exact E2].
Defined.

(** The epoch on the samples with two findings: its checkpoint, and the
    table in [results/aucs.csv]. *)
Lemma epoch_saves_one_checkpoint_witness :
  Demo.body [5] Demo.dataset2 1 1 (Demo.state4 0) (Demo.world4 0)
  = (Ret (Demo.state4 1, false), Demo.world4 1) /\
  map (fun p => (fst p, params (ck_model (snd p)), training (ck_model (snd p)),
                 ck_best_val_acc (snd p), ck_best_epoch (snd p), ck_rng_state (snd p)))
      (saved_of (Demo.world4 1))
  = [(1%Z, 1, false, 0.5%float, 1%Z, 1)] /\
  option_map (table_scores "auc") (aucs_csv_of (Demo.world4 1))
  = Some [0.5%float; PrimFloat.nan] /\
  exists metric,
    saved_of (Demo.world4 1)
    = saved_of (Demo.world4 0) ++
      [(1%Z,
        {| ck_model := st_model (Demo.state4 1);
           ck_last_train_loss := st_last_train_loss (Demo.state4 1);
           ck_best_val_acc := st_last_val_acc (Demo.state4 1);
           ck_metric := metric;
           ck_epoch := 1;
           ck_best_epoch := st_best_epoch (Demo.state4 1);
           ck_rng_state := snd (([16], S (rng (Demo.world4 0))));
           ck_LR := st_LR (Demo.state4 1);
           ck_WD := 0%float |})] /\
    aucs_csv_of (Demo.world4 1) = Some metric /\
    rng (Demo.world4 1) = snd (([16], S (rng (Demo.world4 0)))).
Proof.
  assert (Demo.body [5] Demo.dataset2 1 1 (Demo.state4 0) (Demo.world4 0)
          = (Ret (Demo.state4 1, false), Demo.world4 1)) as E
    by (vm_compute; reflexivity).
  split; [exact E |]. split; [vm_compute; reflexivity |].
  split; [vm_compute; reflexivity |].
  exact (@epoch_saves_one_checkpoint _ (Demo.collab [5] Demo.dataset2 true) BCELoss 1
           (fun g => ([16], S g)) 16 0%float Demo.dataset2 Demo.transforms "" "" true
           1%Z (Demo.state4 0) (Demo.state4 1) false (Demo.world4 0) (Demo.world4 1) E).
Defined.

(** An epoch without cross-validation: the validation fold is read from
    disk, whatever dataset the call was given. *)
Lemma epoch_reads_validation_fold_witness :
  Demo.body_val 1%Z (initial_state Demo.model0 Demo.optimizer0 0.001%float) Demo.world0
  = (Ret (Demo.state_val, false), Demo.world_val) /\
  st_last_val_acc Demo.state_val = 0.5%float /\
  calls Demo.world_val
  = [BuildDataset
       {| path_to_images := "images"; path_to_csv := "labels.csv";
          fold := "val"; uncertain := None;
          transform_arg := val_transform;
          orientation_arg := None; sample := None; mask := None;
          verbose_arg := None |}].
Proof.
  assert (Demo.body_val 1%Z (initial_state Demo.model0 Demo.optimizer0 0.001%float)
            Demo.world0
          = (Ret (Demo.state_val, false), Demo.world_val)) as E
    by (vm_compute; reflexivity).
  split; [exact E |]. split; [vm_compute; reflexivity |].
  rewrite (@epoch_reads_validation_fold _ (Demo.collab [5] Demo.dataset true) BCELoss 1
             (fun g => ([16], S g)) 16 0%float Demo.dataset_negative Demo.transforms
             "images" "labels.csv" false 1%Z
             (initial_state Demo.model0 Demo.optimizer0 0.001%float) Demo.state_val
             false Demo.world0 Demo.world_val E).
  reflexivity.
Defined.

(** A run of [train_cnn] without a checkpoint: the network has five outputs,
    and the first checkpoint holds it after one optimiser step. *)
Lemma new_network_matches_orientation_witness :
  (str_in "all" ["all"; "ap"; "pa"; "lat"; "trainer"]%string = true /\
   results Demo.world_fresh = None /\
   @use_gpu _ (Demo.collab Demo.scores2 Demo.dataset true) = true) /\
  fst (Demo.cnn Demo.scores2 true None Demo.world_fresh) = Ret tt /\
  map (fun p => (fst p, out_features (ck_model (snd p)), params (ck_model (snd p))))
      (firstn 1 (saved_of (snd (Demo.cnn Demo.scores2 true None Demo.world_fresh))))
  = [(1%Z, 5, 1)] /\
  existsb (fun c => match c with BuildDensenet121 => true | _ => false end)
          (calls (snd (Demo.cnn Demo.scores2 true None Demo.world_fresh)))
  = true.
Proof.
  assert (str_in "all" ["all"; "ap"; "pa"; "lat"; "trainer"]%string = true) as H1
    by reflexivity.
  assert (results Demo.world_fresh = None) as H2 by reflexivity.
  assert (@use_gpu _ (Demo.collab Demo.scores2 Demo.dataset true) = true) as H3
    by reflexivity.
  split; [exact (conj H1 (conj H2 H3)) |].
  pose proof (@new_network_matches_orientation _
                (Demo.collab Demo.scores2 Demo.dataset true)
                "" "" 0.001%float 0%float "all" false 11 Demo.world_fresh H1 H2 H3)
    as E.
  cbv zeta in E. rewrite E.
  split; [vm_compute; reflexivity |]. split; vm_compute; reflexivity.
Defined.

(** That run has five epochs: three more than its best epoch, the second. *)
Lemma epochs_run_is_minimum_witness :
  ((0 <= 100)%Z /\
   Demo.train Demo.scores2 Demo.dataset 100 Demo.model0 Demo.optimizer0 0.001%float
     Demo.world0
   = (Ret (Demo.model2, 2%Z), Demo.world_end2)) /\
  List.length (saved_of Demo.world_end2) = 5 /\
  exists cks,
    saved_of Demo.world_end2 = saved_of Demo.world0 ++ cks /\
    Z.of_nat (List.length cks) = Z.min 100 (2 + 3).
Proof.
  assert ((0 <= 100)%Z) as H1 by lia.
  assert (Demo.train Demo.scores2 Demo.dataset 100 Demo.model0 Demo.optimizer0
            0.001%float Demo.world0
          = (Ret (Demo.model2, 2%Z), Demo.world_end2)) as H2
    by (vm_compute; reflexivity).
  split; [exact (conj H1 H2) |]. split; [vm_compute; reflexivity |].
  exact (@epochs_run_is_minimum _
           (Demo.collab Demo.scores2 Demo.dataset true) BCELoss 100
           (fun g => ([16], S g)) 16 0%float Demo.dataset Demo.transforms "" "" true
           Demo.model0 Demo.optimizer0 0.001%float Demo.model2 2%Z
           Demo.world0 Demo.world_end2 H1 H2).
Defined.

(** The first epoch on the samples with two findings: one optimiser step, on
    one batch of sixteen samples with the loss 0.25. *)
Lemma epoch_keeps_trained_weights_witness :
  Demo.body [5] Demo.dataset2 1 1 (Demo.state4 0) (Demo.world4 0)
  = (Ret (Demo.state4 1, false), Demo.world4 1) /\
  params (st_model (Demo.state4 1)) = 1 /\
  out_features (st_model (Demo.state4 1)) = 2 /\
  training (st_model (Demo.state4 1)) = false /\
  st_last_train_loss (Demo.state4 1) = 0.25%float /\
  st_best_loss (Demo.state4 1) = 0.25%float.
Proof.
  assert (Demo.body [5] Demo.dataset2 1 1 (Demo.state4 0) (Demo.world4 0)
          = (Ret (Demo.state4 1, false), Demo.world4 1)) as E
    by (vm_compute; reflexivity).
  split; [exact E |].
  pose proof (@epoch_keeps_trained_weights _ (Demo.collab [5] Demo.dataset2 true)
                BCELoss 1 (fun g => ([16], S g)) 16 0%float Demo.dataset2
                Demo.transforms "" "" true 1%Z (Demo.state4 0) (Demo.state4 1) false
                (Demo.world4 0) (Demo.world4 1) E) as H.
  cbv zeta in H. destruct H as (H1 & H2 & H3 & H4 & H5 & _).
  split; [rewrite H1; vm_compute; reflexivity |].
  split; [rewrite H2; vm_compute; reflexivity |].
  split; [exact H3 |].
  split; [rewrite H4; vm_compute; reflexivity |].
  rewrite H5, H4. vm_compute. reflexivity.
Defined.

(** The first epoch on the samples without a positive one: no AUC is
    defined, and the best epoch stays at -1. *)
Lemma undefined_validation_score_is_inert_witness :
  (Demo.body [] Demo.dataset_negative 100 1
     (initial_state Demo.model0 Demo.optimizer0 0.001%float) Demo.world_started
   = (Ret (Demo.state3 1, false), Demo.world3 1) /\
   np_isnan (st_last_val_acc (Demo.state3 1)) = true) /\
  st_LR (Demo.state3 1) = 0.001%float /\
  st_best_val_acc (Demo.state3 1) = 0%float /\
  st_best_epoch (Demo.state3 1) = (-1)%Z.
Proof.
  assert (Demo.body [] Demo.dataset_negative 100 1
            (initial_state Demo.model0 Demo.optimizer0 0.001%float) Demo.world_started
          = (Ret (Demo.state3 1, false), Demo.world3 1)) as E
    by (vm_compute; reflexivity).
  assert (np_isnan (st_last_val_acc (Demo.state3 1)) = true) as N
    by (vm_compute; reflexivity).
  split; [exact (conj E N) |].
  destruct (@undefined_validation_score_is_inert _
              (Demo.collab [] Demo.dataset_negative true) BCELoss 100
              (fun g => ([16], S g)) 16 0%float Demo.dataset_negative Demo.transforms
              "" "" true 1%Z (initial_state Demo.model0 Demo.optimizer0 0.001%float)
              (Demo.state3 1) false Demo.world_started (Demo.world3 1) E N)
    as (H1 & H2 & H3 & _).
  split; [exact H1 |]. split; [exact H2 | exact H3].
Defined.
